(** * Hockey_Remote: the control core of the ESP32 scoreboard IR bridge

    A shallow embedding of [src/main.cpp]: the UDP frame codec with its
    dedup record, the command dispatcher, the bounded action queue and its
    executor, the RC5 encoder with its toggle bit, the siren pulse-train
    engine, the status LED engine, the OTA service window and the
    scheduler loop.

    Conventions.
    - Every C integer is a [Z]; the wrap-around of [uint8_t], [uint16_t]
      and [unsigned long] (32 bits on the ESP32) is written out with [u8],
      [u16] and [u32].
    - The globals of the sketch are grouped by engine into records and
      passed explicitly.
    - [millis()] and [WiFi.status()] are inputs: every engine call takes the
      clock reading [now] (a 32-bit value) and the link state [wifi] as
      arguments.
    - GPIO levels are fields of the engine records; what leaves through a
      library object (UDP, IRsend, ArduinoOTA, WiFi) is an [Event] of the
      returned trace.  Two more events mark internal steps, so that
      orderings can be read off the trace: the call of the dispatcher and
      the removal of an action from the queue. *)

From Stdlib Require Import ZArith Lia Bool List.
From stdpp Require Import base list.
Import ListNotations.

Local Open Scope Z_scope.

(* ================================================================== *)
(** ** Machine integers *)

Definition u8 (x : Z) : Z := x mod 256.
Definition u16 (x : Z) : Z := x mod 65536.
Definition u32 (x : Z) : Z := x mod 4294967296.
Definition not64 (x : Z) : Z := Z.lxor x (Z.ones 64).

(* ================================================================== *)
(** ** Constants *)

Definition SIREN_ACTIVE_HIGH : bool := true.

Definition MAGIC : Z := 0xA5.
Definition VER : Z := 0x01.
Definition CMD_ACK : Z := 0x7F.

Definition CMD_MODE_SWITCH : Z := 0x40.
Definition CMD_RESET_SCOREBOARD : Z := 0x41.
Definition CMD_SIREN : Z := 0x60.
Definition CMD_OTA_MODE : Z := 0x70.

Definition IR_GAP_MS_DEFAULT : Z := 100.
Definition IR_GAP_MS_EXIT3_END : Z := 500.

Definition OTA_WINDOW_MS : Z := 180000.

Definition ACTIVITY_BLINK_ON_MS : Z := 70.
Definition ACTIVITY_BLINK_OFF_MS : Z := 70.
Definition ACTIVITY_BLINK_COUNT : Z := 4.

Definition WIFI_RETRY_INTERVAL_MS : Z := 3000.

Definition QSIZE : Z := 32.

(** [sizeof(buf)] in [processUdp]. *)
Definition UDP_BUF_SIZE : nat := 128.

(* ================================================================== *)
(** ** Status LED *)

Record Led : Type := mkLed {
  ledInBurst : bool;
  ledLevel : bool;
  ledNextMs : Z;
  ledTogglesLeft : Z;
  pinStatusLed : bool
}.

Definition statusLedWrite (on : bool) (l : Led) : Led :=
  mkLed (ledInBurst l) (ledLevel l) (ledNextMs l) (ledTogglesLeft l) on.

Definition statusLedSetBase (wifi : bool) (l : Led) : Led :=
  let l := statusLedWrite wifi l in
  mkLed (ledInBurst l) wifi (ledNextMs l) (ledTogglesLeft l) (pinStatusLed l).

Definition statusLedActivityBurst (now : Z) (l : Led) : Led :=
  let l := mkLed true (ledLevel l) (ledNextMs l)
                 (u8 (ACTIVITY_BLINK_COUNT * 2)) (pinStatusLed l) in
  let l := statusLedWrite false l in
  mkLed (ledInBurst l) false (u32 (now + ACTIVITY_BLINK_OFF_MS))
        (ledTogglesLeft l) (pinStatusLed l).

Definition statusLedTick (now : Z) (wifi : bool) (l : Led) : Led :=
  if negb (ledInBurst l) then statusLedSetBase wifi l
  else if now <? ledNextMs l then l
  else
    let l := statusLedWrite (negb (ledLevel l)) l in
    let l := mkLed (ledInBurst l) (negb (ledLevel l)) (ledNextMs l)
                   (ledTogglesLeft l) (pinStatusLed l) in
    let l := if 0 <? ledTogglesLeft l
             then mkLed (ledInBurst l) (ledLevel l) (ledNextMs l)
                        (u8 (ledTogglesLeft l - 1)) (pinStatusLed l)
             else l in
    if ledTogglesLeft l =? 0 then
      statusLedSetBase wifi
        (mkLed false (ledLevel l) (ledNextMs l) (ledTogglesLeft l)
               (pinStatusLed l))
    else
      mkLed (ledInBurst l) (ledLevel l)
            (u32 (now + (if ledLevel l then ACTIVITY_BLINK_ON_MS
                         else ACTIVITY_BLINK_OFF_MS)))
            (ledTogglesLeft l) (pinStatusLed l).

(* ================================================================== *)
(** ** Siren engine *)

Record Siren : Type := mkSiren {
  sirenActive : bool;
  sirenCount : Z;
  sirenOnMs : list Z;
  sirenOffMs : list Z;
  sirenIndex : Z;
  sirenPhaseOn : bool;
  sirenNextMs : Z;
  pinSiren : bool
}.

(** [digitalWrite(SIREN_PIN, level ? HIGH : LOW)] *)
Definition sirenWrite (on : bool) (sr : Siren) : Siren :=
  let level := if SIREN_ACTIVE_HIGH then on else negb on in
  mkSiren (sirenActive sr) (sirenCount sr) (sirenOnMs sr) (sirenOffMs sr)
          (sirenIndex sr) (sirenPhaseOn sr) (sirenNextMs sr) level.

Definition sirenStop (sr : Siren) : Siren :=
  sirenWrite false
    (mkSiren false 0 (sirenOnMs sr) (sirenOffMs sr) 0 false 0 (pinSiren sr)).

(** The body of the copy loop of [sirenStart], for [i = 0..4]. *)
Definition sirenCopy (count : Z) (arr : list Z) : list Z :=
  map (fun i : Z => if i <? count then arr !!! Z.to_nat i else 0)
      [0; 1; 2; 3; 4].

Definition sirenStart (now : Z) (count : Z) (onArr offArr : list Z)
    (sr : Siren) : Siren :=
  let onMs := sirenCopy count onArr in
  let offMs := sirenCopy count offArr in
  let sr := mkSiren true count onMs offMs 0 true (sirenNextMs sr)
                    (pinSiren sr) in
  let sr := sirenWrite true sr in
  mkSiren (sirenActive sr) (sirenCount sr) (sirenOnMs sr) (sirenOffMs sr)
          (sirenIndex sr) (sirenPhaseOn sr)
          (u32 (now + sirenOnMs sr !!! 0%nat)) (pinSiren sr).

Definition sirenTick (now : Z) (sr : Siren) : Siren :=
  if negb (sirenActive sr) then sr
  else if now <? sirenNextMs sr then sr
  else if sirenPhaseOn sr then
    let sr := sirenWrite false sr in
    mkSiren (sirenActive sr) (sirenCount sr) (sirenOnMs sr) (sirenOffMs sr)
            (sirenIndex sr) false
            (u32 (now + sirenOffMs sr !!! Z.to_nat (sirenIndex sr)))
            (pinSiren sr)
  else if sirenCount sr <=? sirenIndex sr + 1 then sirenStop sr
  else
    let sr := mkSiren (sirenActive sr) (sirenCount sr) (sirenOnMs sr)
                      (sirenOffMs sr) (u8 (sirenIndex sr + 1)) true
                      (sirenNextMs sr) (pinSiren sr) in
    let sr := sirenWrite true sr in
    mkSiren (sirenActive sr) (sirenCount sr) (sirenOnMs sr) (sirenOffMs sr)
            (sirenIndex sr) (sirenPhaseOn sr)
            (u32 (now + sirenOnMs sr !!! Z.to_nat (sirenIndex sr)))
            (pinSiren sr).

(* ================================================================== *)
(** ** RC5 table *)

Definition RC5_TOGGLE_MASK_12BIT : Z := 0x800.

Record Rc5Entry : Type := mkRc5 { bits : Z; v_t0 : Z; v_t1 : Z }.

#[global] Instance Rc5Entry_inhabited : Inhabited Rc5Entry :=
  populate (mkRc5 0 0 0).

Definition RC5_TABLE : list Rc5Entry := [
  mkRc5 12 (Z.land 0x8CA (not64 RC5_TOGGLE_MASK_12BIT)) (Z.lor 0x8CA RC5_TOGGLE_MASK_12BIT);
  mkRc5 12 (Z.land 0x0CB (not64 RC5_TOGGLE_MASK_12BIT)) (Z.lor 0x0CB RC5_TOGGLE_MASK_12BIT);
  mkRc5 12 (Z.land 0x80C (not64 RC5_TOGGLE_MASK_12BIT)) (Z.lor 0x80C RC5_TOGGLE_MASK_12BIT);
  mkRc5 12 (Z.land 0x02F (not64 RC5_TOGGLE_MASK_12BIT)) (Z.lor 0x02F RC5_TOGGLE_MASK_12BIT);
  mkRc5 12 (Z.land 0x838 (not64 RC5_TOGGLE_MASK_12BIT)) (Z.lor 0x838 RC5_TOGGLE_MASK_12BIT);
  mkRc5 12 (Z.land 0x021 (not64 RC5_TOGGLE_MASK_12BIT)) (Z.lor 0x021 RC5_TOGGLE_MASK_12BIT);
  mkRc5 12 (Z.land 0x820 (not64 RC5_TOGGLE_MASK_12BIT)) (Z.lor 0x820 RC5_TOGGLE_MASK_12BIT);
  mkRc5 12 (Z.land 0x022 (not64 RC5_TOGGLE_MASK_12BIT)) (Z.lor 0x022 RC5_TOGGLE_MASK_12BIT);
  mkRc5 12 (Z.land 0x0E6 (not64 RC5_TOGGLE_MASK_12BIT)) (Z.lor 0x0E6 RC5_TOGGLE_MASK_12BIT);
  mkRc5 12 (Z.land 0x80D (not64 RC5_TOGGLE_MASK_12BIT)) (Z.lor 0x80D RC5_TOGGLE_MASK_12BIT);
  mkRc5 12 (Z.land 0x011 (not64 RC5_TOGGLE_MASK_12BIT)) (Z.lor 0x011 RC5_TOGGLE_MASK_12BIT);
  mkRc5 12 (Z.land 0x810 (not64 RC5_TOGGLE_MASK_12BIT)) (Z.lor 0x810 RC5_TOGGLE_MASK_12BIT);
  mkRc5 12 (Z.land 0x02B (not64 RC5_TOGGLE_MASK_12BIT)) (Z.lor 0x02B RC5_TOGGLE_MASK_12BIT);
  mkRc5 12 (Z.land 0x800 (not64 RC5_TOGGLE_MASK_12BIT)) (Z.lor 0x800 RC5_TOGGLE_MASK_12BIT);
  mkRc5 12 (Z.land 0x801 (not64 RC5_TOGGLE_MASK_12BIT)) (Z.lor 0x801 RC5_TOGGLE_MASK_12BIT);
  mkRc5 12 (Z.land 0x002 (not64 RC5_TOGGLE_MASK_12BIT)) (Z.lor 0x002 RC5_TOGGLE_MASK_12BIT);
  mkRc5 12 (Z.land 0x803 (not64 RC5_TOGGLE_MASK_12BIT)) (Z.lor 0x803 RC5_TOGGLE_MASK_12BIT);
  mkRc5 12 (Z.land 0x02E (not64 RC5_TOGGLE_MASK_12BIT)) (Z.lor 0x02E RC5_TOGGLE_MASK_12BIT);
  mkRc5 12 (Z.land 0x804 (not64 RC5_TOGGLE_MASK_12BIT)) (Z.lor 0x804 RC5_TOGGLE_MASK_12BIT);
  mkRc5 12 (Z.land 0x005 (not64 RC5_TOGGLE_MASK_12BIT)) (Z.lor 0x005 RC5_TOGGLE_MASK_12BIT);
  mkRc5 12 (Z.land 0x806 (not64 RC5_TOGGLE_MASK_12BIT)) (Z.lor 0x806 RC5_TOGGLE_MASK_12BIT);
  mkRc5 12 (Z.land 0x02C (not64 RC5_TOGGLE_MASK_12BIT)) (Z.lor 0x02C RC5_TOGGLE_MASK_12BIT);
  mkRc5 12 (Z.land 0x807 (not64 RC5_TOGGLE_MASK_12BIT)) (Z.lor 0x807 RC5_TOGGLE_MASK_12BIT);
  mkRc5 12 (Z.land 0x008 (not64 RC5_TOGGLE_MASK_12BIT)) (Z.lor 0x008 RC5_TOGGLE_MASK_12BIT);
  mkRc5 12 (Z.land 0x809 (not64 RC5_TOGGLE_MASK_12BIT)) (Z.lor 0x809 RC5_TOGGLE_MASK_12BIT);
  mkRc5 12 (Z.land 0x029 (not64 RC5_TOGGLE_MASK_12BIT)) (Z.lor 0x029 RC5_TOGGLE_MASK_12BIT);
  mkRc5 12 (Z.land 0x80F (not64 RC5_TOGGLE_MASK_12BIT)) (Z.lor 0x80F RC5_TOGGLE_MASK_12BIT)
].

Definition IDX_EXIT : Z := 2.
Definition IDX_8 : Z := 23.
Definition IDX_9 : Z := 24.

(** [readU16LE(p)]: reads [p[0]] and [p[1]]. *)
Definition readU16LE (p : list Z) : Z :=
  u16 (Z.lor (p !!! 0%nat) (Z.shiftl (p !!! 1%nat) 8)).

(** [writeU16LE(p, v)]: the two bytes stored at [p[0]], [p[1]]. *)
Definition writeU16LE (v : Z) : list Z :=
  [u8 (Z.land v 0xFF); u8 (Z.shiftr v 8)].

(* ================================================================== *)
(** ** Action queue *)

(** [enum class ActionType : uint8_t { Press = 1, Delay = 2 }]; a slot of
    the zero-initialised array [q] carries the tag 0, which is neither. *)
Inductive ActionType : Type := NoAction | Press | Delay.

Record Action : Type := mkAction { a_type : ActionType; a_arg : Z }.

#[global] Instance Action_inhabited : Inhabited Action :=
  populate (mkAction NoAction 0).

Record Queue : Type := mkQueue {
  q : list Action;
  qHead : Z;
  qTail : Z;
  qCount : Z
}.

Definition qPush (a : Action) (qu : Queue) : bool * Queue :=
  if QSIZE <=? qCount qu then (false, qu)
  else
    (true,
     mkQueue (<[Z.to_nat (qTail qu) := a]> (q qu))
             (qHead qu)
             (u8 ((qTail qu + 1) mod QSIZE))
             (u8 (qCount qu + 1))).

Definition qPop (qu : Queue) : option Action * Queue :=
  if qCount qu =? 0 then (None, qu)
  else
    (Some (q qu !!! Z.to_nat (qHead qu)),
     mkQueue (q qu)
             (u8 ((qHead qu + 1) mod QSIZE))
             (qTail qu)
             (u8 (qCount qu - 1))).

Definition queuePress (idx : Z) (qu : Queue) : Queue :=
  snd (qPush (mkAction Press idx) qu).

Definition queueDelay (ms : Z) (qu : Queue) : Queue :=
  snd (qPush (mkAction Delay ms) qu).

Definition queueMacroModeSwitch (qu : Queue) : Queue :=
  let qu := queuePress IDX_EXIT qu in
  let qu := queueDelay IR_GAP_MS_DEFAULT qu in
  let qu := queuePress IDX_EXIT qu in
  let qu := queueDelay IR_GAP_MS_DEFAULT qu in
  let qu := queuePress IDX_EXIT qu in
  queueDelay IR_GAP_MS_EXIT3_END qu.

Definition queueMacroResetScoreboard (qu : Queue) : Queue :=
  let qu := queuePress IDX_9 qu in
  let qu := queueDelay IR_GAP_MS_DEFAULT qu in
  let qu := queuePress IDX_8 qu in
  let qu := queueDelay IR_GAP_MS_DEFAULT qu in
  let qu := queuePress IDX_8 qu in
  let qu := queueDelay IR_GAP_MS_DEFAULT qu in
  queuePress IDX_8 qu.

(* ================================================================== *)
(** ** Dedup record, OTA window, and the whole state *)

Record Dedup : Type := mkDedup {
  lastId : Z;
  lastIdValid : bool;
  lastAckStatus : Z
}.

Record Ota : Type := mkOta {
  otaEnabled : bool;
  otaInitialized : bool;
  otaUntilMs : Z
}.

Record State : Type := mkState {
  led : Led;
  siren : Siren;
  rc5_toggle_state : Z;
  queue : Queue;
  delayUntilMs : Z;
  dedup : Dedup;
  ota : Ota;
  nextWifiRetryMs : Z
}.

Definition set_led (x : Led) (s : State) : State :=
  mkState x (siren s) (rc5_toggle_state s) (queue s) (delayUntilMs s)
          (dedup s) (ota s) (nextWifiRetryMs s).
Definition set_siren (x : Siren) (s : State) : State :=
  mkState (led s) x (rc5_toggle_state s) (queue s) (delayUntilMs s)
          (dedup s) (ota s) (nextWifiRetryMs s).
Definition set_rc5_toggle_state (x : Z) (s : State) : State :=
  mkState (led s) (siren s) x (queue s) (delayUntilMs s)
          (dedup s) (ota s) (nextWifiRetryMs s).
Definition set_queue (x : Queue) (s : State) : State :=
  mkState (led s) (siren s) (rc5_toggle_state s) x (delayUntilMs s)
          (dedup s) (ota s) (nextWifiRetryMs s).
Definition set_delayUntilMs (x : Z) (s : State) : State :=
  mkState (led s) (siren s) (rc5_toggle_state s) (queue s) x
          (dedup s) (ota s) (nextWifiRetryMs s).
Definition set_dedup (x : Dedup) (s : State) : State :=
  mkState (led s) (siren s) (rc5_toggle_state s) (queue s) (delayUntilMs s)
          x (ota s) (nextWifiRetryMs s).
Definition set_ota (x : Ota) (s : State) : State :=
  mkState (led s) (siren s) (rc5_toggle_state s) (queue s) (delayUntilMs s)
          (dedup s) x (nextWifiRetryMs s).
Definition set_nextWifiRetryMs (x : Z) (s : State) : State :=
  mkState (led s) (siren s) (rc5_toggle_state s) (queue s) (delayUntilMs s)
          (dedup s) (ota s) x.

(** The values of the globals after static initialisation. *)
Definition boot : State :=
  mkState (mkLed false false 0 0 false)
          (mkSiren false 0 [0; 0; 0; 0; 0] [0; 0; 0; 0; 0] 0 false 0 false)
          0
          (mkQueue (replicate (Z.to_nat QSIZE) (mkAction NoAction 0)) 0 0 0)
          0
          (mkDedup 0 false 0)
          (mkOta false false 0)
          0.

(* ================================================================== *)
(** ** What leaves the core *)

Inductive Event : Type :=
  | EvAck (ip port : Z) (bytes : list Z)   (* udp.beginPacket/write/endPacket *)
  | EvIr (v bits : Z)                      (* irsend.sendRC5(v, bits, 0) *)
  | EvOtaBegin                             (* ArduinoOTA.begin() *)
  | EvOtaHandle                            (* ArduinoOTA.handle() *)
  | EvWifiReconnect                        (* WiFi.reconnect() *)
  | EvDispatch (cmd : Z)                   (* marks the call of enqueueCommand *)
  | EvDequeue (a : Action).                (* marks a successful qPop in actionTick *)

(* ================================================================== *)
(** ** RC5 encoder *)

Definition sendRc5Press (now : Z) (idx : Z) (s : State) : State * list Event :=
  let t := u8 (Z.lxor (rc5_toggle_state s) 1) in
  let s := set_rc5_toggle_state t s in
  let e := RC5_TABLE !!! Z.to_nat idx in
  let v := if rc5_toggle_state s =? 0 then v_t0 e else v_t1 e in
  (set_led (statusLedActivityBurst now (led s)) s, [EvIr v (bits e)]).

(* ================================================================== *)
(** ** Acknowledgement *)

Definition ackBytes (id status : Z) : list Z :=
  [MAGIC; VER; CMD_ACK] ++ writeU16LE id ++ [status; 0].

Definition sendAck (ip port id status : Z) : list Event :=
  [EvAck ip port (ackBytes id status)].

(* ================================================================== *)
(** ** OTA service window *)

Definition otaInitOnce (o : Ota) : Ota * list Event :=
  if otaInitialized o then (o, [])
  else (mkOta (otaEnabled o) true (otaUntilMs o), [EvOtaBegin]).

Definition otaEnterOrExtendWindow (now : Z) (s : State) : State * list Event :=
  let '(o, ev) := otaInitOnce (ota s) in
  let o := mkOta true (otaInitialized o) (u32 (now + OTA_WINDOW_MS)) in
  (set_led (statusLedActivityBurst now (led s)) (set_ota o s), ev).

Definition otaTick (now : Z) (wifi : bool) (s : State) : State * list Event :=
  if negb (otaEnabled (ota s)) then (s, [])
  else if negb wifi then (s, [])
  else if otaUntilMs (ota s) <=? now then
    (set_ota (mkOta false (otaInitialized (ota s)) (otaUntilMs (ota s))) s, [])
  else (s, [EvOtaHandle]).

(* ================================================================== *)
(** ** Command handler (enqueue only) *)

(** The parsing loop of the siren branch: [n] iterations left, [i] the loop
    counter, [p] the read pointer. *)
Fixpoint sirenParse (n : nat) (i : nat) (p : list Z) (onArr offArr : list Z)
    : list Z * list Z :=
  match n with
  | O => (onArr, offArr)
  | S n' =>
      let onArr := <[i := readU16LE p]> onArr in
      let p := drop 2 p in
      let offArr := <[i := readU16LE p]> offArr in
      let p := drop 2 p in
      sirenParse n' (S i) p onArr offArr
  end.

Definition enqueueCommand (cmd : Z) (payload : list Z) (payloadLen : Z)
    (now : Z) (s : State) : bool * State * list Event :=
  if otaEnabled (ota s) then
    if cmd =? CMD_OTA_MODE then
      if negb (payloadLen =? 0) then (false, s, [])
      else let '(s', ev) := otaEnterOrExtendWindow now s in (true, s', ev)
    else (false, s, [])
  else if cmd =? CMD_OTA_MODE then
    if negb (payloadLen =? 0) then (false, s, [])
    else let '(s', ev) := otaEnterOrExtendWindow now s in (true, s', ev)
  else if (0x01 <=? cmd) && (cmd <=? 0x1B) then
    let idx := u8 (cmd - 1) in
    if 27 <=? idx then (false, s, [])
    else
      let '(ok, qu) := qPush (mkAction Press idx) (queue s) in
      (ok, set_queue qu s, [])
  else if cmd =? CMD_MODE_SWITCH then
    if QSIZE - 6 <? qCount (queue s) then (false, s, [])
    else (true, set_queue (queueMacroModeSwitch (queue s)) s, [])
  else if cmd =? CMD_RESET_SCOREBOARD then
    if QSIZE - 6 <? qCount (queue s) then (false, s, [])
    else (true, set_queue (queueMacroResetScoreboard (queue s)) s, [])
  else if cmd =? CMD_SIREN then
    if payloadLen <? 1 then (false, s, [])
    else
      let count := payload !!! 0%nat in
      if (count <? 1) || (3 <? count) then (false, s, [])
      else
        let need := u8 (1 + count * 4) in
        if payloadLen <? need then (false, s, [])
        else
          let '(onArr, offArr) :=
            sirenParse (Z.to_nat count) 0 (drop 1 payload)
                       [0; 0; 0; 0; 0] [0; 0; 0; 0; 0] in
          (true, set_siren (sirenStart now count onArr offArr (siren s)) s, [])
  else (false, s, []).

(* ================================================================== *)
(** ** UDP processing *)

Record Datagram : Type := mkDatagram {
  remoteIP : Z;
  remotePort : Z;
  dgram : list Z          (* the bytes of the datagram, each in 0..255 *)
}.

(** The body of the [while] loop of [processUdp] for one pending datagram.
    [udp.read(buf, sizeof(buf))] copies at most [sizeof(buf)] bytes and
    returns how many it copied. *)
Definition processUdpPacket (now : Z) (d : Datagram) (s : State)
    : State * list Event :=
  let buf := take UDP_BUF_SIZE (dgram d) in
  let len := Z.of_nat (length buf) in
  if len <? 6 then (s, [])
  else if negb (buf !!! 0%nat =? MAGIC) then (s, [])
  else if negb (buf !!! 1%nat =? VER) then (s, [])
  else
    let cmd := buf !!! 2%nat in
    let id := readU16LE (drop 3 buf) in
    let plen := buf !!! 5%nat in
    if negb (6 + plen =? len) then
      (set_dedup (mkDedup id true 0) s,
       sendAck (remoteIP d) (remotePort d) id 0)
    else if lastIdValid (dedup s) && (id =? lastId (dedup s)) then
      (s, sendAck (remoteIP d) (remotePort d) id (lastAckStatus (dedup s)))
    else
      let payload := if 0 <? plen then drop 6 buf else [] in
      let '(ok, s, ev) := enqueueCommand cmd payload plen now s in
      let s := set_dedup (mkDedup id true (if ok then 1 else 0)) s in
      let s := if ok then set_led (statusLedActivityBurst now (led s)) s
               else s in
      (s, EvDispatch cmd :: ev ++
          sendAck (remoteIP d) (remotePort d) id (lastAckStatus (dedup s))).

(** [while ((packetSize = udp.parsePacket()) > 0)]: the pending datagrams
    are taken in order; an empty one makes [parsePacket] return 0 and ends
    the loop. *)
Fixpoint processUdp (now : Z) (pending : list Datagram) (s : State)
    : State * list Event :=
  match pending with
  | [] => (s, [])
  | d :: rest =>
      if 0 <? Z.of_nat (length (dgram d)) then
        let '(s1, e1) := processUdpPacket now d s in
        let '(s2, e2) := processUdp now rest s1 in
        (s2, e1 ++ e2)
      else (s, [])
  end.

(* ================================================================== *)
(** ** Action executor *)

Definition actionTick (now : Z) (s : State) : State * list Event :=
  if negb (delayUntilMs s =? 0) && (now <? delayUntilMs s) then (s, [])
  else
    let s := set_delayUntilMs 0 s in
    if qCount (queue s) =? 0 then (s, [])
    else
      match qPop (queue s) with
      | (None, _) => (s, [])
      | (Some a, qu) =>
          let s := set_queue qu s in
          match a_type a with
          | Delay =>
              (set_delayUntilMs (u32 (now + a_arg a)) s, [EvDequeue a])
          | Press =>
              let idx := u8 (Z.land (a_arg a) 0xFF) in
              if idx <? 27 then
                let '(s, ev) := sendRc5Press now idx s in
                (s, EvDequeue a :: ev)
              else (s, [EvDequeue a])
          | NoAction => (s, [EvDequeue a])
          end
      end.

(* ================================================================== *)
(** ** Wi-Fi reconnect tick *)

Definition wifiTick (now : Z) (wifi : bool) (s : State) : State * list Event :=
  if wifi then (s, [])
  else if now <? nextWifiRetryMs s then (s, [])
  else (set_nextWifiRetryMs (u32 (now + WIFI_RETRY_INTERVAL_MS)) s,
        [EvWifiReconnect]).

(* ================================================================== *)
(** ** The scheduler loop *)

(** What one pass of [loop] reads from outside: the clock, the link state,
    and the datagrams waiting at the socket.  The clock and the link state
    are read once per pass: every engine of a pass gets the same reading. *)
Record Input : Type := mkInput {
  in_now : Z;
  in_wifi : bool;
  in_pending : list Datagram
}.

Definition loop (i : Input) (s : State) : State * list Event :=
  let s := set_led (statusLedTick (in_now i) (in_wifi i) (led s)) s in
  let '(s, e1) := wifiTick (in_now i) (in_wifi i) s in
  let '(s, e2) :=
    if in_wifi i then processUdp (in_now i) (in_pending i) s else (s, []) in
  let '(s, e3) := otaTick (in_now i) (in_wifi i) s in
  let '(s, e4) := actionTick (in_now i) s in
  let s := set_siren (sirenTick (in_now i) (siren s)) s in
  (s, e1 ++ e2 ++ e3 ++ e4).

(** Successive passes of [loop], one per input. *)
Fixpoint run (ins : list Input) (s : State) : State * list Event :=
  match ins with
  | [] => (s, [])
  | i :: rest =>
      let '(s1, e1) := loop i s in
      let '(s2, e2) := run rest s1 in
      (s2, e1 ++ e2)
  end.


(* ================================================================== *)
(** * Vocabulary of the properties *)

(** ** The queue as a FIFO list *)

(** The ring buffer is consistent: 32 slots, head and count in range, and
    the tail where the count puts it. *)
Definition queue_wf (qu : Queue) : Prop :=
  length (q qu) = Z.to_nat QSIZE /\
  0 <= qHead qu < QSIZE /\
  0 <= qCount qu <= QSIZE /\
  qTail qu = (qHead qu + qCount qu) mod QSIZE.

(** The slot of the [i]-th pending action, counted from the head. *)
Definition qSlot (qu : Queue) (i : nat) : nat :=
  Z.to_nat ((qHead qu + Z.of_nat i) mod QSIZE).

(** The pending actions, oldest first. *)
Definition qList (qu : Queue) : list Action :=
  map (fun i => q qu !!! qSlot qu i) (seq 0 (Z.to_nat (qCount qu))).

(** Pushing a sequence of actions, each result being ignored, as
    [queuePress] and [queueDelay] do. *)
Definition pushAll (acts : list Action) (qu : Queue) : Queue :=
  fold_left (fun qu a => snd (qPush a qu)) acts qu.

(** The actions [queueMacroModeSwitch] asks for, in order. *)
Definition modeSwitchActions : list Action :=
  [mkAction Press IDX_EXIT; mkAction Delay IR_GAP_MS_DEFAULT;
   mkAction Press IDX_EXIT; mkAction Delay IR_GAP_MS_DEFAULT;
   mkAction Press IDX_EXIT; mkAction Delay IR_GAP_MS_EXIT3_END].

(** The actions [queueMacroResetScoreboard] asks for, in order. *)
Definition resetScoreboardActions : list Action :=
  [mkAction Press IDX_9; mkAction Delay IR_GAP_MS_DEFAULT;
   mkAction Press IDX_8; mkAction Delay IR_GAP_MS_DEFAULT;
   mkAction Press IDX_8; mkAction Delay IR_GAP_MS_DEFAULT;
   mkAction Press IDX_8].

(** ** Reading traces *)

(** The RC5 codes handed to the transmitter, in order. *)
Definition irCodes (tr : list Event) : list Z :=
  flat_map (fun e => match e with EvIr v _ => [v] | _ => [] end) tr.

(** The acknowledgement datagrams, in order. *)
Definition acks (tr : list Event) : list Event :=
  flat_map (fun e => match e with EvAck _ _ _ => [e] | _ => [] end) tr.

(** The commands that entered the dispatcher, in order. *)
Definition dispatched (tr : list Event) : list Z :=
  flat_map (fun e => match e with EvDispatch c => [c] | _ => [] end) tr.

(** The toggle bit of a 12-bit code. *)
Definition toggleOf (v : Z) : Z :=
  if Z.land v RC5_TOGGLE_MASK_12BIT =? 0 then 0 else 1.

(** ** Building inputs *)

(** A length-consistent command frame, as a client encodes it:
    [MAGIC][VER][CMD][ID u16 LE][LEN][PAYLOAD...]. *)
Definition mkFrame (cmd id : Z) (payload : list Z) : Datagram :=
  mkDatagram 0xC0A80001 4210
    ([MAGIC; VER; cmd] ++ writeU16LE id ++
     [Z.of_nat (length payload)] ++ payload).

(** Passes of the loop that leave 26 actions pending: the mode-switch macro
    arrives at 1000 ms and the executor sends its first press; at 1001 ms
    the executor takes the first delay and waits until 1101 ms; the passes
    at 1002 .. 1023 ms each bring one single-press frame (request ids
    2 .. 23). *)
Definition fillTo26 : list Input :=
  mkInput 1000 true [mkFrame CMD_MODE_SWITCH 1 []] ::
  mkInput 1001 true [] ::
  map (fun i => mkInput (1001 + Z.of_nat i) true
                  [mkFrame 0x01 (Z.of_nat (S i)) []])
      (seq 1 22).

(** The next pass, at 1024 ms, brings the reset macro (request id 24). *)
Definition resetArrives : Input :=
  mkInput 1024 true [mkFrame CMD_RESET_SCOREBOARD 24 []].

(** The payload of a siren command for the given (on, off) pairs. *)
Definition sirenPayload (pairs : list (Z * Z)) : list Z :=
  Z.of_nat (length pairs) ::
  flat_map (fun p => writeU16LE (fst p) ++ writeU16LE (snd p)) pairs.

(** What the parsing loop stores for the given pairs, from slot [i] on. *)
Fixpoint storePairs (i : nat) (pairs : list (Z * Z)) (onArr offArr : list Z)
    : list Z * list Z :=
  match pairs with
  | [] => (onArr, offArr)
  | p :: ps =>
      storePairs (S i) ps (<[i := fst p]> onArr) (<[i := snd p]> offArr)
  end.

(** The five-slot duration array [sirenStart] leaves for the given phases. *)
Definition pad5 (l : list Z) : list Z :=
  take 5 (l ++ [0; 0; 0; 0; 0]).

(** The siren engine after [k] ticks, one per millisecond, at
    [t0 + 1 .. t0 + k]. *)
Fixpoint sirenAfter (t0 : Z) (k : nat) (sr : Siren) : Siren :=
  match k with
  | O => sr
  | S k' => sirenTick (t0 + Z.of_nat k) (sirenAfter t0 k' sr)
  end.

(** ** Reading a received datagram as [processUdp] does *)

(** The bytes that land in [buf], and their number [len]. *)
Definition rxBuf (d : Datagram) : list Z := take UDP_BUF_SIZE (dgram d).
Definition rxLen (d : Datagram) : Z := Z.of_nat (length (rxBuf d)).

(** At least six bytes, with the magic and the version in place. *)
Definition framed (d : Datagram) : bool :=
  negb (rxLen d <? 6) && (rxBuf d !!! 0%nat =? MAGIC)
    && (rxBuf d !!! 1%nat =? VER).

Definition frameCmd (d : Datagram) : Z := rxBuf d !!! 2%nat.
Definition frameId (d : Datagram) : Z := readU16LE (drop 3 (rxBuf d)).
Definition framePlen (d : Datagram) : Z := rxBuf d !!! 5%nat.

(** The test [(int)(6 + plen) == len]. *)
Definition frameLenOk (d : Datagram) : bool := 6 + framePlen d =? rxLen d.

Definition framePayload (d : Datagram) : list Z :=
  if 0 <? framePlen d then drop 6 (rxBuf d) else [].

(** The request id is the one the dedup record holds as valid. *)
Definition isRepeat (d : Datagram) (s : State) : bool :=
  lastIdValid (dedup s) && (frameId d =? lastId (dedup s)).

(** The shapes of the trace of one datagram: nothing, a lone
    acknowledgement, or the dispatcher call followed by its acknowledgement
    with at most the OTA start-up in between. *)
Inductive PacketTrace : list Event -> Prop :=
  | PT_silent : PacketTrace []
  | PT_ack ip port bytes : PacketTrace [EvAck ip port bytes]
  | PT_dispatch cmd mid ip port bytes :
      mid = [] \/ mid = [EvOtaBegin] ->
      PacketTrace (EvDispatch cmd :: mid ++ [EvAck ip port bytes]).

(** In a trace, every dispatcher call is followed by an acknowledgement,
    with nothing but the OTA start-up in between. *)
Definition ackFollowsDispatch (tr : list Event) : Prop :=
  forall pre cmd post,
    tr = pre ++ EvDispatch cmd :: post ->
    exists mid ip port bytes rest,
      post = mid ++ EvAck ip port bytes :: rest /\
      (mid = [] \/ mid = [EvOtaBegin]).

(** ** Invariants of reachable states *)

(** The toggle is a single bit. *)
Definition toggle_ok (s : State) : Prop :=
  rc5_toggle_state s = 0 \/ rc5_toggle_state s = 1.

(** The toggle values of [n] successive presses when the toggle stands at
    [t] before the first one. *)
Fixpoint alternating (t : Z) (n : nat) : list Z :=
  match n with
  | O => []
  | S n' => (1 - t) :: alternating (1 - t) n'
  end.

(** ** Sample inputs *)

(** Four passes: a single press (0x05) and the mode-switch macro arrive in
    the first one, the executor drains in the following ones. *)
Definition sampleRun : list Input :=
  [mkInput 1000 true [mkFrame 0x05 42 []; mkFrame CMD_MODE_SWITCH 43 []];
   mkInput 1001 true []; mkInput 1101 true []; mkInput 1102 true []].

(** The OTA window is opened at 1000 ms over a live link ... *)
Definition otaOpens : Input :=
  mkInput 1000 true [mkFrame CMD_OTA_MODE 1 []].

(** ... and the next pass comes after the deadline, with the link down. *)
Definition lateAndUnlinked : Input := mkInput 200000 false [].

(** A 200-byte datagram whose header declares a 122-byte payload: magic,
    version, command 0x05, request id 0x002A, length 122, then 194 bytes. *)
Definition oversized : Datagram :=
  mkDatagram 0xC0A80001 4210
    ([MAGIC; VER; 0x05; 0x2A; 0x00; 122] ++ replicate 194 0).

(** ** The pulse train of the sample siren command

    count = 2, on = [200, 300], off = [100, 150]: the payload bytes
    02 C8 00 64 00 2C 01 96 00. *)

(** The engine in the middle of the sample train. *)
Definition train (idx : Z) (on : bool) (next : Z) : Siren :=
  mkSiren true 2 [200; 300; 0; 0; 0] [100; 150; 0; 0; 0] idx on next on.

(** The engine after the sample train. *)
Definition trainOver : Siren :=
  mkSiren false 0 [200; 300; 0; 0; 0] [100; 150; 0; 0; 0] 0 false 0 false.

(** The engine [j] milliseconds after the sample train was started at [t0]. *)
Definition trainAt (t0 j : Z) : Siren :=
  if j <? 200 then train 0 true (t0 + 200)
  else if j <? 300 then train 0 false (t0 + 300)
  else if j <? 600 then train 1 true (t0 + 600)
  else if j <? 750 then train 1 false (t0 + 750)
  else trainOver.

(** Durations that fit 16 bits. *)
Definition pulse_ok (p : Z * Z) : Prop :=
  0 <= fst p < 65536 /\ 0 <= snd p < 65536.

(** ** More invariants of reachable states *)

(** The siren engine is consistent: five slots per table, the pin shows the
    phase, an ON phase only while running, and while running the phase
    index is inside the programmed count, which is at most 3. *)
Definition siren_ok (sr : Siren) : Prop :=
  length (sirenOnMs sr) = 5%nat /\
  length (sirenOffMs sr) = 5%nat /\
  pinSiren sr = sirenPhaseOn sr /\
  (sirenPhaseOn sr = true -> sirenActive sr = true) /\
  (sirenActive sr = true ->
     0 <= sirenIndex sr < sirenCount sr /\ sirenCount sr <= 3).

(** The dedup record holds a 16-bit id and a status of 0 or 1. *)
Definition dedup_ok (dd : Dedup) : Prop :=
  0 <= lastId dd < 65536 /\ (lastAckStatus dd = 0 \/ lastAckStatus dd = 1).

(** The OTA window is only enabled once the OTA service has been begun. *)
Definition ota_ok (o : Ota) : Prop :=
  otaEnabled o = true -> otaInitialized o = true.

Definition state_ok (s : State) : Prop :=
  toggle_ok s /\ queue_wf (queue s) /\ siren_ok (siren s) /\
  dedup_ok (dedup s) /\ ota_ok (ota s).

(** What a well-formed output looks like: an acknowledgement is the seven
    bytes magic, version, ack code, two id bytes, a status of 0 or 1 and a
    zero; an IR code is one of the two variants of a table row, sent with
    the row's bit length. *)
Definition event_ok (e : Event) : Prop :=
  match e with
  | EvAck _ _ bytes =>
      exists lo hi st,
        bytes = [MAGIC; VER; CMD_ACK; lo; hi; st; 0] /\
        0 <= lo < 256 /\ 0 <= hi < 256 /\ (st = 0 \/ st = 1)
  | EvIr v n =>
      exists row, In row RC5_TABLE /\ n = bits row /\
                  (v = v_t0 row \/ v = v_t1 row)
  | _ => True
  end.

(** The OTA service is used in order: begun only when not yet begun,
    handled only once begun.  [begun] is whether it has been begun before
    the trace starts. *)
Fixpoint otaInOrder (begun : bool) (tr : list Event) : bool :=
  match tr with
  | [] => true
  | EvOtaBegin :: t => negb begun && otaInOrder true t
  | EvOtaHandle :: t => begun && otaInOrder begun t
  | _ :: t => otaInOrder begun t
  end.

(** Whether the OTA service has been begun by the end of the trace. *)
Fixpoint otaBegunAfter (begun : bool) (tr : list Event) : bool :=
  match tr with
  | [] => begun
  | EvOtaBegin :: t => otaBegunAfter true t
  | _ :: t => otaBegunAfter begun t
  end.

(** The actions taken from the queue, in order. *)
Definition dequeued (tr : list Event) : list Action :=
  flat_map (fun e => match e with EvDequeue a => [a] | _ => [] end) tr.

(** The code of table row [idx] for toggle value [t]. *)
Definition rc5Code (idx t : Z) : Z :=
  if t =? 0 then v_t0 (RC5_TABLE !!! Z.to_nat idx)
  else v_t1 (RC5_TABLE !!! Z.to_nat idx).

(** Wi-Fi ticks at the given clock readings and link states, in order. *)
Fixpoint wifiTicks (ticks : list (Z * bool)) (s : State) : State * list Event :=
  match ticks with
  | [] => (s, [])
  | (now, wifi) :: rest =>
      let '(s1, e1) := wifiTick now wifi s in
      let '(s2, e2) := wifiTicks rest s1 in
      (s2, e1 ++ e2)
  end.

(** The LED engine after [k] ticks, one per millisecond, at
    [t0 + 1 .. t0 + k], the link state being [wifi] throughout. *)
Fixpoint ledAfter (t0 : Z) (wifi : bool) (k : nat) (l : Led) : Led :=
  match k with
  | O => l
  | S k' => statusLedTick (t0 + Z.of_nat k) wifi (ledAfter t0 wifi k' l)
  end.

(** The LED engine [j] milliseconds into a burst started at [t0], for
    [j < 560]: toggle number [j / 70] has been done. *)
Definition burstAt (t0 j : Z) : Led :=
  let n := j / 70 in
  mkLed true (Z.odd n) (t0 + 70 * (n + 1)) (8 - n) (Z.odd n).

(** The mode-switch macro arrives at 1000 ms; its first press is sent in
    the same pass. *)
Definition macroArrives : Input :=
  mkInput 1000 true [mkFrame CMD_MODE_SWITCH 1 []].

(** The datagrams one intake pass reads: [udp.parsePacket()] returning 0
    ends the pass, so those up to the first empty one. *)
Fixpoint readThisPass (pending : list Datagram) : list Datagram :=
  match pending with
  | [] => []
  | d :: rest =>
      if 0 <? Z.of_nat (length (dgram d)) then d :: readThisPass rest else []
  end.

(** The framed datagrams a run reads, in order: intake only runs in the
    passes with the link up. *)
Definition framesRead (ins : list Input) : list Datagram :=
  flat_map (fun i => if in_wifi i
                     then List.filter framed (readThisPass (in_pending i))
                     else []) ins.

(** Where an acknowledgement goes and which request it names: address,
    port and the first five bytes (magic, version, ack code, id). *)
Definition ackAddr (e : Event) : Z * Z * list Z :=
  match e with
  | EvAck ip port bytes => (ip, port, take 5 bytes)
  | _ => (0, 0, [])
  end.

(** The same for the acknowledgement a frame is owed. *)
Definition frameAddr (d : Datagram) : Z * Z * list Z :=
  (remoteIP d, remotePort d, [MAGIC; VER; CMD_ACK] ++ writeU16LE (frameId d)).

(** ** Frames as they arrive

    A datagram is length-consistent when it has [6 + LEN] bytes, [LEN]
    being its sixth byte. *)
Definition lengthConsistent (d : Datagram) : bool :=
  6 + dgram d !!! 5%nat =? Z.of_nat (length (dgram d)).

(** The frame with the sender and the first five bytes of [d] (magic,
    version, command, id) and the payload [p]. *)
Definition withPayload (d : Datagram) (p : list Z) : Datagram :=
  mkDatagram (remoteIP d) (remotePort d)
    (take 5 (dgram d) ++ Z.of_nat (length p) :: p).

(** A single-press frame with a 200-byte payload: 206 bytes, LEN = 200. *)
Definition longPress : Datagram :=
  mkDatagram 0xC0A80001 4210
    ([MAGIC; VER; 0x05; 0x2A; 0x00; 200] ++ replicate 200 0).

(** ** The pulse train under any tick schedule *)

(** The pin level, and whether the engine runs, after each of the given
    ticks of the siren engine. *)
Fixpoint sirenTrace (ticks : list Z) (sr : Siren) : list (bool * bool) :=
  match ticks with
  | [] => []
  | t :: rest =>
      (pinSiren (sirenTick t sr), sirenActive (sirenTick t sr)) ::
      sirenTrace rest (sirenTick t sr)
  end.

(** The pulse train in the words of the claim.  [phases] are the phases
    still to run, each a level and a duration in milliseconds; the first
    of them is running and ends at the first tick at or after [deadline];
    the next phase starts at that tick, its deadline one duration later.
    After the last phase the output is low and the engine stopped.  The
    result is the level, and whether the train still runs, after each
    tick. *)
Fixpoint pulseTrain (phases : list (bool * Z)) (deadline : Z)
    (ticks : list Z) : list (bool * bool) :=
  match ticks with
  | [] => []
  | t :: rest =>
      match phases with
      | [] => (false, false) :: pulseTrain [] deadline rest
      | (level, _) :: later =>
          if t <? deadline then (level, true) :: pulseTrain phases deadline rest
          else
            match later with
            | [] => (false, false) :: pulseTrain [] deadline rest
            | (level', duration') :: _ =>
                (level', true) :: pulseTrain later (t + duration') rest
            end
      end
  end.

(** The phases of the sample train: high 200 ms, low 100 ms, high 300 ms,
    low 150 ms. *)
Definition samplePhases : list (bool * Z) :=
  [(true, 200); (false, 100); (true, 300); (false, 150)].

(** A clock reading at least 300 ms short of the 32-bit wrap. *)
Definition clear_of_wrap (t : Z) : Prop := 0 <= t /\ t + 300 < 4294967296.

(** ** A run seen from the dedup record *)

(** A stretch of a run: the framed datagrams handled, in order, each by
    [processUdpPacket] at some clock reading, with steps in between that
    leave the dedup record alone and neither acknowledge nor dispatch. *)
Inductive Intake : State -> list Datagram -> State -> list Event -> Prop :=
  | Intake_done s : Intake s [] s []
  | Intake_quiet s s1 ev fs s' tr :
      dedup s1 = dedup s -> acks ev = [] -> dispatched ev = [] ->
      Intake s1 fs s' tr -> Intake s fs s' (ev ++ tr)
  | Intake_frame now d s fs s' tr :
      framed d = true ->
      Intake (fst (processUdpPacket now d s)) fs s' tr ->
      Intake s (d :: fs) s' (snd (processUdpPacket now d s) ++ tr).

(** Two requests, and the first of them with a wrong length byte. *)
Definition press5 : Datagram := mkFrame 0x05 1 [].
Definition press6 : Datagram := mkFrame 0x06 2 [].
Definition press5BadLen : Datagram :=
  mkDatagram 0xC0A80001 4210 [MAGIC; VER; 0x05; 1; 0; 3].

(* ================================================================== *)
(** * Properties *)

(** ** Machine integers *)

Lemma u8_small (x : Z) : 0 <= x < 256 -> u8 x = x.
Proof. intros H. unfold u8. apply Z.mod_small. exact H. Qed.

Lemma u32_small (x : Z) : 0 <= x < 4294967296 -> u32 x = x.
Proof. intros H. unfold u32. apply Z.mod_small. exact H. Qed.

(** ** The queue as a FIFO list *)

Lemma boot_queue_wf : queue_wf (queue boot).
Proof. unfold queue_wf; repeat split; solve [reflexivity | vm_compute; discriminate]. Qed.

Lemma qPush_full (a : Action) (qu : Queue) :
  QSIZE <= qCount qu -> qPush a qu = (false, qu).
Proof.
  intros H. unfold qPush.
  destruct (Z.leb_spec QSIZE (qCount qu)); [reflexivity | lia].
Qed.

Lemma qPush_room (a : Action) (qu : Queue) :
  queue_wf qu -> qCount qu < QSIZE ->
  exists qu',
    qPush a qu = (true, qu') /\ queue_wf qu' /\
    qList qu' = qList qu ++ [a] /\
    qCount qu' = qCount qu + 1 /\ qHead qu' = qHead qu.
Proof.
  intros (Hlen & Hh & Hc & Ht) Hroom. unfold QSIZE in *.
  eexists. unfold qPush, QSIZE.
  destruct (Z.leb_spec 32 (qCount qu)) as [Hge | _]; [lia |].
  split; [reflexivity |].
  assert (Hc1 : u8 (qCount qu + 1) = qCount qu + 1) by (apply u8_small; lia).
  assert (Ht1 : u8 ((qTail qu + 1) mod 32) = (qHead qu + (qCount qu + 1)) mod 32).
  { rewrite u8_small by (pose proof (Z.mod_pos_bound (qTail qu + 1) 32); lia).
    rewrite Ht. rewrite Zplus_mod_idemp_l. f_equal. lia. }
  split.
  { unfold queue_wf, QSIZE; cbn. rewrite length_insert.
    repeat split; try lia. rewrite Ht1, Hc1. reflexivity. }
  split; [| split; cbn; [exact Hc1 | reflexivity]].
  unfold qList, qSlot; cbn. rewrite Hc1.
  replace (Z.to_nat (qCount qu + 1)) with (Z.to_nat (qCount qu) + 1)%nat by lia.
  rewrite seq_app, map_app. cbn. f_equal.
  - apply map_ext_in. intros i Hi. apply in_seq in Hi.
    apply list_lookup_total_insert_ne.
    rewrite Ht. change QSIZE with 32.
    intros Heq. apply Z2Nat.inj in Heq;
      try (apply Z.mod_pos_bound; lia).
    assert (Hi' : 0 <= Z.of_nat i < qCount qu) by lia.
    revert Heq. generalize (Z.of_nat i) Hi'. clear - Hh Hc Hroom.
    intros k Hk Heq.
    pose proof (Z.mod_pos_bound (qHead qu + qCount qu) 32).
    pose proof (Z.mod_pos_bound (qHead qu + k) 32).
    pose proof (Z.div_mod (qHead qu + qCount qu) 32).
    pose proof (Z.div_mod (qHead qu + k) 32).
    nia.
  - f_equal. rewrite Z2Nat.id by lia. change QSIZE with 32. rewrite <- Ht.
    apply list_lookup_total_insert_eq.
    rewrite Hlen, Ht. unfold QSIZE.
    pose proof (Z.mod_pos_bound (qHead qu + qCount qu) 32). lia.
Qed.

Lemma queueMacroModeSwitch_pushAll (qu : Queue) :
  queueMacroModeSwitch qu = pushAll modeSwitchActions qu.
Proof. reflexivity. Qed.

Lemma queueMacroResetScoreboard_pushAll (qu : Queue) :
  queueMacroResetScoreboard qu = pushAll resetScoreboardActions qu.
Proof. reflexivity. Qed.

(** Whatever the fill level, a run of pushes appends the actions that still
    fit and silently drops the others. *)
Lemma pushAll_spec (acts : list Action) :
  forall qu, queue_wf qu ->
    queue_wf (pushAll acts qu) /\
    qList (pushAll acts qu) =
      qList qu ++ take (Z.to_nat (QSIZE - qCount qu)) acts /\
    qHead (pushAll acts qu) = qHead qu /\
    qCount (pushAll acts qu) =
      Z.min QSIZE (qCount qu + Z.of_nat (length acts)).
Proof.
  induction acts as [| a acts IH]; intros qu Hwf.
  - cbn [pushAll fold_left length]. rewrite take_nil, app_nil_r.
    pose proof Hwf as (_ & _ & Hc & _).
    split; [exact Hwf | split; [reflexivity | split; [reflexivity | lia]]].
  - cbn [pushAll fold_left]. fold (pushAll acts (snd (qPush a qu))).
    destruct (Z.lt_ge_cases (qCount qu) QSIZE) as [Hroom | Hfull].
    + destruct (qPush_room a qu Hwf Hroom) as (qu' & Hp & Hwf' & Hl & Hc & Hh).
      rewrite Hp; cbn [snd].
      destruct (IH qu' Hwf') as (IH1 & IH2 & IH3 & IH4).
      split; [exact IH1 |].
      split.
      { rewrite IH2, Hl, Hc, <- app_assoc. f_equal.
        replace (Z.to_nat (QSIZE - qCount qu))
          with (S (Z.to_nat (QSIZE - (qCount qu + 1)))) by lia.
        reflexivity. }
      split; [congruence |].
      rewrite IH4, Hc. cbn [length]. lia.
    + rewrite (qPush_full a qu Hfull); cbn [snd].
      destruct (IH qu Hwf) as (IH1 & IH2 & IH3 & IH4).
      split; [exact IH1 |].
      split.
      { rewrite IH2.
        replace (Z.to_nat (QSIZE - qCount qu)) with 0%nat by lia.
        reflexivity. }
      split; [exact IH3 |].
      rewrite IH4. cbn [length]. lia.
Qed.

Lemma qPop_some (qu : Queue) :
  queue_wf qu -> 0 < qCount qu ->
  exists a qu',
    qPop qu = (Some a, qu') /\ queue_wf qu' /\
    qList qu = a :: qList qu' /\ qCount qu' = qCount qu - 1.
Proof.
  intros (Hlen & Hh & Hc & Ht) Hpos. change QSIZE with 32 in *.
  unfold qPop. destruct (Z.eqb_spec (qCount qu) 0) as [Hz | _]; [lia |].
  do 2 eexists. split; [reflexivity |].
  assert (Hc1 : u8 (qCount qu - 1) = qCount qu - 1) by (apply u8_small; lia).
  assert (Hh1 : u8 ((qHead qu + 1) mod QSIZE) = (qHead qu + 1) mod 32).
  { apply u8_small. pose proof (Z.mod_pos_bound (qHead qu + 1) 32). lia. }
  split.
  { unfold queue_wf; cbn. change QSIZE with 32 in *. rewrite Hc1, Hh1.
    pose proof (Z.mod_pos_bound (qHead qu + 1) 32).
    repeat split; try lia.
    rewrite Ht, Zplus_mod_idemp_l. f_equal. lia. }
  split; [| cbn; exact Hc1].
  unfold qList, qSlot; cbn. rewrite Hc1, Hh1.
  replace (Z.to_nat (qCount qu)) with (S (Z.to_nat (qCount qu - 1))) by lia.
  cbn [seq map]. f_equal.
  - change QSIZE with 32. rewrite Z.add_0_r, Z.mod_small by lia. reflexivity.
  - rewrite <- seq_shift, map_map. apply map_ext. intros i.
    change QSIZE with 32. rewrite Zplus_mod_idemp_l.
    do 3 f_equal. lia.
Qed.

(** ** Reachable states keep the queue consistent *)

Lemma otaEnterOrExtendWindow_eq (now : Z) (s : State) :
  otaEnterOrExtendWindow now s =
    (set_led (statusLedActivityBurst now (led s))
       (set_ota (mkOta true true (u32 (now + OTA_WINDOW_MS))) s),
     if otaInitialized (ota s) then [] else [EvOtaBegin]).
Proof.
  unfold otaEnterOrExtendWindow, otaInitOnce.
  destruct (otaInitialized (ota s)) eqn:E; cbn; rewrite ?E; reflexivity.
Qed.

(** Case analysis on the tests of [enqueueCommand], in source order. *)
Ltac dispatch_cases :=
  unfold enqueueCommand; rewrite ?otaEnterOrExtendWindow_eq;
  repeat match goal with
         | |- context [if ?b then _ else _] => destruct b eqn:?
         | |- context [let '(_, _) := ?p in _] => destruct p eqn:?
         end.

Lemma enqueueCommand_queue (cmd : Z) (payload : list Z) (payloadLen now : Z)
    (s : State) :
  queue_wf (queue s) ->
  let s' := snd (fst (enqueueCommand cmd payload payloadLen now s)) in
  queue_wf (queue s') /\
  qHead (queue s') = qHead (queue s) /\
  exists added, qList (queue s') = qList (queue s) ++ added.
Proof.
  intros Hwf. cbn zeta.
  assert (Hsame : queue_wf (queue s) /\ qHead (queue s) = qHead (queue s) /\
                  exists added, qList (queue s) = qList (queue s) ++ added).
  { split; [exact Hwf | split; [reflexivity |]]. exists []. now rewrite app_nil_r. }
  assert (Hpush : forall acts,
            queue_wf (pushAll acts (queue s)) /\
            qHead (pushAll acts (queue s)) = qHead (queue s) /\
            exists added, qList (pushAll acts (queue s)) = qList (queue s) ++ added).
  { intros acts. destruct (pushAll_spec acts _ Hwf) as (H1 & H2 & H3 & _).
    split; [exact H1 | split; [exact H3 | eauto]]. }
  dispatch_cases; cbn; try exact Hsame.
  - match goal with
    | H : qPush ?a _ = (_, ?qu) |- _ =>
        replace qu with (pushAll [a] (queue s)) by (cbn; now rewrite H)
    end.
    apply Hpush.
  - apply (Hpush modeSwitchActions).
  - apply (Hpush resetScoreboardActions).
Qed.

(* ================================================================== *)
(** ** The dispatcher: macros *)

Section Macros.

Variables (payload : list Z) (payloadLen now : Z) (s : State).

(** Above 26 pending actions both macros are refused and nothing moves. *)
Lemma macro_refused (cmd : Z) :
  cmd = CMD_MODE_SWITCH \/ cmd = CMD_RESET_SCOREBOARD ->
  QSIZE - 6 < qCount (queue s) ->
  enqueueCommand cmd payload payloadLen now s = (false, s, []).
Proof.
  intros Hcmd Hfull.
  assert (Hb : (QSIZE - 6 <? qCount (queue s)) = true)
    by (apply Z.ltb_lt; exact Hfull).
  unfold enqueueCommand.
  destruct Hcmd as [-> | ->]; cbn; rewrite Hb;
    destruct (otaEnabled (ota s)); reflexivity.
Qed.

Hypothesis Hgate : otaEnabled (ota s) = false.
Hypothesis Hroom : qCount (queue s) <= QSIZE - 6.

Lemma modeSwitch_accepted :
  enqueueCommand CMD_MODE_SWITCH payload payloadLen now s =
    (true, set_queue (pushAll modeSwitchActions (queue s)) s, []).
Proof.
  assert (Hb : (QSIZE - 6 <? qCount (queue s)) = false)
    by (apply Z.ltb_ge; exact Hroom).
  unfold enqueueCommand. rewrite Hgate. cbn. rewrite Hb. reflexivity.
Qed.

Lemma resetScoreboard_accepted :
  enqueueCommand CMD_RESET_SCOREBOARD payload payloadLen now s =
    (true, set_queue (pushAll resetScoreboardActions (queue s)) s, []).
Proof.
  assert (Hb : (QSIZE - 6 <? qCount (queue s)) = false)
    by (apply Z.ltb_ge; exact Hroom).
  unfold enqueueCommand. rewrite Hgate. cbn. rewrite Hb. reflexivity.
Qed.

End Macros.

(** Admission of a macro means: the gate is closed and at most 26 actions
    are pending. *)
Lemma macro_accepted_inv (cmd : Z) (payload : list Z) (payloadLen now : Z)
    (s s' : State) (evs : list Event) :
  cmd = CMD_MODE_SWITCH \/ cmd = CMD_RESET_SCOREBOARD ->
  enqueueCommand cmd payload payloadLen now s = (true, s', evs) ->
  otaEnabled (ota s) = false /\ qCount (queue s) <= QSIZE - 6.
Proof.
  intros Hcmd H.
  destruct (otaEnabled (ota s)) eqn:Hg.
  - unfold enqueueCommand in H. rewrite Hg in H.
    destruct Hcmd as [-> | ->]; cbn in H; discriminate.
  - split; [reflexivity |].
    destruct (Z.le_gt_cases (qCount (queue s)) (QSIZE - 6)) as [Hle | Hgt];
      [exact Hle |].
    rewrite (macro_refused payload payloadLen now s cmd Hcmd) in H by lia.
    discriminate.
Qed.

(** The mode-switch macro is all or nothing: its six actions fit whenever it
    is admitted. *)
Lemma modeSwitch_all_or_nothing (payload : list Z) (payloadLen now : Z)
    (s : State) :
  queue_wf (queue s) ->
  let '(ok, s', evs) := enqueueCommand CMD_MODE_SWITCH payload payloadLen now s in
  (ok = false /\ s' = s) \/
  (ok = true /\ qList (queue s') = qList (queue s) ++ modeSwitchActions).
Proof.
  intros Hwf.
  destruct (otaEnabled (ota s)) eqn:Hg.
  - unfold enqueueCommand. rewrite Hg. cbn. left. split; reflexivity.
  - destruct (Z.le_gt_cases (qCount (queue s)) (QSIZE - 6)) as [Hle | Hgt].
    + rewrite modeSwitch_accepted by assumption. right. split; [reflexivity |].
      cbn [queue set_queue].
      destruct (pushAll_spec modeSwitchActions _ Hwf) as (_ & Hl & _).
      rewrite Hl. f_equal. apply take_ge. cbn [length modeSwitchActions].
      unfold QSIZE in *. lia.
    + rewrite macro_refused by (auto || lia). left. split; reflexivity.
Qed.

(** The reset macro asks for seven actions but is admitted on room for six:
    at exactly 26 pending actions its last press is dropped. *)
Lemma resetScoreboard_at_26 (payload : list Z) (payloadLen now : Z)
    (s : State) :
  queue_wf (queue s) -> otaEnabled (ota s) = false ->
  qCount (queue s) = 26 ->
  exists s',
    enqueueCommand CMD_RESET_SCOREBOARD payload payloadLen now s =
      (true, s', []) /\
    qList (queue s') = qList (queue s) ++ take 6 resetScoreboardActions /\
    qCount (queue s') = QSIZE.
Proof.
  intros Hwf Hg Hc. eexists. split.
  - apply resetScoreboard_accepted; [exact Hg | unfold QSIZE; lia].
  - cbn [queue set_queue].
    destruct (pushAll_spec resetScoreboardActions _ Hwf) as (_ & Hl & _ & Hn).
    rewrite Hl, Hn, Hc. split; reflexivity.
Qed.

Lemma resetScoreboard_below_26 (payload : list Z) (payloadLen now : Z)
    (s : State) :
  queue_wf (queue s) -> otaEnabled (ota s) = false ->
  qCount (queue s) <= 25 ->
  exists s',
    enqueueCommand CMD_RESET_SCOREBOARD payload payloadLen now s =
      (true, s', []) /\
    qList (queue s') = qList (queue s) ++ resetScoreboardActions.
Proof.
  intros Hwf Hg Hc. eexists. split.
  - apply resetScoreboard_accepted; [exact Hg | unfold QSIZE; lia].
  - cbn [queue set_queue].
    destruct (pushAll_spec resetScoreboardActions _ Hwf) as (_ & Hl & _).
    rewrite Hl. f_equal. apply take_ge. cbn [length resetScoreboardActions].
    unfold QSIZE. lia.
Qed.

(** C1 (evaluation at the failing input).  From boot, the passes of
    [fillTo26] leave 26 actions pending, with the OTA window closed.  In the
    next pass the reset-macro frame (0x41, id 24) is acknowledged with
    status 1, yet only six of the macro's seven actions are behind the 26
    pending ones: the third press of the reset index is missing, and the
    queue is full. *)
Theorem C1_reset_macro_partially_queued :
  let s26 := fst (run fillTo26 boot) in
  let '(s, tr) := loop resetArrives s26 in
  qCount (queue s26) = 26 /\ otaEnabled (ota s26) = false /\
  tr = [EvDispatch CMD_RESET_SCOREBOARD;
        EvAck 0xC0A80001 4210 [MAGIC; VER; CMD_ACK; 24; 0; 1; 0]] /\
  length resetScoreboardActions = 7%nat /\
  qList (queue s) = qList (queue s26) ++ take 6 resetScoreboardActions /\
  qCount (queue s) = QSIZE.
Proof. vm_compute. repeat split. Qed.

(** C9.  When the mode-switch macro is admitted, exactly six actions go
    behind the pending ones, in this order: press exit, default gap, press
    exit, default gap, press exit, end gap; and the end gap is strictly
    longer than the default gap. *)
Theorem C9_mode_switch_actions (payload : list Z) (payloadLen now : Z)
    (s s' : State) (evs : list Event) :
  queue_wf (queue s) ->
  enqueueCommand CMD_MODE_SWITCH payload payloadLen now s = (true, s', evs) ->
  qList (queue s') =
    qList (queue s) ++
      [mkAction Press IDX_EXIT; mkAction Delay IR_GAP_MS_DEFAULT;
       mkAction Press IDX_EXIT; mkAction Delay IR_GAP_MS_DEFAULT;
       mkAction Press IDX_EXIT; mkAction Delay IR_GAP_MS_EXIT3_END] /\
  qCount (queue s') = qCount (queue s) + 6 /\
  IR_GAP_MS_DEFAULT < IR_GAP_MS_EXIT3_END.
Proof.
  intros Hwf H.
  destruct (macro_accepted_inv _ _ _ _ _ _ _ (or_introl eq_refl) H)
    as (Hg & Hroom).
  rewrite modeSwitch_accepted in H by assumption.
  apply (f_equal (fun r => snd (fst r))) in H. cbn [fst snd] in H. subst s'.
  cbn [queue set_queue].
  destruct (pushAll_spec modeSwitchActions _ Hwf) as (_ & Hl & _ & Hn).
  rewrite Hl, Hn. repeat split.
  - f_equal. apply take_ge. cbn [length modeSwitchActions].
    unfold QSIZE in *. lia.
  - cbn [length modeSwitchActions]. unfold QSIZE in *. lia.
Qed.

Lemma C9_mode_switch_actions_witness :
  let s' := snd (fst (enqueueCommand CMD_MODE_SWITCH [] 0 0 boot)) in
  queue_wf (queue boot) /\
  enqueueCommand CMD_MODE_SWITCH [] 0 0 boot = (true, s', []) /\
  qList (queue s') =
    qList (queue boot) ++
      [mkAction Press IDX_EXIT; mkAction Delay IR_GAP_MS_DEFAULT;
       mkAction Press IDX_EXIT; mkAction Delay IR_GAP_MS_DEFAULT;
       mkAction Press IDX_EXIT; mkAction Delay IR_GAP_MS_EXIT3_END] /\
  qCount (queue s') = qCount (queue boot) + 6 /\
  IR_GAP_MS_DEFAULT < IR_GAP_MS_EXIT3_END.
Proof.
  cbn zeta. split; [exact boot_queue_wf |]. split; [reflexivity |].
  apply (C9_mode_switch_actions [] 0 0 boot _ [] boot_queue_wf).
  reflexivity.
Defined.

(* ================================================================== *)
(** ** The intake, one datagram at a time *)

Section Packet.

Variables (now : Z) (d : Datagram) (s : State).

Lemma processUdpPacket_dropped :
  framed d = false -> processUdpPacket now d s = (s, []).
Proof.
  unfold framed, rxLen, rxBuf, processUdpPacket. intros H.
  destruct (_ <? 6); [reflexivity |].
  destruct (_ =? MAGIC); [| reflexivity].
  destruct (_ =? VER); [discriminate | reflexivity].
Qed.

Lemma processUdpPacket_badlen :
  framed d = true -> frameLenOk d = false ->
  processUdpPacket now d s =
    (set_dedup (mkDedup (frameId d) true 0) s,
     sendAck (remoteIP d) (remotePort d) (frameId d) 0).
Proof.
  unfold framed, frameLenOk, frameId, framePlen, rxLen, rxBuf,
    processUdpPacket.
  intros H Hl.
  destruct (_ <? 6); [discriminate |].
  destruct (_ =? MAGIC); [| discriminate].
  destruct (_ =? VER); [| discriminate].
  cbn [negb]. rewrite Hl. reflexivity.
Qed.

Lemma processUdpPacket_repeat :
  framed d = true -> frameLenOk d = true -> isRepeat d s = true ->
  processUdpPacket now d s =
    (s, sendAck (remoteIP d) (remotePort d) (frameId d)
          (lastAckStatus (dedup s))).
Proof.
  unfold framed, frameLenOk, isRepeat, frameId, framePlen, rxLen, rxBuf,
    processUdpPacket.
  intros H Hl Hr.
  destruct (_ <? 6); [discriminate |].
  destruct (_ =? MAGIC); [| discriminate].
  destruct (_ =? VER); [| discriminate].
  cbn [negb]. rewrite Hl. cbn [negb]. rewrite Hr. reflexivity.
Qed.

Lemma processUdpPacket_fresh :
  framed d = true -> frameLenOk d = true -> isRepeat d s = false ->
  processUdpPacket now d s =
    let '(ok, s1, ev) :=
      enqueueCommand (frameCmd d) (framePayload d) (framePlen d) now s in
    let st := if ok then 1 else 0 in
    let s2 := set_dedup (mkDedup (frameId d) true st) s1 in
    (if ok then set_led (statusLedActivityBurst now (led s2)) s2 else s2,
     EvDispatch (frameCmd d) :: ev ++
       sendAck (remoteIP d) (remotePort d) (frameId d) st).
Proof.
  unfold framed, frameLenOk, isRepeat, frameId, framePlen, frameCmd,
    framePayload, rxLen, rxBuf, processUdpPacket.
  intros H Hl Hr.
  destruct (_ <? 6); [discriminate |].
  destruct (_ =? MAGIC); [| discriminate].
  destruct (_ =? VER); [| discriminate].
  cbn [negb]. rewrite Hl. cbn [negb]. rewrite Hr.
  destruct (enqueueCommand _ _ _ _ _) as [[ok s1] ev].
  destruct ok; reflexivity.
Qed.

End Packet.

(** What the dispatcher never touches, and the only event it can emit. *)
Lemma enqueueCommand_frame (cmd : Z) (payload : list Z) (payloadLen now : Z)
    (s : State) :
  let r := enqueueCommand cmd payload payloadLen now s in
  rc5_toggle_state (snd (fst r)) = rc5_toggle_state s /\
  delayUntilMs (snd (fst r)) = delayUntilMs s /\
  dedup (snd (fst r)) = dedup s /\
  nextWifiRetryMs (snd (fst r)) = nextWifiRetryMs s /\
  (snd r = [] \/ snd r = [EvOtaBegin]).
Proof.
  cbn zeta. dispatch_cases; cbn; repeat split; auto.
Qed.

(** Case analysis on the four paths of [processUdpPacket]. *)
Ltac packet_cases now d s :=
  destruct (framed d) eqn:?Hframed;
    [ destruct (frameLenOk d) eqn:?Hlen;
      [ destruct (isRepeat d s) eqn:?Hrep;
        [ rewrite (processUdpPacket_repeat now d s) by assumption
        | rewrite (processUdpPacket_fresh now d s) by assumption ]
      | rewrite (processUdpPacket_badlen now d s) by assumption ]
    | rewrite (processUdpPacket_dropped now d s) by assumption ].

(** One datagram leaves the executor alone: the toggle, the armed delay and
    the head of the queue stay, pending actions stay in front of whatever is
    added; and its trace has one of the three shapes. *)
Lemma processUdpPacket_frame (now : Z) (d : Datagram) (s : State) :
  let r := processUdpPacket now d s in
  rc5_toggle_state (fst r) = rc5_toggle_state s /\
  delayUntilMs (fst r) = delayUntilMs s /\
  nextWifiRetryMs (fst r) = nextWifiRetryMs s /\
  PacketTrace (snd r) /\
  (queue_wf (queue s) ->
     queue_wf (queue (fst r)) /\ qHead (queue (fst r)) = qHead (queue s) /\
     exists added, qList (queue (fst r)) = qList (queue s) ++ added).
Proof.
  assert (Hsame : queue_wf (queue s) ->
            queue_wf (queue s) /\ qHead (queue s) = qHead (queue s) /\
            exists added, qList (queue s) = qList (queue s) ++ added).
  { intros Hwf. split; [exact Hwf | split; [reflexivity |]].
    exists []. now rewrite app_nil_r. }
  cbn zeta. packet_cases now d s; cbn [sendAck fst snd];
    try (repeat split; solve [reflexivity | constructor | apply Hsame; assumption]).
  pose proof (enqueueCommand_frame (frameCmd d) (framePayload d)
                (framePlen d) now s) as Hf.
  pose proof (enqueueCommand_queue (frameCmd d) (framePayload d)
                (framePlen d) now s) as Hq.
  destruct (enqueueCommand _ _ _ _ _) as [[ok s1] ev].
  destruct Hf as (Ht & Hd & _ & Hw & Hev). cbn [fst snd] in *.
  destruct ok; cbn;
    (split; [exact Ht | split; [exact Hd | split; [exact Hw |
       split; [constructor; exact Hev | exact Hq]]]]).
Qed.

(* ================================================================== *)
(** ** The OTA gate *)

(** C5.  While the OTA window is open, every command other than
    CMD_OTA_MODE is refused whatever its payload, and nothing changes: the
    dispatcher returns the state as it was (queue, siren engine and window
    deadline included) and emits nothing; a fresh frame carrying such a
    command is acknowledged with status 0, and only the dedup record takes
    note of it.  CMD_OTA_MODE with length 0 is accepted and re-arms the
    window to a full [OTA_WINDOW_MS] from now, without touching the queue or
    the siren engine. *)
Theorem C5_gate_open (cmd : Z) (payload : list Z) (payloadLen now : Z)
    (s : State) :
  otaEnabled (ota s) = true ->
  (cmd <> CMD_OTA_MODE ->
     enqueueCommand cmd payload payloadLen now s = (false, s, [])) /\
  (forall d,
     framed d = true -> frameLenOk d = true -> isRepeat d s = false ->
     frameCmd d <> CMD_OTA_MODE ->
     processUdpPacket now d s =
       (set_dedup (mkDedup (frameId d) true 0) s,
        [EvDispatch (frameCmd d);
         EvAck (remoteIP d) (remotePort d) (ackBytes (frameId d) 0)])) /\
  (let '(ok, s', _) := enqueueCommand CMD_OTA_MODE payload 0 now s in
   ok = true /\
   otaEnabled (ota s') = true /\
   otaUntilMs (ota s') = u32 (now + OTA_WINDOW_MS) /\
   queue s' = queue s /\ siren s' = siren s).
Proof.
  intros Hg.
  assert (Hrefuse : forall c p l,
            c <> CMD_OTA_MODE -> enqueueCommand c p l now s = (false, s, [])).
  { intros c p l Hc. unfold enqueueCommand. rewrite Hg.
    destruct (Z.eqb_spec c CMD_OTA_MODE) as [He | _]; [contradiction |].
    reflexivity. }
  split; [apply Hrefuse |]. split.
  - intros d Hfr Hlen Hrep Hcmd.
    rewrite processUdpPacket_fresh by assumption.
    rewrite Hrefuse by exact Hcmd. reflexivity.
  - unfold enqueueCommand. rewrite Hg, otaEnterOrExtendWindow_eq. cbn.
    repeat split.
Qed.

(** A state with the window open: boot, then one accepted CMD_OTA_MODE. *)
Lemma C5_gate_open_witness :
  let s := snd (fst (enqueueCommand CMD_OTA_MODE [] 0 1000 boot)) in
  otaEnabled (ota s) = true /\
  enqueueCommand 0x05 [] 0 2000 s = (false, s, []) /\
  snd (processUdpPacket 2000 (mkFrame 0x05 42 []) s) =
    [EvDispatch 0x05;
     EvAck 0xC0A80001 4210 [MAGIC; VER; CMD_ACK; 42; 0; 0; 0]] /\
  otaUntilMs (ota (snd (fst (enqueueCommand CMD_OTA_MODE [] 0 2000 s)))) =
    u32 (2000 + OTA_WINDOW_MS).
Proof.
  cbn zeta.
  assert (Hg : otaEnabled
                 (ota (snd (fst (enqueueCommand CMD_OTA_MODE [] 0 1000 boot))))
               = true) by reflexivity.
  destruct (C5_gate_open 0x05 [] 0 2000 _ Hg) as (H1 & H2 & H3).
  split; [exact Hg |].
  split; [apply H1; discriminate |].
  split.
  - rewrite (H2 (mkFrame 0x05 42 [])); [reflexivity | reflexivity ..| discriminate].
  - destruct (enqueueCommand CMD_OTA_MODE [] 0 2000 _) as [[ok s'] ev].
    destruct H3 as (_ & _ & H & _). exact H.
Defined.

(* ================================================================== *)
(** ** What is read of the payload *)

Lemma readU16LE_app (p extra : list Z) :
  (2 <= length p)%nat -> readU16LE (p ++ extra) = readU16LE p.
Proof.
  intros H. unfold readU16LE.
  rewrite !lookup_total_app_l by lia. reflexivity.
Qed.

Lemma sirenParse_app (n : nat) :
  forall i p extra onArr offArr,
    (4 * n <= length p)%nat ->
    sirenParse n i (p ++ extra) onArr offArr = sirenParse n i p onArr offArr.
Proof.
  induction n as [| n IH]; intros i p extra onArr offArr Hlen; [reflexivity |].
  cbn [sirenParse].
  rewrite !drop_drop.
  rewrite (readU16LE_app p) by lia.
  rewrite !drop_app_le by lia.
  rewrite (readU16LE_app (drop 2 p)) by (rewrite length_drop; lia).
  rewrite <- (drop_drop p 2 2).
  apply IH. rewrite !length_drop. lia.
Qed.

Lemma framed_bytes (d : Datagram) :
  framed d = true ->
  exists b2 b3 b4 b5 rest, rxBuf d = MAGIC :: VER :: b2 :: b3 :: b4 :: b5 :: rest.
Proof.
  unfold framed, rxLen. intros H.
  apply andb_prop in H as [H Hver]. apply andb_prop in H as [Hlen Hmag].
  destruct (rxBuf d) as [| b0 [| b1 [| b2 [| b3 [| b4 [| b5 rest]]]]]];
    try (cbn in Hlen; discriminate).
  cbn in Hmag, Hver. apply Z.eqb_eq in Hmag, Hver. subst.
  now exists b2, b3, b4, b5, rest.
Qed.

(** A framed datagram that fits the receive buffer, byte by byte. *)
Lemma fitting_frame (d : Datagram) :
  framed d = true -> (length (dgram d) <= 128)%nat ->
  exists b2 b3 b4 b5 rest,
    dgram d = MAGIC :: VER :: b2 :: b3 :: b4 :: b5 :: rest /\
    rxBuf d = dgram d.
Proof.
  intros Hfr Hfit.
  destruct (framed_bytes d Hfr) as (b2 & b3 & b4 & b5 & rest & Hb).
  assert (Hrx : rxBuf d = dgram d)
    by (unfold rxBuf; apply take_ge; exact Hfit).
  exists b2, b3, b4, b5, rest. rewrite <- Hrx at 1. split; assumption.
Qed.

(** Two datagrams that agree on the sender and on what [processUdp] parses
    from them, and whose payloads the dispatcher treats alike, are handled
    alike. *)
Lemma processUdpPacket_ext (now : Z) (d d' : Datagram) (s : State) :
  framed d' = framed d -> frameLenOk d' = frameLenOk d ->
  frameId d' = frameId d -> frameCmd d' = frameCmd d ->
  remoteIP d' = remoteIP d -> remotePort d' = remotePort d ->
  enqueueCommand (frameCmd d') (framePayload d') (framePlen d') now s =
    enqueueCommand (frameCmd d) (framePayload d) (framePlen d) now s ->
  processUdpPacket now d' s = processUdpPacket now d s.
Proof.
  intros Hfr Hlen Hid Hcmd Hip Hport Henq.
  assert (Hrep : isRepeat d' s = isRepeat d s)
    by (unfold isRepeat; rewrite Hid; reflexivity).
  destruct (framed d) eqn:Ef.
  - destruct (frameLenOk d) eqn:El.
    + destruct (isRepeat d s) eqn:Er.
      * rewrite !processUdpPacket_repeat by assumption.
        rewrite Hid, Hip, Hport. reflexivity.
      * rewrite !processUdpPacket_fresh by assumption.
        rewrite Henq, Hid, Hip, Hport, Hcmd. reflexivity.
    + rewrite !processUdpPacket_badlen by assumption.
      rewrite Hid, Hip, Hport. reflexivity.
  - rewrite !processUdpPacket_dropped by assumption. reflexivity.
Qed.

(** What [processUdp] parses from the frame with the header of a fitting
    frame and another payload that fits. *)
Lemma withPayload_fields (d : Datagram) (p : list Z) :
  framed d = true -> (length (dgram d) <= 128)%nat ->
  (length p <= 122)%nat ->
  framed (withPayload d p) = true /\
  frameLenOk (withPayload d p) = true /\
  frameId (withPayload d p) = frameId d /\
  frameCmd (withPayload d p) = frameCmd d /\
  framePlen (withPayload d p) = Z.of_nat (length p) /\
  framePayload (withPayload d p) = p.
Proof.
  intros Hfr Hfit Hp.
  destruct (fitting_frame d Hfr Hfit) as (b2 & b3 & b4 & b5 & rest & Hd & Hrx).
  assert (Hrx' : rxBuf (withPayload d p) =
                 MAGIC :: VER :: b2 :: b3 :: b4 :: Z.of_nat (length p) :: p).
  { unfold rxBuf, withPayload. cbn [dgram]. rewrite Hd.
    apply take_ge. cbn [take app length]. unfold UDP_BUF_SIZE. lia. }
  unfold framePayload.
  unfold framed, frameLenOk, frameId, frameCmd, framePlen, rxLen.
  rewrite Hrx', Hrx, Hd.
  cbn [length lookup_total list_lookup_total].
  change (drop 3 (MAGIC :: VER :: b2 :: b3 :: b4 :: ?x)) with (b3 :: b4 :: x).
  change (drop 6 (MAGIC :: VER :: b2 :: b3 :: b4 :: ?y :: ?x)) with x.
  rewrite !Z.eqb_refl.
  replace (Z.of_nat (S (S (S (S (S (S (length p))))))) <? 6) with false
    by (symmetry; apply Z.ltb_ge; lia).
  replace (6 + Z.of_nat (length p) =?
           Z.of_nat (S (S (S (S (S (S (length p))))))))
    with true by (symmetry; apply Z.eqb_eq; lia).
  repeat split.
  destruct p as [| x p']; reflexivity.
Qed.

(** What [processUdp] parses from a length-consistent frame that fits. *)
Lemma fitting_fields (d : Datagram) :
  framed d = true -> lengthConsistent d = true ->
  (length (dgram d) <= 128)%nat ->
  frameLenOk d = true /\
  framePlen d = Z.of_nat (length (drop 6 (dgram d))) /\
  framePayload d = drop 6 (dgram d) /\
  (length (drop 6 (dgram d)) <= 122)%nat.
Proof.
  intros Hfr Hlc Hfit.
  destruct (fitting_frame d Hfr Hfit) as (b2 & b3 & b4 & b5 & rest & Hd & Hrx).
  unfold lengthConsistent in Hlc. apply Z.eqb_eq in Hlc.
  unfold framePayload. unfold frameLenOk, framePlen, rxLen.
  rewrite Hrx. rewrite Hd in *.
  change (drop 6 (MAGIC :: VER :: b2 :: b3 :: b4 :: b5 :: rest)) with rest.
  cbn [length lookup_total list_lookup_total] in *.
  assert (Hb5 : b5 = Z.of_nat (length rest)) by lia.
  split; [apply Z.eqb_eq; lia |]. split; [exact Hb5 |].
  split; [| lia].
  rewrite Hb5. destruct rest; reflexivity.
Qed.

(** C10, as stated, fails for frames that do not fit the 128-byte receive
    buffer.  [longPress] is a length-consistent single-press frame of 206
    bytes.  Only 128 bytes are read, so the length test fails: from boot it
    is answered with status 0, nothing is dispatched and nothing is queued,
    while the same frame with an empty payload is dispatched, answered with
    status 1 and has its press queued. *)
Lemma C10_counterexample :
  framed longPress = true /\ lengthConsistent longPress = true /\
  frameCmd longPress = 0x05 /\ otaEnabled (ota boot) = false /\
  snd (processUdpPacket 1000 longPress boot) =
    [EvAck 0xC0A80001 4210 [MAGIC; VER; CMD_ACK; 0x2A; 0; 0; 0]] /\
  qList (queue (fst (processUdpPacket 1000 longPress boot))) = [] /\
  snd (processUdpPacket 1000 (withPayload longPress []) boot) =
    [EvDispatch 0x05;
     EvAck 0xC0A80001 4210 [MAGIC; VER; CMD_ACK; 0x2A; 0; 1; 0]] /\
  qList (queue (fst (processUdpPacket 1000 (withPayload longPress []) boot))) =
    [mkAction Press 4].
Proof. vm_compute. repeat split. Qed.

(** C10, amended.  With the OTA window closed:
    - for a single-press code (0x01..0x1B), the mode-switch macro and the
      reset macro, the dispatcher's result (verdict, state, events) is the
      same for every payload and declared length as for the empty payload;
    - a siren payload made of a count in 1..3 and its [4 * count] duration
      bytes is accepted, and with any bytes appended it is accepted with
      the same result;
    - CMD_OTA_MODE is accepted with length 0 and refused, with nothing
      changed, with any other length;
    - no other command refuses a payload for being non-empty: a command
      other than CMD_OTA_MODE that is accepted with the empty payload gives
      the same result with any payload;
    - a length-consistent frame of at most 128 bytes that carries a
      single-press or macro code is handled exactly as the frame with the
      same sender, command and id and an empty payload: same state, same
      acknowledgement, whatever its LEN and payload bytes;
    - a length-consistent siren frame of at most 128 bytes, with a count in
      1..3 and at least [4 * count] bytes behind it, is handled exactly as
      the frame cut after its [1 + 4 * count] payload bytes; unless it
      repeats the last id it is dispatched and acknowledged with status 1,
      and the siren runs;
    - a length-consistent OTA frame of at most 128 bytes with a non-empty
      payload, not repeating the last id, is dispatched and acknowledged
      with status 0, and only the dedup record changes. *)
Theorem C10_payload_ignored (now : Z) (s : State) :
  otaEnabled (ota s) = false ->
  (forall cmd payload payloadLen,
     0x01 <= cmd <= 0x1B \/ cmd = CMD_MODE_SWITCH \/
       cmd = CMD_RESET_SCOREBOARD ->
     enqueueCommand cmd payload payloadLen now s =
       enqueueCommand cmd [] 0 now s) /\
  (forall count durations extra,
     1 <= count <= 3 -> Z.of_nat (length durations) = 4 * count ->
     fst (fst (enqueueCommand CMD_SIREN (count :: durations)
                 (Z.of_nat (length (count :: durations))) now s)) = true /\
     enqueueCommand CMD_SIREN ((count :: durations) ++ extra)
         (Z.of_nat (length ((count :: durations) ++ extra))) now s =
       enqueueCommand CMD_SIREN (count :: durations)
         (Z.of_nat (length (count :: durations))) now s) /\
  (forall payload,
     fst (fst (enqueueCommand CMD_OTA_MODE payload 0 now s)) = true) /\
  (forall payload payloadLen,
     payloadLen <> 0 ->
     enqueueCommand CMD_OTA_MODE payload payloadLen now s = (false, s, [])) /\
  (forall cmd payload payloadLen,
     cmd <> CMD_OTA_MODE ->
     fst (fst (enqueueCommand cmd [] 0 now s)) = true ->
     enqueueCommand cmd payload payloadLen now s =
       enqueueCommand cmd [] 0 now s) /\
  (forall d,
     framed d = true -> lengthConsistent d = true ->
     (length (dgram d) <= 128)%nat ->
     0x01 <= frameCmd d <= 0x1B \/ frameCmd d = CMD_MODE_SWITCH \/
       frameCmd d = CMD_RESET_SCOREBOARD ->
     processUdpPacket now d s = processUdpPacket now (withPayload d []) s) /\
  (forall d,
     framed d = true -> lengthConsistent d = true ->
     (length (dgram d) <= 128)%nat ->
     frameCmd d = CMD_SIREN ->
     1 <= dgram d !!! 6%nat <= 3 ->
     7 + 4 * dgram d !!! 6%nat <= Z.of_nat (length (dgram d)) ->
     processUdpPacket now d s =
       processUdpPacket now
         (withPayload d (take (Z.to_nat (1 + 4 * dgram d !!! 6%nat))
                              (drop 6 (dgram d)))) s /\
     (isRepeat d s = false ->
      exists s1,
        processUdpPacket now d s =
          (s1, [EvDispatch CMD_SIREN;
                EvAck (remoteIP d) (remotePort d) (ackBytes (frameId d) 1)]) /\
        sirenActive (siren s1) = true /\ pinSiren (siren s1) = true /\
        queue s1 = queue s)) /\
  (forall d,
     framed d = true -> lengthConsistent d = true ->
     (length (dgram d) <= 128)%nat ->
     frameCmd d = CMD_OTA_MODE -> 6 < Z.of_nat (length (dgram d)) ->
     isRepeat d s = false ->
     processUdpPacket now d s =
       (set_dedup (mkDedup (frameId d) true 0) s,
        [EvDispatch CMD_OTA_MODE;
         EvAck (remoteIP d) (remotePort d) (ackBytes (frameId d) 0)])).
Proof.
  intros Hg.
  assert (Hfixed : forall cmd payload payloadLen,
            cmd <> CMD_OTA_MODE -> cmd <> CMD_SIREN ->
            enqueueCommand cmd payload payloadLen now s =
              enqueueCommand cmd [] 0 now s).
  { intros cmd payload payloadLen H1 H2. unfold enqueueCommand. rewrite Hg.
    destruct (Z.eqb_spec cmd CMD_OTA_MODE) as [? | _]; [contradiction |].
    destruct (Z.eqb_spec cmd CMD_SIREN) as [? | _]; [contradiction |].
    reflexivity. }
  assert (Hpress : forall cmd payload payloadLen,
            0x01 <= cmd <= 0x1B \/ cmd = CMD_MODE_SWITCH \/
              cmd = CMD_RESET_SCOREBOARD ->
            enqueueCommand cmd payload payloadLen now s =
              enqueueCommand cmd [] 0 now s).
  { intros cmd payload payloadLen Hcmd. apply Hfixed;
      unfold CMD_OTA_MODE, CMD_SIREN, CMD_MODE_SWITCH, CMD_RESET_SCOREBOARD in *;
      lia. }
  assert (Hsiren : forall count durations extra,
     1 <= count <= 3 -> Z.of_nat (length durations) = 4 * count ->
     fst (fst (enqueueCommand CMD_SIREN (count :: durations)
                 (Z.of_nat (length (count :: durations))) now s)) = true /\
     enqueueCommand CMD_SIREN ((count :: durations) ++ extra)
         (Z.of_nat (length ((count :: durations) ++ extra))) now s =
       enqueueCommand CMD_SIREN (count :: durations)
         (Z.of_nat (length (count :: durations))) now s).
  { intros count durations extra Hc Hlen.
    assert (Hneed : u8 (1 + count * 4) = 1 + count * 4) by (apply u8_small; lia).
    unfold enqueueCommand. rewrite Hg. cbn -[sirenParse Z.mul Z.of_nat length u8 app].
    cbn [app lookup_total list_lookup_total drop].
    rewrite Hneed.
    assert (H1 : (Z.of_nat (length (count :: durations ++ extra)) <? 1) = false)
      by (apply Z.ltb_ge; cbn [length]; lia).
    assert (H2 : (Z.of_nat (length (count :: durations)) <? 1) = false)
      by (apply Z.ltb_ge; cbn [length]; lia).
    assert (H3 : (Z.of_nat (length (count :: durations ++ extra)) <? 1 + count * 4) = false)
      by (apply Z.ltb_ge; cbn [length]; rewrite length_app; lia).
    assert (H4 : (Z.of_nat (length (count :: durations)) <? 1 + count * 4) = false)
      by (apply Z.ltb_ge; cbn [length]; lia).
    assert (H5 : ((count <? 1) || (3 <? count)) = false).
    { apply orb_false_iff. split; apply Z.ltb_ge; lia. }
    rewrite H1, H2, H3, H4, H5.
    change (drop 0 (durations ++ extra)) with (durations ++ extra).
    change (drop 0 durations) with durations.
    rewrite sirenParse_app by lia.
    destruct (sirenParse _ _ _ _ _). split; reflexivity. }
  assert (Hota : forall payload payloadLen,
     payloadLen <> 0 ->
     enqueueCommand CMD_OTA_MODE payload payloadLen now s = (false, s, [])).
  { intros payload payloadLen Hne. unfold enqueueCommand. rewrite Hg. cbn.
    destruct (Z.eqb_spec payloadLen 0) as [? | _]; [contradiction |].
    reflexivity. }
  split; [exact Hpress |]. split; [exact Hsiren |].
  split; [| split; [exact Hota |]; split; [| split; [| split]]].
  - intros payload. unfold enqueueCommand.
    rewrite Hg, otaEnterOrExtendWindow_eq. reflexivity.
  - intros cmd payload payloadLen Hcmd Hok.
    destruct (Z.eq_dec cmd CMD_SIREN) as [-> | Hsir].
    + unfold enqueueCommand in Hok. rewrite Hg in Hok. cbn in Hok. discriminate.
    + apply Hfixed; assumption.
  - (* press and macro frames *)
    intros d Hfr Hlc Hfit Hcmd.
    destruct (fitting_fields d Hfr Hlc Hfit) as (Hlen & _ & _ & _).
    destruct (withPayload_fields d [] Hfr Hfit ltac:(cbn; lia))
      as (Hfr' & Hlen' & Hid' & Hcmd' & _ & _).
    symmetry. apply processUdpPacket_ext; try congruence; try reflexivity.
    rewrite Hcmd'. rewrite (Hpress _ (framePayload d) _ Hcmd).
    apply Hpress. exact Hcmd.
  - (* siren frames *)
    intros d Hfr Hlc Hfit Hcmd Hcount Hneed.
    destruct (fitting_fields d Hfr Hlc Hfit) as (Hlen & Hplen & Hpay & Hp122).
    set (count := dgram d !!! 6%nat) in *.
    set (p := drop 6 (dgram d)) in *.
    assert (Hplong : 1 + 4 * count <= Z.of_nat (length p)).
    { subst p. rewrite length_drop. lia. }
    assert (Hp0 : exists rest, p = count :: rest).
    { subst p count. destruct (drop 6 (dgram d)) as [| c rest] eqn:E;
        [cbn [length] in Hplong; lia |].
      exists rest. f_equal.
      rewrite <- (take_drop 6 (dgram d)), E.
      rewrite lookup_total_app_r by (rewrite length_take; lia).
      rewrite length_take.
      replace (6 - 6 `min` length (dgram d))%nat with 0%nat by lia.
      reflexivity. }
    destruct Hp0 as (rest & Hp).
    set (n := Z.to_nat (4 * count)).
    assert (Hcut : take (Z.to_nat (1 + 4 * count)) p = count :: take n rest).
    { rewrite Hp. replace (Z.to_nat (1 + 4 * count)) with (S n) by (subst n; lia).
      reflexivity. }
    assert (Hsplit : p = (count :: take n rest) ++ drop n rest).
    { rewrite Hp. cbn [app]. rewrite take_drop. reflexivity. }
    assert (Hdur : Z.of_nat (length (take n rest)) = 4 * count).
    { rewrite length_take. rewrite Hp in Hplong. cbn [length] in Hplong.
      subst n. lia. }
    destruct (Hsiren count (take n rest) (drop n rest) Hcount Hdur)
      as (Hacc & Hsame).
    rewrite <- Hsplit in Hsame.
    assert (Hshort : (length (count :: take n rest) <= 122)%nat)
      by (cbn [length]; lia).
    destruct (withPayload_fields d (count :: take n rest) Hfr Hfit Hshort)
      as (Hfr' & Hlen' & Hid' & Hcmd' & Hplen' & Hpay').
    rewrite Hcut.
    assert (Heq : processUdpPacket now d s =
                  processUdpPacket now (withPayload d (count :: take n rest)) s).
    { symmetry. apply processUdpPacket_ext; first [congruence | reflexivity]. }
    split; [exact Heq |].
    intros Hrep.
    rewrite (processUdpPacket_fresh now d s Hfr Hlen Hrep).
    rewrite Hcmd, Hplen, Hpay, Hsame.
    revert Hacc.
    unfold enqueueCommand. rewrite Hg.
    cbn -[sirenParse Z.mul Z.of_nat length u8 app sirenStart].
    cbn [lookup_total list_lookup_total].
    repeat match goal with
           | |- context [if ?b then _ else _] => destruct b
           end; try (cbn; discriminate).
    destruct (sirenParse _ _ _ _ _) as [onArr offArr]. intros _.
    eexists. split; [reflexivity |].
    cbn. repeat split.
  - (* OTA frames *)
    intros d Hfr Hlc Hfit Hcmd Hlong Hrep.
    destruct (fitting_fields d Hfr Hlc Hfit) as (Hlen & Hplen & _ & _).
    rewrite (processUdpPacket_fresh now d s Hfr Hlen Hrep).
    rewrite Hcmd, Hota; [reflexivity |].
    rewrite Hplen, length_drop. lia.
Qed.

Lemma C10_payload_ignored_witness :
  otaEnabled (ota boot) = false /\
  enqueueCommand 0x05 [1; 2; 3] 3 1000 boot =
    enqueueCommand 0x05 [] 0 1000 boot /\
  enqueueCommand CMD_SIREN ([1; 200; 0; 100; 0] ++ [7; 7]) 7 1000 boot =
    enqueueCommand CMD_SIREN [1; 200; 0; 100; 0] 5 1000 boot /\
  enqueueCommand CMD_OTA_MODE [9] 1 1000 boot = (false, boot, []) /\
  processUdpPacket 1000 (mkFrame 0x05 42 [1; 2; 3]) boot =
    processUdpPacket 1000 (withPayload (mkFrame 0x05 42 [1; 2; 3]) []) boot /\
  processUdpPacket 1000 (mkFrame CMD_SIREN 43 [1; 200; 0; 100; 0; 7; 7]) boot =
    processUdpPacket 1000
      (withPayload (mkFrame CMD_SIREN 43 [1; 200; 0; 100; 0; 7; 7])
                   [1; 200; 0; 100; 0]) boot /\
  processUdpPacket 1000 (mkFrame CMD_OTA_MODE 44 [9]) boot =
    (set_dedup (mkDedup 44 true 0) boot,
     [EvDispatch CMD_OTA_MODE;
      EvAck 0xC0A80001 4210 (ackBytes 44 0)]).
Proof.
  assert (Hg : otaEnabled (ota boot) = false) by reflexivity.
  destruct (C10_payload_ignored 1000 boot Hg)
    as (H1 & H2 & _ & H4 & _ & H6 & H7 & H8).
  split; [exact Hg |].
  split; [apply H1; left; lia |].
  split; [apply (proj2 (H2 1 [200; 0; 100; 0] [7; 7] ltac:(lia) eq_refl)) |].
  split; [apply H4; discriminate |].
  split.
  { apply H6; [reflexivity | reflexivity | cbn; lia |].
    left. vm_compute. split; discriminate. }
  split.
  { apply (proj1 (H7 (mkFrame CMD_SIREN 43 [1; 200; 0; 100; 0; 7; 7])
                    eq_refl eq_refl ltac:(cbn; lia) eq_refl
                    ltac:(vm_compute; split; discriminate)
                    ltac:(vm_compute; discriminate))). }
  apply (H8 (mkFrame CMD_OTA_MODE 44 [9]));
    [reflexivity | reflexivity | cbn; lia | reflexivity
     | vm_compute; reflexivity | reflexivity].
Defined.

(* ================================================================== *)
(** ** Traces *)

Lemma irCodes_app (t1 t2 : list Event) :
  irCodes (t1 ++ t2) = irCodes t1 ++ irCodes t2.
Proof. apply flat_map_app. Qed.

Lemma dispatched_app (t1 t2 : list Event) :
  dispatched (t1 ++ t2) = dispatched t1 ++ dispatched t2.
Proof. apply flat_map_app. Qed.

Lemma acks_app (t1 t2 : list Event) : acks (t1 ++ t2) = acks t1 ++ acks t2.
Proof. apply flat_map_app. Qed.

Lemma ackFollowsDispatch_none (tr : list Event) :
  dispatched tr = [] -> ackFollowsDispatch tr.
Proof.
  intros H pre cmd post E. subst tr.
  rewrite dispatched_app in H. cbn in H.
  destruct (dispatched pre); discriminate.
Qed.

Lemma ackFollowsDispatch_app (t1 t2 : list Event) :
  ackFollowsDispatch t1 -> ackFollowsDispatch t2 ->
  ackFollowsDispatch (t1 ++ t2).
Proof.
  intros H1 H2 pre cmd post E.
  apply app_eq_app in E as [l [[E1 E2] | [E1 E2]]].
  - destruct l as [| e l].
    + cbn in E2. symmetry in E2. apply (H2 [] cmd post E2).
    + cbn in E2. injection E2 as <- ->.
      destruct (H1 pre cmd l E1) as (mid & ip & port & bytes & rest & -> & Hm).
      exists mid, ip, port, bytes, (rest ++ t2). split; [| exact Hm].
      rewrite <- app_assoc. reflexivity.
  - apply (H2 l cmd post E2).
Qed.

Lemma PacketTrace_irCodes (ev : list Event) : PacketTrace ev -> irCodes ev = [].
Proof. intros [| ? ? ? | ? ? ? ? ? [-> | ->]]; reflexivity. Qed.

Lemma PacketTrace_ackFollows (ev : list Event) :
  PacketTrace ev -> ackFollowsDispatch ev.
Proof.
  intros [| ip port bytes | c mid ip port bytes Hm].
  - apply ackFollowsDispatch_none. reflexivity.
  - apply ackFollowsDispatch_none. reflexivity.
  - intros pre cmd post E. destruct pre as [| e pre].
    + cbn in E. injection E as _ <-.
      exists mid, ip, port, bytes, []. split; [reflexivity | exact Hm].
    + cbn in E. injection E as _ E. exfalso.
      apply (f_equal dispatched) in E. rewrite !dispatched_app in E.
      destruct Hm as [-> | ->]; cbn in E; destruct (dispatched pre); discriminate.
Qed.

(** The whole intake leaves the executor alone, sends no IR code, and keeps
    every dispatcher call followed by its acknowledgement. *)
Lemma processUdp_frame (now : Z) (pending : list Datagram) :
  forall s,
    let r := processUdp now pending s in
    rc5_toggle_state (fst r) = rc5_toggle_state s /\
    delayUntilMs (fst r) = delayUntilMs s /\
    nextWifiRetryMs (fst r) = nextWifiRetryMs s /\
    irCodes (snd r) = [] /\
    ackFollowsDispatch (snd r) /\
    (queue_wf (queue s) ->
       queue_wf (queue (fst r)) /\ qHead (queue (fst r)) = qHead (queue s) /\
       exists added, qList (queue (fst r)) = qList (queue s) ++ added).
Proof.
  assert (Hidle : forall s,
            rc5_toggle_state s = rc5_toggle_state s /\
            delayUntilMs s = delayUntilMs s /\
            nextWifiRetryMs s = nextWifiRetryMs s /\
            irCodes [] = [] /\
            ackFollowsDispatch [] /\
            (queue_wf (queue s) ->
               queue_wf (queue s) /\ qHead (queue s) = qHead (queue s) /\
               exists added, qList (queue s) = qList (queue s) ++ added)).
  { intros s. do 4 (split; [reflexivity |]).
    split; [apply ackFollowsDispatch_none; reflexivity |].
    intros Hwf. split; [exact Hwf | split; [reflexivity |]].
    exists []. now rewrite app_nil_r. }
  induction pending as [| d rest IH]; intros s; cbn zeta.
  - apply Hidle.
  - cbn [processUdp].
    destruct (0 <? Z.of_nat (length (dgram d))).
    + pose proof (processUdpPacket_frame now d s) as Hp.
      destruct (processUdpPacket now d s) as [s1 e1].
      specialize (IH s1).
      destruct (processUdp now rest s1) as [s2 e2].
      cbn [fst snd] in *.
      destruct Hp as (Ht & Hd & Hw & Hpt & Hq).
      destruct IH as (Ht' & Hd' & Hw' & Hir & Haf & Hq').
      split; [congruence |]. split; [congruence |]. split; [congruence |].
      split.
      { rewrite irCodes_app, Hir, (PacketTrace_irCodes _ Hpt). reflexivity. }
      split.
      { apply ackFollowsDispatch_app; [apply PacketTrace_ackFollows |]; assumption. }
      intros Hwf. destruct (Hq Hwf) as (Hwf1 & Hh1 & added1 & Hl1).
      destruct (Hq' Hwf1) as (Hwf2 & Hh2 & added2 & Hl2).
      split; [exact Hwf2 |]. split; [congruence |].
      exists (added1 ++ added2). rewrite Hl2, Hl1, app_assoc. reflexivity.
    + apply Hidle.
Qed.

(* ================================================================== *)
(** ** The RC5 encoder and the executor *)

Lemma RC5_TABLE_toggle :
  Forall (fun e => toggleOf (v_t0 e) = 0 /\ toggleOf (v_t1 e) = 1 /\ bits e = 12)
         RC5_TABLE.
Proof. repeat constructor. Qed.

Lemma RC5_TABLE_lookup (idx : Z) :
  0 <= idx < 27 ->
  toggleOf (v_t0 (RC5_TABLE !!! Z.to_nat idx)) = 0 /\
  toggleOf (v_t1 (RC5_TABLE !!! Z.to_nat idx)) = 1 /\
  bits (RC5_TABLE !!! Z.to_nat idx) = 12.
Proof.
  intros H.
  apply (Forall_lookup_total_1 _ _ (Z.to_nat idx) RC5_TABLE_toggle).
  change (length RC5_TABLE) with 27%nat. lia.
Qed.

(** A press flips the toggle and sends the variant of the new toggle. *)
Lemma sendRc5Press_toggle (now idx : Z) (s : State) :
  toggle_ok s -> 0 <= idx < 27 ->
  exists v,
    snd (sendRc5Press now idx s) = [EvIr v 12] /\
    toggleOf v = 1 - rc5_toggle_state s /\
    rc5_toggle_state (fst (sendRc5Press now idx s)) = 1 - rc5_toggle_state s /\
    queue (fst (sendRc5Press now idx s)) = queue s /\
    delayUntilMs (fst (sendRc5Press now idx s)) = delayUntilMs s /\
    ota (fst (sendRc5Press now idx s)) = ota s /\
    dedup (fst (sendRc5Press now idx s)) = dedup s /\
    siren (fst (sendRc5Press now idx s)) = siren s.
Proof.
  intros Ht Hidx.
  destruct (RC5_TABLE_lookup idx Hidx) as (H0 & H1 & Hb).
  unfold sendRc5Press.
  cbn [fst snd rc5_toggle_state set_rc5_toggle_state set_led queue
       delayUntilMs ota dedup siren].
  rewrite Hb.
  destruct Ht as [-> | ->].
  - change (u8 (Z.lxor 0 1)) with 1. change (1 =? 0) with false. cbn iota.
    eexists. split; [reflexivity |]. repeat split. exact H1.
  - change (u8 (Z.lxor 1 1)) with 0. change (0 =? 0) with true. cbn iota.
    eexists. split; [reflexivity |]. repeat split. exact H0.
Qed.

(** The executor paths that send nothing. *)
Ltac quiet_tick Ht Hwf :=
  cbn;
  split; [exact Ht | split; [exact Hwf |
    split; [left; split; reflexivity | repeat split]]].

(** One executor tick sends at most one code; if it does, the code carries
    the flipped toggle; and it only moves the queue, the armed delay, the
    toggle and the LED. *)
Lemma actionTick_frame (now : Z) (s : State) :
  toggle_ok s -> queue_wf (queue s) ->
  let r := actionTick now s in
  toggle_ok (fst r) /\ queue_wf (queue (fst r)) /\
  ((irCodes (snd r) = [] /\
    rc5_toggle_state (fst r) = rc5_toggle_state s) \/
   (exists v, irCodes (snd r) = [v] /\
              toggleOf v = 1 - rc5_toggle_state s /\
              rc5_toggle_state (fst r) = 1 - rc5_toggle_state s)) /\
  dispatched (snd r) = [] /\ acks (snd r) = [] /\
  ota (fst r) = ota s /\ dedup (fst r) = dedup s /\ siren (fst r) = siren s.
Proof.
  intros Ht Hwf. cbn zeta. unfold actionTick.
  destruct (negb (delayUntilMs s =? 0) && (now <? delayUntilMs s)).
  { quiet_tick Ht Hwf. }
  cbn [queue set_delayUntilMs].
  destruct (Z.eqb_spec (qCount (queue s)) 0) as [Hz | Hnz].
  { quiet_tick Ht Hwf. }
  destruct (qPop_some (queue s) Hwf) as (a & qu & Hpop & Hwf' & _ & _).
  { destruct Hwf as (_ & _ & Hc & _). lia. }
  rewrite Hpop.
  destruct (a_type a).
  - quiet_tick Ht Hwf'.
  - destruct (Z.ltb_spec (u8 (Z.land (a_arg a) 255)) 27) as [Hlt | Hge].
    + set (s1 := set_queue qu _).
      assert (Hidx : 0 <= u8 (Z.land (a_arg a) 255) < 27).
      { split; [apply Z.mod_pos_bound; lia | exact Hlt]. }
      assert (Ht1 : toggle_ok s1) by exact Ht.
      destruct (sendRc5Press_toggle now _ s1 Ht1 Hidx)
        as (v & Hev & Hv & Htog & Hq & _ & Ho & Hd & Hs).
      destruct (sendRc5Press now _ s1) as [s2 ev]. cbn [fst snd] in *.
      subst ev. change (rc5_toggle_state s1) with (rc5_toggle_state s) in *.
      split. { unfold toggle_ok in *. rewrite Htog. lia. }
      split. { rewrite Hq. exact Hwf'. }
      split. { right. exists v. repeat split; assumption. }
      repeat split; assumption.
    + quiet_tick Ht Hwf'.
  - quiet_tick Ht Hwf'.
Qed.

(* ================================================================== *)
(** ** The scheduler loop *)

Lemma loop_eq (i : Input) (s : State) :
  loop i s =
    let s0 := set_led (statusLedTick (in_now i) (in_wifi i) (led s)) s in
    let r1 := wifiTick (in_now i) (in_wifi i) s0 in
    let r2 := if in_wifi i
              then processUdp (in_now i) (in_pending i) (fst r1)
              else (fst r1, []) in
    let r3 := otaTick (in_now i) (in_wifi i) (fst r2) in
    let r4 := actionTick (in_now i) (fst r3) in
    (set_siren (sirenTick (in_now i) (siren (fst r4))) (fst r4),
     snd r1 ++ snd r2 ++ snd r3 ++ snd r4).
Proof.
  unfold loop. cbn zeta.
  destruct (wifiTick _ _ _) as [s1 e1]. cbn [fst snd].
  destruct (if in_wifi i then _ else _) as [s2 e2]. cbn [fst snd].
  destruct (otaTick _ _ _) as [s3 e3]. cbn [fst snd].
  destruct (actionTick _ _) as [s4 e4]. reflexivity.
Qed.

Lemma wifiTick_frame (now : Z) (wifi : bool) (s : State) :
  let r := wifiTick now wifi s in
  rc5_toggle_state (fst r) = rc5_toggle_state s /\
  queue (fst r) = queue s /\ ota (fst r) = ota s /\
  irCodes (snd r) = [] /\ dispatched (snd r) = [].
Proof.
  cbn zeta. unfold wifiTick.
  destruct wifi; [| destruct (now <? nextWifiRetryMs s)]; cbn; repeat split.
Qed.

Lemma otaTick_frame (now : Z) (wifi : bool) (s : State) :
  let r := otaTick now wifi s in
  rc5_toggle_state (fst r) = rc5_toggle_state s /\
  queue (fst r) = queue s /\
  irCodes (snd r) = [] /\ dispatched (snd r) = [].
Proof.
  cbn zeta. unfold otaTick.
  destruct (otaEnabled (ota s)); [| cbn; repeat split].
  destruct wifi; [| cbn; repeat split].
  destruct (otaUntilMs (ota s) <=? now); cbn; repeat split.
Qed.

Lemma actionTick_ota (now : Z) (s : State) :
  ota (fst (actionTick now s)) = ota s.
Proof.
  unfold actionTick, qPop, sendRc5Press.
  repeat match goal with
         | |- context [if ?b then _ else _] => destruct b
         | |- context [match a_type ?a with _ => _ end] => destruct (a_type a)
         end; reflexivity.
Qed.

(** One pass of the loop keeps the invariants, sends at most one code, with
    the flipped toggle, and keeps every dispatcher call followed by its
    acknowledgement. *)
Lemma loop_frame (i : Input) (s : State) :
  toggle_ok s -> queue_wf (queue s) ->
  let r := loop i s in
  toggle_ok (fst r) /\ queue_wf (queue (fst r)) /\
  ((irCodes (snd r) = [] /\
    rc5_toggle_state (fst r) = rc5_toggle_state s) \/
   (exists v, irCodes (snd r) = [v] /\
              toggleOf v = 1 - rc5_toggle_state s /\
              rc5_toggle_state (fst r) = 1 - rc5_toggle_state s)) /\
  ackFollowsDispatch (snd r).
Proof.
  intros Ht Hwf. cbn zeta. rewrite loop_eq. cbn zeta.
  set (s0 := set_led _ s).
  pose proof (wifiTick_frame (in_now i) (in_wifi i) s0) as H1.
  set (r1 := wifiTick _ _ s0) in *. cbn zeta in H1.
  destruct H1 as (Ht1 & Hq1 & _ & Hi1 & Hd1).
  change (rc5_toggle_state s0) with (rc5_toggle_state s) in Ht1.
  change (queue s0) with (queue s) in Hq1.
  set (r2 := if in_wifi i then _ else _).
  assert (H2 : rc5_toggle_state (fst r2) = rc5_toggle_state s /\
               queue_wf (queue (fst r2)) /\
               irCodes (snd r2) = [] /\ ackFollowsDispatch (snd r2)).
  { subst r2. destruct (in_wifi i).
    - pose proof (processUdp_frame (in_now i) (in_pending i) (fst r1)) as Hp.
      cbn zeta in Hp. destruct Hp as (Hpt & _ & _ & Hpi & Hpa & Hpq).
      split; [congruence |]. split; [| split; assumption].
      apply Hpq. rewrite Hq1. exact Hwf.
    - cbn [fst snd]. split; [exact Ht1 |]. split; [rewrite Hq1; exact Hwf |].
      split; [reflexivity | apply ackFollowsDispatch_none; reflexivity]. }
  destruct H2 as (Ht2 & Hwf2 & Hi2 & Ha2).
  pose proof (otaTick_frame (in_now i) (in_wifi i) (fst r2)) as H3.
  set (r3 := otaTick _ _ (fst r2)) in *. cbn zeta in H3.
  destruct H3 as (Ht3 & Hq3 & Hi3 & Hd3).
  assert (Htok3 : toggle_ok (fst r3)).
  { unfold toggle_ok in *. rewrite Ht3, Ht2. exact Ht. }
  assert (Hwf3 : queue_wf (queue (fst r3))) by (rewrite Hq3; exact Hwf2).
  pose proof (actionTick_frame (in_now i) (fst r3) Htok3 Hwf3) as H4.
  set (r4 := actionTick _ (fst r3)) in *. cbn zeta in H4.
  destruct H4 as (Htok4 & Hwf4 & Hir4 & Hd4 & _).
  cbn [fst snd]. rewrite Ht3, Ht2 in Hir4.
  split; [exact Htok4 |]. split; [exact Hwf4 |].
  split.
  - rewrite !irCodes_app, Hi1, Hi2, Hi3. cbn [app].
    exact Hir4.
  - apply ackFollowsDispatch_app;
      [apply ackFollowsDispatch_none; exact Hd1 |].
    apply ackFollowsDispatch_app; [exact Ha2 |].
    apply ackFollowsDispatch_none. rewrite dispatched_app, Hd3, Hd4.
    reflexivity.
Qed.

Lemma alternating_lookup (n : nat) :
  forall t k x,
    t = 0 \/ t = 1 ->
    alternating t n !! k = Some x -> x = (t + Z.of_nat (S k)) mod 2.
Proof.
  induction n as [| n IH]; intros t k x Ht H; [discriminate |].
  destruct k as [| k]; cbn in H.
  - injection H as <-. destruct Ht as [-> | ->]; reflexivity.
  - apply IH in H; [| lia]. rewrite H.
    replace (1 - t + Z.of_nat (S k)) with (t + Z.of_nat (S (S k)) - 2 * t) by lia.
    destruct Ht as [-> | ->]; [f_equal; lia |].
    replace (1 + Z.of_nat (S (S k)) - 2 * 1)
      with (1 + Z.of_nat (S (S k)) + (-1) * 2) by lia.
    apply Z.mod_add. lia.
Qed.

Lemma map_lookup_Some {A B : Type} (f : A -> B) (l : list A) :
  forall k x, l !! k = Some x -> map f l !! k = Some (f x).
Proof.
  induction l as [| a l IH]; intros k x H; [discriminate |].
  destruct k as [| k]; cbn in *; [congruence | apply IH; exact H].
Qed.

(** Any number of passes: the invariants hold at the end, the codes sent
    alternate their toggle, and acknowledgements follow dispatcher calls. *)
Lemma run_frame (ins : list Input) :
  forall s, toggle_ok s -> queue_wf (queue s) ->
    let r := run ins s in
    toggle_ok (fst r) /\ queue_wf (queue (fst r)) /\
    map toggleOf (irCodes (snd r)) =
      alternating (rc5_toggle_state s) (length (irCodes (snd r))) /\
    ackFollowsDispatch (snd r).
Proof.
  induction ins as [| i rest IH]; intros s Ht Hwf; cbn zeta.
  - cbn. split; [exact Ht |]. split; [exact Hwf |]. split; [reflexivity |].
    apply ackFollowsDispatch_none. reflexivity.
  - cbn [run].
    pose proof (loop_frame i s Ht Hwf) as Hl. cbn zeta in Hl.
    destruct (loop i s) as [s1 e1]. cbn [fst snd] in Hl.
    destruct Hl as (Ht1 & Hwf1 & Hir & Ha1).
    specialize (IH s1 Ht1 Hwf1). cbn zeta in IH.
    destruct (run rest s1) as [s2 e2]. cbn [fst snd] in *.
    destruct IH as (Ht2 & Hwf2 & Halt & Ha2).
    split; [exact Ht2 |]. split; [exact Hwf2 |].
    split; [| apply ackFollowsDispatch_app; assumption].
    rewrite irCodes_app.
    destruct Hir as [(-> & Hsame) | (v & -> & Hv & Hflip)].
    + cbn [app]. rewrite <- Hsame. exact Halt.
    + cbn [app map length alternating]. rewrite Hv, <- Hflip. f_equal.
      exact Halt.
Qed.

Lemma boot_toggle_ok : toggle_ok boot.
Proof. left. reflexivity. Qed.

(* ================================================================== *)
(** ** Toggle alternation *)

(** C6.  In every run from boot, whatever arrives and whichever table
    indices get pressed, the n-th code handed to the transmitter (n = k + 1,
    counted from 1) carries in its toggle bit (mask 0x800) the boot-time
    toggle flipped n times: boot toggle + n modulo 2. *)
Theorem C6_toggle_alternates (ins : list Input) (k : nat) (v : Z) :
  irCodes (snd (run ins boot)) !! k = Some v ->
  toggleOf v = (rc5_toggle_state boot + Z.of_nat (S k)) mod 2.
Proof.
  intros H.
  destruct (run_frame ins boot boot_toggle_ok boot_queue_wf)
    as (_ & _ & Halt & _).
  apply (map_lookup_Some toggleOf) in H. rewrite Halt in H.
  apply (alternating_lookup _ _ _ _ boot_toggle_ok H).
Qed.

Lemma C6_toggle_alternates_witness :
  irCodes (snd (run sampleRun boot)) !! 1%nat = Some 0x00C /\
  toggleOf 0x00C = (rc5_toggle_state boot + Z.of_nat 2) mod 2.
Proof.
  split; [reflexivity |].
  apply (C6_toggle_alternates sampleRun 1 0x00C). reflexivity.
Defined.

(* ================================================================== *)
(** ** Acknowledgement before execution *)

(** C3.  In the trace of every run from boot, each call of the dispatcher
    is followed by the acknowledgement datagram with nothing in between but,
    at most, the start-up of the OTA service: no action is taken from the
    queue and no code is sent between a command's dispatch and its
    acknowledgement.  And handling a datagram only appends to the queue: the
    pending actions stay in front, the head of the queue, the armed delay
    and the toggle are as before. *)
Theorem C3_ack_before_execution :
  (forall ins pre cmd post,
     snd (run ins boot) = pre ++ EvDispatch cmd :: post ->
     exists mid ip port bytes rest,
       post = mid ++ EvAck ip port bytes :: rest /\
       (mid = [] \/ mid = [EvOtaBegin])) /\
  (forall now d s,
     queue_wf (queue s) ->
     let r := processUdpPacket now d s in
     qHead (queue (fst r)) = qHead (queue s) /\
     delayUntilMs (fst r) = delayUntilMs s /\
     rc5_toggle_state (fst r) = rc5_toggle_state s /\
     exists added, qList (queue (fst r)) = qList (queue s) ++ added).
Proof.
  split.
  - intros ins.
    destruct (run_frame ins boot boot_toggle_ok boot_queue_wf)
      as (_ & _ & _ & Ha).
    exact Ha.
  - intros now d s Hwf. cbn zeta.
    destruct (processUdpPacket_frame now d s) as (Ht & Hd & _ & _ & Hq).
    destruct (Hq Hwf) as (_ & Hh & Hadd).
    repeat split; assumption.
Qed.

Lemma C3_ack_before_execution_witness :
  snd (run sampleRun boot) =
    [EvDispatch 0x05; EvAck 0xC0A80001 4210 [MAGIC; VER; CMD_ACK; 42; 0; 1; 0]]
      ++ EvDispatch CMD_MODE_SWITCH ::
         [EvAck 0xC0A80001 4210 [MAGIC; VER; CMD_ACK; 43; 0; 1; 0];
          EvDequeue (mkAction Press 4); EvIr 0x838 12;
          EvDequeue (mkAction Press IDX_EXIT); EvIr 0x00C 12;
          EvDequeue (mkAction Delay IR_GAP_MS_DEFAULT)] /\
  (exists mid ip port bytes rest,
     [EvAck 0xC0A80001 4210 [MAGIC; VER; CMD_ACK; 43; 0; 1; 0];
      EvDequeue (mkAction Press 4); EvIr 0x838 12;
      EvDequeue (mkAction Press IDX_EXIT); EvIr 0x00C 12;
      EvDequeue (mkAction Delay IR_GAP_MS_DEFAULT)]
       = mid ++ EvAck ip port bytes :: rest /\
     (mid = [] \/ mid = [EvOtaBegin])) /\
  queue_wf (queue boot) /\
  (let r := processUdpPacket 1000 (mkFrame CMD_MODE_SWITCH 43 []) boot in
   qHead (queue (fst r)) = qHead (queue boot) /\
   delayUntilMs (fst r) = delayUntilMs boot /\
   rc5_toggle_state (fst r) = rc5_toggle_state boot /\
   exists added, qList (queue (fst r)) = qList (queue boot) ++ added).
Proof.
  split; [reflexivity |].
  split.
  - apply (proj1 C3_ack_before_execution sampleRun
             [EvDispatch 0x05;
              EvAck 0xC0A80001 4210 [MAGIC; VER; CMD_ACK; 42; 0; 1; 0]]
             CMD_MODE_SWITCH).
    reflexivity.
  - split; [exact boot_queue_wf |].
    apply (proj2 C3_ack_before_execution 1000
             (mkFrame CMD_MODE_SWITCH 43 []) boot boot_queue_wf).
Defined.

(* ================================================================== *)
(** ** The OTA window closes on its deadline *)

(** C4, as stated, fails.  From boot the window is opened at 1000 ms
    (deadline 181000 ms); the next pass runs at 200000 ms with the link
    down.  The window is enabled, the deadline has passed, and both the
    gate's tick and the whole pass leave the window open. *)
Lemma C4_counterexample :
  let s := fst (loop otaOpens boot) in
  otaEnabled (ota s) = true /\
  otaUntilMs (ota s) <= in_now lateAndUnlinked /\
  otaEnabled (ota (fst (otaTick (in_now lateAndUnlinked)
                          (in_wifi lateAndUnlinked) s))) = true /\
  otaEnabled (ota (fst (loop lateAndUnlinked s))) = true.
Proof. vm_compute. repeat split; discriminate. Qed.

(** C4, amended.  When the window is enabled and the clock has reached its
    deadline, the gate's tick closes it provided the link is up, touching
    nothing else; with the link down the tick does nothing.  A whole pass of
    the loop with the link up and no datagram pending closes it as well. *)
Theorem C4_gate_closes_when_linked (now : Z) (s : State) :
  otaEnabled (ota s) = true ->
  otaUntilMs (ota s) <= now ->
  otaTick now true s =
    (set_ota (mkOta false (otaInitialized (ota s)) (otaUntilMs (ota s))) s, [])
  /\ otaTick now false s = (s, [])
  /\ otaEnabled (ota (fst (loop (mkInput now true []) s))) = false.
Proof.
  intros Hen Hdl.
  assert (Hb : (otaUntilMs (ota s) <=? now) = true) by (apply Z.leb_le; exact Hdl).
  assert (Htick : forall s0, ota s0 = ota s ->
            otaTick now true s0 =
              (set_ota (mkOta false (otaInitialized (ota s))
                          (otaUntilMs (ota s))) s0, [])).
  { intros s0 E. unfold otaTick. rewrite E, Hen, Hb. reflexivity. }
  split; [apply Htick; reflexivity |].
  split; [unfold otaTick; rewrite Hen; reflexivity |].
  rewrite loop_eq. cbn [in_now in_wifi in_pending wifiTick processUdp fst snd].
  rewrite Htick by reflexivity. cbn [fst snd ota set_siren].
  rewrite actionTick_ota. reflexivity.
Qed.

Lemma C4_gate_closes_when_linked_witness :
  let s := fst (loop otaOpens boot) in
  otaEnabled (ota s) = true /\ otaUntilMs (ota s) <= 200000 /\
  otaEnabled (ota (fst (loop (mkInput 200000 true []) s))) = false.
Proof.
  cbn zeta.
  assert (Hen : otaEnabled (ota (fst (loop otaOpens boot))) = true)
    by reflexivity.
  assert (Hdl : otaUntilMs (ota (fst (loop otaOpens boot))) <= 200000)
    by (vm_compute; discriminate).
  split; [exact Hen |]. split; [exact Hdl |].
  exact (proj2 (proj2 (C4_gate_closes_when_linked 200000 _ Hen Hdl))).
Defined.

(* ================================================================== *)
(** ** Retransmissions *)

Lemma set_dedup_same (s : State) : set_dedup (dedup s) s = s.
Proof. destruct s; reflexivity. Qed.

Lemma isRepeat_dedup (d : Datagram) (s s' : State) :
  dedup s' = dedup s -> isRepeat d s' = isRepeat d s.
Proof. intros E. unfold isRepeat. rewrite E. reflexivity. Qed.

(** A datagram handled twice.  Let a datagram be handled in any state, and
    be handled again later, in any state whose dedup record is still the
    one the first handling left (the engines may have ticked in between).
    Then the second handling changes nothing in the state, its whole trace
    is the acknowledgement of the first handling, byte for byte (or nothing
    if the first was dropped), it does not enter the dispatcher, so that
    the dispatcher is entered at most once over both; and every
    acknowledgement has 7 bytes.  More generally, while the dedup record
    holds an id as valid, every frame that passes the length test under
    that id is answered with the stored status and nothing else happens. *)
Lemma retransmission_packet (now1 now2 : Z) (d : Datagram) (s s1' : State) :
  dedup s1' = dedup (fst (processUdpPacket now1 d s)) ->
  (fst (processUdpPacket now2 d s1') = s1' /\
   snd (processUdpPacket now2 d s1') = acks (snd (processUdpPacket now1 d s)) /\
   dispatched (snd (processUdpPacket now2 d s1')) = [] /\
   (length (dispatched (snd (processUdpPacket now1 d s) ++
                        snd (processUdpPacket now2 d s1'))) <= 1)%nat /\
   (forall ip port bytes,
      In (EvAck ip port bytes) (snd (processUdpPacket now1 d s)) ->
      length bytes = 7%nat)) /\
  (forall d',
     framed d' = true -> frameLenOk d' = true ->
     lastIdValid (dedup s1') = true -> frameId d' = lastId (dedup s1') ->
     processUdpPacket now2 d' s1' =
       (s1', [EvAck (remoteIP d') (remotePort d')
                (ackBytes (lastId (dedup s1')) (lastAckStatus (dedup s1')))])).
Proof.
  intros E. split.
  2: { intros d' Hfr Hlen Hv Hid.
       rewrite processUdpPacket_repeat; try assumption.
       - rewrite Hid. reflexivity.
       - unfold isRepeat. rewrite Hv, Hid. apply Z.eqb_refl. }
  revert E.
  packet_cases now1 d s.
  - (* the first reception was itself a repeat *)
    cbn [fst snd sendAck]. intros E.
    rewrite (processUdpPacket_repeat now2 d s1') by
      (try assumption; rewrite (isRepeat_dedup d s s1' E); assumption).
    rewrite E. cbn. repeat split; try lia.
    intros ip port bytes [H | []]. injection H as _ _ <-. reflexivity.
  - (* the first reception went through the dispatcher *)
    pose proof (enqueueCommand_frame (frameCmd d) (framePayload d)
                  (framePlen d) now1 s) as Hf.
    destruct (enqueueCommand _ _ _ _ _) as [[ok s1] ev].
    cbn zeta in Hf. cbn [fst snd] in Hf. destruct Hf as (_ & _ & _ & _ & Hev).
    cbn zeta. cbn [fst snd sendAck].
    assert (Hded : forall st0,
              dedup (if ok
                     then set_led (statusLedActivityBurst now1
                                     (led (set_dedup st0 s1))) (set_dedup st0 s1)
                     else set_dedup st0 s1) = st0)
      by (intros st0; destruct ok; reflexivity).
    rewrite Hded. intros E.
    assert (Hrep' : isRepeat d s1' = true).
    { unfold isRepeat. rewrite E. cbn. apply Z.eqb_refl. }
    rewrite (processUdpPacket_repeat now2 d s1') by assumption.
    rewrite E. cbn [fst snd sendAck lastAckStatus].
    split; [reflexivity |].
    destruct Hev as [-> | ->]; cbn; repeat split; try lia;
      intros ip port bytes H;
      repeat (destruct H as [H | H]; try discriminate; try contradiction);
      injection H as _ _ <-; reflexivity.
  - (* the declared length does not match *)
    cbn [fst snd sendAck]. intros E.
    rewrite (processUdpPacket_badlen now2 d s1') by assumption.
    cbn [fst snd sendAck]. change (dedup (set_dedup ?x s)) with x in E.
    rewrite <- E, set_dedup_same. cbn. repeat split; try lia.
    intros ip port bytes [H | []]. injection H as _ _ <-. reflexivity.
  - (* dropped *)
    cbn [fst snd]. intros _.
    rewrite (processUdpPacket_dropped now2 d s1') by assumption.
    cbn. repeat split; try lia.
Qed.

(* ================================================================== *)
(** ** Length validation *)

(** Datagrams that fit the buffer: what is not framed is dropped without a
    trace; what is framed with a length other than 6 + LEN is acknowledged
    with status 0 under its request id, the dedup record taking that id and
    status, so that a resend gets the same acknowledgement. *)
Lemma length_validation_within_buffer (now now' : Z) (d : Datagram) (s : State) :
  (length (dgram d) <= UDP_BUF_SIZE)%nat ->
  (framed d = false -> processUdpPacket now d s = (s, [])) /\
  (framed d = true ->
   6 + framePlen d <> Z.of_nat (length (dgram d)) ->
   processUdpPacket now d s =
     (set_dedup (mkDedup (frameId d) true 0) s,
      [EvAck (remoteIP d) (remotePort d) (ackBytes (frameId d) 0)]) /\
   snd (processUdpPacket now' d (fst (processUdpPacket now d s))) =
     [EvAck (remoteIP d) (remotePort d) (ackBytes (frameId d) 0)]).
Proof.
  intros Hfit. split; [apply processUdpPacket_dropped |].
  intros Hfr Hne.
  assert (Hbad : frameLenOk d = false).
  { unfold frameLenOk, rxLen, rxBuf. rewrite take_ge by exact Hfit.
    apply Z.eqb_neq. exact Hne. }
  rewrite !processUdpPacket_badlen by assumption.
  split; reflexivity.
Qed.

(** C7 (evaluation at the failing input).  The datagram [oversized] has 200
    bytes and declares a 122-byte payload, so its length is not 6 + LEN.
    Only 128 of its bytes reach the buffer, and 6 + 122 = 128: from boot it
    is dispatched as command 0x05, acknowledged with status 1, its press is
    queued, and the dedup record holds status 1. *)
Theorem C7_oversized_datagram_accepted :
  let '(s, tr) := processUdp 1000 [oversized] boot in
  Z.of_nat (length (dgram oversized)) = 200 /\
  6 + dgram oversized !!! 5%nat = 128 /\
  framed oversized = true /\
  tr = [EvDispatch 0x05;
        EvAck 0xC0A80001 4210 [MAGIC; VER; CMD_ACK; 0x2A; 0x00; 1; 0]] /\
  qList (queue s) = [mkAction Press 4] /\
  dedup s = mkDedup 0x2A true 1.
Proof. vm_compute. repeat split. Qed.

(* ================================================================== *)
(** ** The siren engine *)

Lemma land_low_high (a b : Z) :
  0 <= a < 256 -> Z.land a (Z.shiftl b 8) = 0.
Proof.
  intros Ha. apply Z.bits_inj'. intros n Hn.
  rewrite Z.land_spec, Z.bits_0.
  destruct (Z.lt_ge_cases n 8) as [Hlo | Hhi].
  - rewrite Z.shiftl_spec_low by lia. apply andb_false_r.
  - replace a with (a mod 2 ^ 8) by (apply Z.mod_small; exact Ha).
    rewrite Z.mod_pow2_bits_high by lia. reflexivity.
Qed.

Lemma readU16LE_writeU16LE (v : Z) (rest : list Z) :
  0 <= v < 65536 -> readU16LE (writeU16LE v ++ rest) = v.
Proof.
  intros Hv. unfold readU16LE, writeU16LE.
  cbn [app lookup_total list_lookup_total].
  change 255 with (Z.ones 8). rewrite Z.land_ones by lia.
  rewrite Z.shiftr_div_pow2 by lia. change (2 ^ 8) with 256.
  assert (H1 : 0 <= v mod 256 < 256) by (apply Z.mod_pos_bound; lia).
  assert (H2 : 0 <= v / 256 < 256)
    by (split; [apply Z.div_pos; lia | apply Z.div_lt_upper_bound; lia]).
  rewrite !u8_small by assumption.
  pose proof (land_low_high (v mod 256) (v / 256) H1) as Hdis.
  rewrite <- Z.lxor_lor, <- Z.add_nocarry_lxor by exact Hdis.
  rewrite Z.shiftl_mul_pow2 by lia. change (2 ^ 8) with 256.
  unfold u16. rewrite Z.mod_small; pose proof (Z.div_mod v 256); lia.
Qed.

Arguments u8 : simpl never.
Arguments u16 : simpl never.
Arguments u32 : simpl never.
Arguments readU16LE : simpl never.
Arguments writeU16LE : simpl never.

Lemma sirenParse_encoded (pairs : list (Z * Z)) :
  forall i onArr offArr,
    Forall pulse_ok pairs ->
    sirenParse (length pairs) i
        (flat_map (fun p => writeU16LE (fst p) ++ writeU16LE (snd p)) pairs)
        onArr offArr =
      storePairs i pairs onArr offArr.
Proof.
  induction pairs as [| p ps IH]; intros i onArr offArr Hok; [reflexivity |].
  apply Forall_cons in Hok. destruct Hok as [[Hon Hoff] Hok].
  cbn [length flat_map sirenParse storePairs]. rewrite <- app_assoc.
  rewrite readU16LE_writeU16LE by exact Hon.
  change (drop 2 (writeU16LE (fst p) ++ ?x)) with x.
  rewrite readU16LE_writeU16LE by exact Hoff.
  change (drop 2 (writeU16LE (snd p) ++ ?x)) with x.
  apply IH. exact Hok.
Qed.

Lemma sirenPayload_length (pairs : list (Z * Z)) :
  Z.of_nat (length (sirenPayload pairs)) = 1 + Z.of_nat (length pairs) * 4.
Proof.
  unfold sirenPayload. cbn [length].
  induction pairs as [| p ps IH]; [reflexivity |].
  cbn [flat_map length]. rewrite !length_app.
  change (length (writeU16LE _)) with 2%nat. lia.
Qed.

(** A well-formed siren command, with the window closed, is accepted and
    leaves the engine in a state that depends on the command and the clock
    only: phase 0, ON, pin high, deadline one on-duration ahead. *)
Lemma siren_restart (now : Z) (s : State) (pairs : list (Z * Z)) :
  otaEnabled (ota s) = false ->
  (1 <= length pairs <= 3)%nat ->
  Forall pulse_ok pairs ->
  enqueueCommand CMD_SIREN (sirenPayload pairs)
      (Z.of_nat (length (sirenPayload pairs))) now s =
    (true,
     set_siren
       (mkSiren true (Z.of_nat (length pairs))
                (pad5 (map fst pairs)) (pad5 (map snd pairs))
                0 true (u32 (now + pad5 (map fst pairs) !!! 0%nat)) true) s,
     []).
Proof.
  intros Hg Hlen Hok.
  unfold enqueueCommand. rewrite Hg, sirenPayload_length.
  change (CMD_SIREN =? CMD_OTA_MODE) with false.
  change ((1 <=? CMD_SIREN) && (CMD_SIREN <=? 27)) with false.
  change (CMD_SIREN =? CMD_MODE_SWITCH) with false.
  change (CMD_SIREN =? CMD_RESET_SCOREBOARD) with false.
  change (CMD_SIREN =? CMD_SIREN) with true. cbv iota.
  change (sirenPayload pairs !!! 0%nat) with (Z.of_nat (length pairs)).
  change (drop 1 (sirenPayload pairs))
    with (flat_map (fun p => writeU16LE (fst p) ++ writeU16LE (snd p)) pairs).
  rewrite Nat2Z.id, sirenParse_encoded by exact Hok.
  rewrite u8_small by lia.
  replace (1 + Z.of_nat (length pairs) * 4 <? 1) with false
    by (symmetry; apply Z.ltb_ge; lia).
  replace ((Z.of_nat (length pairs) <? 1) || (3 <? Z.of_nat (length pairs)))
    with false
    by (symmetry; apply orb_false_iff; split; apply Z.ltb_ge; lia).
  rewrite Z.ltb_irrefl.
  destruct pairs as [| [a1 b1] [| [a2 b2] [| [a3 b3] [| ? ?]]]];
    cbn [length] in Hlen; try lia; reflexivity.
Qed.

(** Once stopped, the engine ignores its tick. *)
Lemma sirenTick_stopped (now : Z) (sr : Siren) :
  sirenActive sr = false -> sirenTick now sr = sr.
Proof. intros H. unfold sirenTick. rewrite H. reflexivity. Qed.

(** Before its deadline, the engine ignores its tick. *)
Lemma sirenTick_early (now : Z) (sr : Siren) :
  now < sirenNextMs sr -> sirenTick now sr = sr.
Proof.
  intros H. unfold sirenTick.
  destruct (sirenActive sr); [| reflexivity].
  destruct (Z.ltb_spec now (sirenNextMs sr)); [reflexivity | lia].
Qed.

(** One more millisecond of the sample train. *)
Lemma trainAt_step (t0 j : Z) :
  0 <= t0 -> t0 + 750 < 4294967296 -> 0 <= j ->
  sirenTick (t0 + (j + 1)) (trainAt t0 j) = trainAt t0 (j + 1).
Proof.
  intros Ht0 Hmax Hj. unfold trainAt.
  repeat match goal with
         | |- context [?a <? ?b] => destruct (Z.ltb_spec a b)
         end; try lia;
    try reflexivity;
    try (apply sirenTick_early; cbn [sirenNextMs train]; lia).
  all: unfold sirenTick, train, trainOver;
    cbn [sirenActive sirenNextMs sirenPhaseOn sirenIndex sirenCount negb];
    match goal with
    | |- context [?a <? ?b] => destruct (Z.ltb_spec a b); [lia |]
    end;
    cbn -[Z.add Z.mul u32 u8].
  - change ([100; 150; 0; 0; 0] !!! Z.to_nat 0) with 100.
    rewrite u32_small by lia. f_equal. lia.
  - change (2 <=? 0 + 1) with false. cbv iota.
    change (u8 (0 + 1)) with 1.
    change ([200; 300; 0; 0; 0] !!! Z.to_nat 1) with 300.
    rewrite u32_small by lia. f_equal. lia.
  - change ([100; 150; 0; 0; 0] !!! Z.to_nat 1) with 150.
    rewrite u32_small by lia. f_equal. lia.
  - reflexivity.
Qed.

Lemma sirenAfter_trainAt (t0 : Z) (k : nat) :
  0 <= t0 -> t0 + 750 < 4294967296 ->
  sirenAfter t0 k (train 0 true (t0 + 200)) = trainAt t0 (Z.of_nat k).
Proof.
  intros Ht0 Hmax. induction k as [| k IH]; [reflexivity |].
  cbn [sirenAfter]. rewrite IH.
  replace (Z.of_nat (S k)) with (Z.of_nat k + 1) by lia.
  apply trainAt_step; lia.
Qed.

(** One tick of the sample train at or after the deadline. *)
Lemma train_due (t dl : Z) :
  clear_of_wrap t -> dl <= t ->
  sirenTick t (train 0 true dl) = train 0 false (t + 100) /\
  sirenTick t (train 0 false dl) = train 1 true (t + 300) /\
  sirenTick t (train 1 true dl) = train 1 false (t + 150) /\
  sirenTick t (train 1 false dl) = trainOver.
Proof.
  intros [Ht Hw] Hdl.
  unfold sirenTick, train, trainOver.
  cbn [sirenActive sirenNextMs sirenPhaseOn sirenIndex sirenCount negb].
  destruct (Z.ltb_spec t dl); [lia |].
  cbn -[Z.add Z.mul u32 u8].
  change ([100; 150; 0; 0; 0] !!! Z.to_nat 0) with 100.
  change ([100; 150; 0; 0; 0] !!! Z.to_nat 1) with 150.
  change (2 <=? 0 + 1) with false. change (2 <=? 1 + 1) with true. cbv iota.
  change (u8 (0 + 1)) with 1.
  change ([200; 300; 0; 0; 0] !!! Z.to_nat 1) with 300.
  rewrite !u32_small by lia. repeat split.
Qed.

(** The sample train follows the claim's timeline under every tick
    schedule, from each of its phases. *)
Lemma sirenTrace_train (ticks : list Z) :
  Forall clear_of_wrap ticks ->
  forall dl,
    sirenTrace ticks (train 0 true dl) = pulseTrain samplePhases dl ticks /\
    sirenTrace ticks (train 0 false dl) =
      pulseTrain (drop 1 samplePhases) dl ticks /\
    sirenTrace ticks (train 1 true dl) =
      pulseTrain (drop 2 samplePhases) dl ticks /\
    sirenTrace ticks (train 1 false dl) =
      pulseTrain (drop 3 samplePhases) dl ticks /\
    sirenTrace ticks trainOver = pulseTrain [] dl ticks.
Proof.
  induction 1 as [| t rest Ht _ IH]; intros dl; [repeat split |].
  assert (Hover : sirenTrace (t :: rest) trainOver =
                  pulseTrain [] dl (t :: rest)).
  { cbn [sirenTrace pulseTrain].
    rewrite (sirenTick_stopped t trainOver) by reflexivity.
    rewrite (proj2 (proj2 (proj2 (proj2 (IH dl))))). reflexivity. }
  cbn [sirenTrace pulseTrain samplePhases drop].
  destruct (Z.ltb_spec t dl) as [Hearly | Hdue].
  - rewrite !sirenTick_early by (cbn [sirenNextMs train]; exact Hearly).
    destruct (IH dl) as (H1 & H2 & H3 & H4 & _).
    cbn [samplePhases drop] in H2, H3, H4.
    rewrite H1, H2, H3, H4.
    repeat split; try reflexivity. exact Hover.
  - destruct (train_due t dl Ht Hdue) as (E1 & E2 & E3 & E4).
    rewrite E1, E2, E3, E4.
    destruct (IH (t + 100)) as (_ & H2 & _).
    destruct (IH (t + 300)) as (_ & _ & H3 & _).
    destruct (IH (t + 150)) as (_ & _ & _ & H4 & _).
    destruct (IH dl) as (_ & _ & _ & _ & H5).
    cbn [samplePhases drop] in H2, H3, H4.
    rewrite H2, H3, H4, H5.
    repeat split; try reflexivity. exact Hover.
Qed.

(** C8, as stated, fails when the 32-bit millisecond clock wraps during
    the train.  The sample command is dispatched from boot at
    [t0 = 2^32 - 100]: the first deadline wraps to 100, which the clock has
    long passed, so the tick one millisecond later already ends the first ON
    phase; the pin is low after 1 ms, not after 200 ms. *)
Lemma C8_counterexample :
  let t0 := 4294967196 in
  let r := enqueueCommand CMD_SIREN [2; 200; 0; 100; 0; 44; 1; 150; 0] 9
             t0 boot in
  fst (fst r) = true /\
  pinSiren (siren (snd (fst r))) = true /\
  sirenNextMs (siren (snd (fst r))) = 100 /\
  t0 + 1 < 4294967296 /\
  pinSiren (sirenAfter t0 1 (siren (snd (fst r)))) = false.
Proof. vm_compute. repeat split. Qed.

(** C8, amended.  With the window closed, the siren command with count 2,
    on-times 200 and 300 ms, off-times 100 and 150 ms, dispatched at a time
    [t0], is accepted and drives the pin high at once.
    - Under every schedule of engine ticks, at clock readings that stay
      300 ms clear of the 32-bit wrap (and [t0] 200 ms clear of it), the
      pin and the engine follow the phases high 200, low 100, high 300,
      low 150: each phase ends at the first tick at or after its deadline,
      the next phase starts at that tick with its deadline one duration
      later, and after the fourth phase the pin is low and the engine
      stopped for good.
    - Ticked once per millisecond, with [t0] at least 750 ms before the
      wrap, the phases have exactly their durations: the pin after the tick
      at [t0 + k] is high for k < 200, low for 200 <= k < 300, high for
      300 <= k < 600 and low from 600 on, and the engine runs exactly while
      k < 750.
    - Any well-formed siren command (1 to 3 pairs of 16-bit durations),
      dispatched in any state with the window closed, so also in the middle
      of a pulse train, is accepted and leaves the engine at phase 0, ON,
      pin high, with the new durations and the deadline one on-duration
      after now; nothing of the earlier train remains. *)
Theorem C8_siren_pulse_train :
  (forall (s : State) (t0 : Z) (ticks : list Z),
     otaEnabled (ota s) = false ->
     0 <= t0 -> t0 + 200 < 4294967296 ->
     Forall clear_of_wrap ticks ->
     let r := enqueueCommand CMD_SIREN [2; 200; 0; 100; 0; 44; 1; 150; 0] 9
                t0 s in
     fst (fst r) = true /\
     pinSiren (siren (snd (fst r))) = true /\
     sirenTrace ticks (siren (snd (fst r))) =
       pulseTrain samplePhases (t0 + 200) ticks) /\
  (forall (s : State) (t0 : Z) (k : nat),
     otaEnabled (ota s) = false ->
     0 <= t0 -> t0 + 750 < 4294967296 ->
     let r := enqueueCommand CMD_SIREN [2; 200; 0; 100; 0; 44; 1; 150; 0] 9
                t0 s in
     let sr := sirenAfter t0 k (siren (snd (fst r))) in
     fst (fst r) = true /\
     pinSiren (siren (snd (fst r))) = true /\
     pinSiren sr =
       (Z.of_nat k <? 200) || ((300 <=? Z.of_nat k) && (Z.of_nat k <? 600)) /\
     sirenActive sr = (Z.of_nat k <? 750)) /\
  (forall (s : State) (now : Z) (pairs : list (Z * Z)),
     otaEnabled (ota s) = false ->
     (1 <= length pairs <= 3)%nat ->
     Forall pulse_ok pairs ->
     enqueueCommand CMD_SIREN (sirenPayload pairs)
         (Z.of_nat (length (sirenPayload pairs))) now s =
       (true,
        set_siren
          (mkSiren true (Z.of_nat (length pairs))
                   (pad5 (map fst pairs)) (pad5 (map snd pairs))
                   0 true (u32 (now + pad5 (map fst pairs) !!! 0%nat)) true) s,
        [])).
Proof.
  assert (Hstart : forall s t0,
            otaEnabled (ota s) = false -> 0 <= t0 -> t0 + 200 < 4294967296 ->
            enqueueCommand CMD_SIREN [2; 200; 0; 100; 0; 44; 1; 150; 0] 9 t0 s =
              (true, set_siren (train 0 true (t0 + 200)) s, [])).
  { intros s t0 Hg Ht0 Hmax.
    assert (Hok : Forall pulse_ok [(200, 100); (300, 150)])
      by (repeat constructor; cbn; lia).
    pose proof (siren_restart t0 s [(200, 100); (300, 150)] Hg
                  ltac:(cbn; lia) Hok) as Hs.
    change (sirenPayload [(200, 100); (300, 150)])
      with [2; 200; 0; 100; 0; 44; 1; 150; 0] in Hs.
    change (Z.of_nat (length [2; 200; 0; 100; 0; 44; 1; 150; 0])) with 9 in Hs.
    rewrite Hs.
    change (pad5 (map fst [(200, 100); (300, 150)]) !!! 0%nat) with 200.
    rewrite u32_small by lia. reflexivity. }
  split; [| split; [| intros s now pairs; apply siren_restart]].
  - intros s t0 ticks Hg Ht0 Hmax Hticks. cbn zeta.
    rewrite Hstart by assumption. cbn [fst snd siren set_siren].
    split; [reflexivity |]. split; [reflexivity |].
    apply (sirenTrace_train ticks Hticks (t0 + 200)).
  - intros s t0 k Hg Ht0 Hmax. cbn zeta.
    rewrite Hstart by (first [assumption | lia]).
    cbn [fst snd siren set_siren].
    rewrite sirenAfter_trainAt by assumption.
    split; [reflexivity |]. split; [reflexivity |].
    unfold trainAt.
    repeat match goal with
           | |- context [?a <? ?b] => destruct (Z.ltb_spec a b)
           | |- context [?a <=? ?b] => destruct (Z.leb_spec a b)
           end; try lia; split; reflexivity.
Qed.

Lemma C8_siren_pulse_train_witness :
  (let r := enqueueCommand CMD_SIREN [2; 200; 0; 100; 0; 44; 1; 150; 0] 9
              1000 boot in
   fst (fst r) = true /\
   pinSiren (siren (snd (fst r))) = true /\
   sirenTrace [1190; 1203; 1301; 1308; 1600; 1609; 1750; 1760]
       (siren (snd (fst r))) =
     pulseTrain samplePhases (1000 + 200)
       [1190; 1203; 1301; 1308; 1600; 1609; 1750; 1760]) /\
  (let r := enqueueCommand CMD_SIREN [2; 200; 0; 100; 0; 44; 1; 150; 0] 9
              1000 boot in
   let sr := sirenAfter 1000 250 (siren (snd (fst r))) in
   fst (fst r) = true /\
   pinSiren (siren (snd (fst r))) = true /\
   pinSiren sr =
     (Z.of_nat 250 <? 200) || ((300 <=? Z.of_nat 250) && (Z.of_nat 250 <? 600)) /\
   sirenActive sr = (Z.of_nat 250 <? 750)).
Proof.
  split.
  - apply (proj1 C8_siren_pulse_train boot 1000
             [1190; 1203; 1301; 1308; 1600; 1609; 1750; 1760]);
      [reflexivity | lia | lia |].
    repeat constructor; lia.
  - apply (proj1 (proj2 C8_siren_pulse_train) boot 1000 250%nat);
      [reflexivity | lia | lia].
Defined.

(* ================================================================== *)
(** * Further properties *)

(** ** The 16-bit little-endian codec *)

Lemma lor_low_high (a b : Z) :
  0 <= a < 256 -> Z.lor a (Z.shiftl b 8) = a + b * 256.
Proof.
  intros Ha. pose proof (land_low_high a b Ha) as Hdis.
  rewrite <- Z.lxor_lor, <- Z.add_nocarry_lxor by exact Hdis.
  rewrite Z.shiftl_mul_pow2 by lia. reflexivity.
Qed.

Lemma readU16LE_bytes (a b : Z) (rest : list Z) :
  0 <= a < 256 -> 0 <= b < 256 -> readU16LE (a :: b :: rest) = a + b * 256.
Proof.
  intros Ha Hb. unfold readU16LE. cbn [lookup_total list_lookup_total].
  rewrite lor_low_high by exact Ha. unfold u16. apply Z.mod_small. lia.
Qed.

Lemma readU16LE_range (p : list Z) : 0 <= readU16LE p < 65536.
Proof. unfold readU16LE, u16. apply Z.mod_pos_bound. lia. Qed.

Lemma writeU16LE_spec (v : Z) :
  0 <= v < 65536 -> writeU16LE v = [v mod 256; v / 256].
Proof.
  intros Hv. unfold writeU16LE.
  change 255 with (Z.ones 8). rewrite Z.land_ones by lia.
  rewrite Z.shiftr_div_pow2 by lia. change (2 ^ 8) with 256.
  rewrite !u8_small; [reflexivity | |].
  - split; [apply Z.div_pos; lia | apply Z.div_lt_upper_bound; lia].
  - apply Z.mod_pos_bound. lia.
Qed.

Lemma writeU16LE_readU16LE (a b : Z) (rest : list Z) :
  0 <= a < 256 -> 0 <= b < 256 ->
  writeU16LE (readU16LE (a :: b :: rest)) = [a; b].
Proof.
  intros Ha Hb. rewrite readU16LE_bytes by assumption.
  rewrite writeU16LE_spec by lia. f_equal; [| f_equal].
  - rewrite Z.mod_add by lia. apply Z.mod_small. exact Ha.
  - rewrite Z.div_add by lia. rewrite Z.div_small by exact Ha. reflexivity.
Qed.

(** X1.  Writing a 16-bit value and reading it back gives the value;
    reading two bytes and writing the result back gives the two bytes; what
    is written is always two bytes in 0..255 and what is read is always a
    16-bit value. *)
Theorem X1_u16_round_trip :
  (forall v rest, 0 <= v < 65536 -> readU16LE (writeU16LE v ++ rest) = v) /\
  (forall a b rest,
     0 <= a < 256 -> 0 <= b < 256 ->
     writeU16LE (readU16LE (a :: b :: rest)) = [a; b]) /\
  (forall v, exists lo hi,
     writeU16LE v = [lo; hi] /\ 0 <= lo < 256 /\ 0 <= hi < 256) /\
  (forall p, 0 <= readU16LE p < 65536).
Proof.
  split; [exact readU16LE_writeU16LE |].
  split; [exact writeU16LE_readU16LE |].
  split; [| exact readU16LE_range].
  intros v. unfold writeU16LE. do 2 eexists. split; [reflexivity |].
  unfold u8. split; apply Z.mod_pos_bound; lia.
Qed.

Lemma X1_u16_round_trip_witness :
  readU16LE (writeU16LE 0x012C ++ [7]) = 0x012C /\
  writeU16LE (readU16LE [0x2C; 0x01; 7]) = [0x2C; 0x01].
Proof.
  destruct X1_u16_round_trip as (H1 & H2 & _).
  split; [apply H1; lia | apply H2; lia].
Defined.

(* ================================================================== *)
(** ** One acknowledgement per frame *)

(** X2.  A datagram that is not framed (fewer than six bytes read, wrong
    magic or wrong version) is answered with nothing.  A framed one is
    answered with exactly one acknowledgement, sent to its sender, carrying
    the request id of the frame and the status the dedup record holds
    afterwards; and afterwards the dedup record holds that id as valid.
    When the datagram's bytes are in 0..255, the acknowledgement repeats
    the frame's two id bytes as they came. *)
Theorem X2_one_ack_per_frame (now : Z) (d : Datagram) (s : State) :
  let r := processUdpPacket now d s in
  (framed d = false -> acks (snd r) = []) /\
  (framed d = true ->
     acks (snd r) =
       [EvAck (remoteIP d) (remotePort d)
          (ackBytes (frameId d) (lastAckStatus (dedup (fst r))))] /\
     lastIdValid (dedup (fst r)) = true /\
     lastId (dedup (fst r)) = frameId d /\
     (Forall (fun b => 0 <= b < 256) (dgram d) ->
      ackBytes (frameId d) (lastAckStatus (dedup (fst r))) =
        [MAGIC; VER; CMD_ACK; dgram d !!! 3%nat; dgram d !!! 4%nat;
         lastAckStatus (dedup (fst r)); 0])).
Proof.
  cbn zeta. split.
  - intros Hfr. rewrite processUdpPacket_dropped by exact Hfr. reflexivity.
  - intros Hfr.
    assert (Hecho : forall st,
              Forall (fun b => 0 <= b < 256) (dgram d) ->
              ackBytes (frameId d) st =
                [MAGIC; VER; CMD_ACK; dgram d !!! 3%nat; dgram d !!! 4%nat;
                 st; 0]).
    { intros st Hbytes.
      destruct (framed_bytes d Hfr) as (b2 & b3 & b4 & b5 & rest & Hbuf).
      assert (Hin : Forall (fun b => 0 <= b < 256) (rxBuf d))
        by (apply Forall_take; exact Hbytes).
      assert (H3 : dgram d !!! 3%nat = b3).
      { rewrite <- (lookup_total_take_lt (dgram d) UDP_BUF_SIZE 3)
          by (unfold UDP_BUF_SIZE; lia).
        fold (rxBuf d). rewrite Hbuf. reflexivity. }
      assert (H4 : dgram d !!! 4%nat = b4).
      { rewrite <- (lookup_total_take_lt (dgram d) UDP_BUF_SIZE 4)
          by (unfold UDP_BUF_SIZE; lia).
        fold (rxBuf d). rewrite Hbuf. reflexivity. }
      rewrite Hbuf in Hin.
      repeat match goal with
             | H : Forall _ (_ :: _) |- _ =>
                 apply Forall_cons in H; destruct H as [? H]
             end.
      unfold ackBytes, frameId. rewrite Hbuf.
      change (drop 3 (MAGIC :: VER :: b2 :: b3 :: b4 :: b5 :: rest))
        with (b3 :: b4 :: b5 :: rest).
      rewrite (writeU16LE_readU16LE b3 b4 (b5 :: rest)) by assumption.
      rewrite H3, H4. reflexivity. }
    revert Hecho. packet_cases now d s; try discriminate; intros Hecho.
    + (* repeat *)
      cbn [fst snd sendAck acks flat_map app].
      unfold isRepeat in Hrep. apply andb_prop in Hrep as [Hv Hid].
      apply Z.eqb_eq in Hid.
      split; [reflexivity |]. split; [exact Hv |]. split; [congruence |].
      apply Hecho.
    + (* fresh *)
      pose proof (enqueueCommand_frame (frameCmd d) (framePayload d)
                    (framePlen d) now s) as Hf.
      destruct (enqueueCommand _ _ _ _ _) as [[ok s1] ev].
      cbn zeta in Hf. cbn [fst snd] in Hf.
      destruct Hf as (_ & _ & _ & _ & Hev).
      destruct ok, Hev as [-> | ->]; cbn;
        (split; [reflexivity |]; split; [reflexivity |];
         split; [reflexivity |]; apply Hecho).
    + (* bad length *)
      cbn. split; [reflexivity |]. split; [reflexivity |].
      split; [reflexivity |]. apply Hecho.
Qed.

Lemma X2_one_ack_per_frame_witness :
  let d := mkFrame 0x05 0x1234 [] in
  let r := processUdpPacket 1000 d boot in
  framed d = true /\
  Forall (fun b => 0 <= b < 256) (dgram d) /\
  acks (snd r) = [EvAck 0xC0A80001 4210 [MAGIC; VER; CMD_ACK; 0x34; 0x12; 1; 0]] /\
  dedup (fst r) = mkDedup 0x1234 true 1.
Proof.
  cbn zeta.
  assert (Hfr : framed (mkFrame 0x05 0x1234 []) = true) by reflexivity.
  assert (Hb : Forall (fun b => 0 <= b < 256) (dgram (mkFrame 0x05 0x1234 []))).
  { vm_compute. repeat constructor; discriminate. }
  destruct (proj2 (X2_one_ack_per_frame 1000 (mkFrame 0x05 0x1234 []) boot) Hfr)
    as (Hack & _ & _ & Hecho).
  split; [exact Hfr |]. split; [exact Hb |].
  split; [| reflexivity].
  rewrite Hack, (Hecho Hb). reflexivity.
Defined.

(* ================================================================== *)
(** ** More on the dispatcher *)

Lemma set_queue_same (s : State) : set_queue (queue s) s = s.
Proof. destruct s; reflexivity. Qed.

(** X3.  A command the dispatcher refuses has no effect at all: whatever the
    command code, the payload, the declared length, the clock and the state,
    a verdict of false comes with the state as it was and with no event. *)
Theorem X3_refusal_has_no_effect (cmd : Z) (payload : list Z)
    (payloadLen now : Z) (s : State) :
  fst (fst (enqueueCommand cmd payload payloadLen now s)) = false ->
  enqueueCommand cmd payload payloadLen now s = (false, s, []).
Proof.
  dispatch_cases; cbn; intros H; try discriminate; try reflexivity.
  subst. f_equal. f_equal.
  match goal with
  | Hp : qPush _ _ = (false, ?qu) |- _ =>
      unfold qPush in Hp; destruct (QSIZE <=? qCount (queue s));
        [injection Hp as <- | discriminate]
  end.
  apply set_queue_same.
Qed.

Lemma X3_refusal_has_no_effect_witness :
  fst (fst (enqueueCommand 0x99 [1; 2] 2 1000 boot)) = false /\
  enqueueCommand 0x99 [1; 2] 2 1000 boot = (false, boot, []).
Proof.
  split; [reflexivity |].
  apply (X3_refusal_has_no_effect 0x99 [1; 2] 2 1000 boot). reflexivity.
Defined.

(** X4.  With the OTA window closed and the queue consistent, a single-press
    command (code 0x01..0x1B) is accepted exactly when the queue is not
    full; accepted, it puts one press of table index code - 1 behind the
    pending actions and changes nothing but the queue. *)
Theorem X4_single_press (cmd : Z) (payload : list Z) (payloadLen now : Z)
    (s : State) :
  otaEnabled (ota s) = false -> queue_wf (queue s) ->
  0x01 <= cmd <= 0x1B ->
  (QSIZE <= qCount (queue s) ->
     enqueueCommand cmd payload payloadLen now s = (false, s, [])) /\
  (qCount (queue s) < QSIZE ->
     exists qu,
       enqueueCommand cmd payload payloadLen now s = (true, set_queue qu s, []) /\
       queue_wf qu /\
       qList qu = qList (queue s) ++ [mkAction Press (cmd - 1)]).
Proof.
  intros Hg Hwf Hcmd.
  assert (Hidx : u8 (cmd - 1) = cmd - 1) by (apply u8_small; lia).
  assert (Heq : enqueueCommand cmd payload payloadLen now s =
                let '(ok, qu) := qPush (mkAction Press (cmd - 1)) (queue s) in
                (ok, set_queue qu s, [])).
  { unfold enqueueCommand. rewrite Hg.
    destruct (Z.eqb_spec cmd CMD_OTA_MODE) as [E | _];
      [unfold CMD_OTA_MODE in E; lia |].
    replace ((1 <=? cmd) && (cmd <=? 27)) with true
      by (symmetry; apply andb_true_intro; split; apply Z.leb_le; lia).
    rewrite Hidx.
    replace (27 <=? cmd - 1) with false by (symmetry; apply Z.leb_gt; lia).
    reflexivity. }
  rewrite Heq. split.
  - intros Hfull. rewrite qPush_full by exact Hfull.
    rewrite set_queue_same. reflexivity.
  - intros Hroom.
    destruct (qPush_room (mkAction Press (cmd - 1)) (queue s) Hwf Hroom)
      as (qu & Hp & Hwf' & Hl & _).
    exists qu. rewrite Hp. split; [reflexivity |]. split; assumption.
Qed.

Lemma X4_single_press_witness :
  otaEnabled (ota boot) = false /\ queue_wf (queue boot) /\
  exists qu,
    enqueueCommand 0x05 [] 0 1000 boot = (true, set_queue qu boot, []) /\
    queue_wf qu /\
    qList qu = qList (queue boot) ++ [mkAction Press (0x05 - 1)].
Proof.
  split; [reflexivity |]. split; [exact boot_queue_wf |].
  apply (X4_single_press 0x05 [] 0 1000 boot eq_refl boot_queue_wf);
    [lia | reflexivity].
Defined.

(** X5.  With the OTA window closed, the dispatcher accepts exactly:
    CMD_OTA_MODE with length 0; a single-press code while the queue is not
    full; either macro while at most 26 actions are pending; and CMD_SIREN
    with a length of at least 1, a count byte in 1..3 and a length of at
    least 1 + 4 * count.  Every other command code, and every other siren
    payload, is refused. *)
Theorem X5_acceptance (cmd : Z) (payload : list Z) (payloadLen now : Z)
    (s : State) :
  otaEnabled (ota s) = false ->
  (fst (fst (enqueueCommand cmd payload payloadLen now s)) = true <->
   (cmd = CMD_OTA_MODE /\ payloadLen = 0) \/
   (0x01 <= cmd <= 0x1B /\ qCount (queue s) < QSIZE) \/
   ((cmd = CMD_MODE_SWITCH \/ cmd = CMD_RESET_SCOREBOARD) /\
    qCount (queue s) <= QSIZE - 6) \/
   (cmd = CMD_SIREN /\ 1 <= payloadLen /\
    1 <= payload !!! 0%nat <= 3 /\
    1 + 4 * payload !!! 0%nat <= payloadLen)).
Proof.
  intros Hg. unfold enqueueCommand, qPush. rewrite Hg.
  rewrite otaEnterOrExtendWindow_eq.
  unfold CMD_OTA_MODE, CMD_MODE_SWITCH, CMD_RESET_SCOREBOARD, CMD_SIREN, QSIZE.
  repeat match goal with
         | |- context [if ?b then _ else _] =>
             lazymatch b with
             | negb ?c => destruct c eqn:?
             | (?c1 && ?c2)%bool => destruct c1 eqn:?, c2 eqn:?
             | (?c1 || ?c2)%bool => destruct c1 eqn:?, c2 eqn:?
             | _ => destruct b eqn:?
             end; cbn [negb andb orb]
         | |- context [let '(_, _) := ?p in _] => destruct p eqn:?
         end;
    cbn [fst snd];
    repeat match goal with
           | H : (_ =? _) = true |- _ => apply Z.eqb_eq in H
           | H : (_ =? _) = false |- _ => apply Z.eqb_neq in H
           | H : (_ <? _) = true |- _ => apply Z.ltb_lt in H
           | H : (_ <? _) = false |- _ => apply Z.ltb_ge in H
           | H : (_ <=? _) = true |- _ => apply Z.leb_le in H
           | H : (_ <=? _) = false |- _ => apply Z.leb_gt in H
           | H : u8 _ <= _ |- _ => rewrite u8_small in H by lia
           | H : _ <= u8 _ |- _ => rewrite u8_small in H by lia
           | H : u8 _ < _ |- _ => rewrite u8_small in H by lia
           | H : _ < u8 _ |- _ => rewrite u8_small in H by lia
           end;
    (split; [intros HH; try discriminate | intros HH; try reflexivity]);
    try lia.
Qed.

Lemma X5_acceptance_witness :
  otaEnabled (ota boot) = false /\
  fst (fst (enqueueCommand CMD_SIREN [1; 200; 0; 100; 0] 5 1000 boot)) = true /\
  fst (fst (enqueueCommand CMD_SIREN [4; 200; 0; 100; 0] 5 1000 boot)) <> true.
Proof.
  split; [reflexivity |]. split.
  - apply (X5_acceptance CMD_SIREN [1; 200; 0; 100; 0] 5 1000 boot eq_refl).
    right. right. right. cbn. repeat split; lia.
  - intros H.
    apply (X5_acceptance CMD_SIREN [4; 200; 0; 100; 0] 5 1000 boot eq_refl) in H.
    unfold CMD_SIREN, CMD_OTA_MODE, CMD_MODE_SWITCH, CMD_RESET_SCOREBOARD in H.
    cbn in H. lia.
Defined.

(* ================================================================== *)
(** ** More on the executor *)

Lemma qList_length (qu : Queue) :
  length (qList qu) = Z.to_nat (qCount qu).
Proof. unfold qList. rewrite length_map, length_seq. reflexivity. Qed.

Lemma actionTick_waiting (now : Z) (s : State) :
  delayUntilMs s <> 0 -> now < delayUntilMs s -> actionTick now s = (s, []).
Proof.
  intros Hnz Hlt. unfold actionTick.
  destruct (Z.eqb_spec (delayUntilMs s) 0) as [? | _]; [contradiction |].
  destruct (Z.ltb_spec now (delayUntilMs s)); [reflexivity | lia].
Qed.

Lemma actionTick_ready (now : Z) (s : State) :
  delayUntilMs s = 0 \/ delayUntilMs s <= now ->
  negb (delayUntilMs s =? 0) && (now <? delayUntilMs s) = false.
Proof.
  intros [H | H].
  - rewrite H. reflexivity.
  - apply andb_false_iff. right. apply Z.ltb_ge. exact H.
Qed.

Lemma actionTick_idle (now : Z) (s : State) :
  delayUntilMs s = 0 \/ delayUntilMs s <= now ->
  qCount (queue s) = 0 ->
  actionTick now s = (set_delayUntilMs 0 s, []).
Proof.
  intros Hr Hz. unfold actionTick. rewrite (actionTick_ready now s Hr).
  cbn [queue set_delayUntilMs]. rewrite Hz. reflexivity.
Qed.

(** The executor takes the oldest pending action. *)
Lemma actionTick_head (now : Z) (s : State) (a : Action) (rest : list Action) :
  queue_wf (queue s) ->
  delayUntilMs s = 0 \/ delayUntilMs s <= now ->
  qList (queue s) = a :: rest ->
  exists qu,
    queue_wf qu /\ qList qu = rest /\
    actionTick now s =
      let s1 := set_queue qu (set_delayUntilMs 0 s) in
      match a_type a with
      | Delay => (set_delayUntilMs (u32 (now + a_arg a)) s1, [EvDequeue a])
      | Press =>
          let idx := u8 (Z.land (a_arg a) 0xFF) in
          if idx <? 27 then
            let '(s2, ev) := sendRc5Press now idx s1 in (s2, EvDequeue a :: ev)
          else (s1, [EvDequeue a])
      | NoAction => (s1, [EvDequeue a])
      end.
Proof.
  intros Hwf Hr Hl.
  assert (Hpos : 0 < qCount (queue s)).
  { pose proof (qList_length (queue s)) as Hlen. rewrite Hl in Hlen.
    cbn [length] in Hlen. lia. }
  destruct (qPop_some (queue s) Hwf Hpos) as (a' & qu & Hpop & Hwf' & Hl' & _).
  rewrite Hl in Hl'. injection Hl' as Ha Hq. subst a'.
  exists qu. split; [exact Hwf' |]. split; [symmetry; exact Hq |].
  unfold actionTick. rewrite (actionTick_ready now s Hr).
  cbn [queue set_delayUntilMs].
  destruct (Z.eqb_spec (qCount (queue s)) 0) as [? | _]; [lia |].
  rewrite Hpop. reflexivity.
Qed.

Lemma sendRc5Press_eq (now idx : Z) (s : State) :
  toggle_ok s -> 0 <= idx < 27 ->
  sendRc5Press now idx s =
    (set_led (statusLedActivityBurst now (led s))
       (set_rc5_toggle_state (1 - rc5_toggle_state s) s),
     [EvIr (rc5Code idx (1 - rc5_toggle_state s)) 12]).
Proof.
  intros Ht Hidx.
  destruct (RC5_TABLE_lookup idx Hidx) as (_ & _ & Hb).
  unfold sendRc5Press, rc5Code.
  cbn [rc5_toggle_state set_rc5_toggle_state led set_led]. rewrite Hb.
  destruct Ht as [-> | ->].
  - change (u8 (Z.lxor 0 1)) with 1. reflexivity.
  - change (u8 (Z.lxor 1 1)) with 0. reflexivity.
Qed.

Lemma press_index (idx : Z) :
  0 <= idx < 27 -> u8 (Z.land idx 0xFF) = idx.
Proof.
  intros H. change 0xFF with (Z.ones 8). rewrite Z.land_ones by lia.
  change (2 ^ 8) with 256. rewrite Z.mod_small by lia. apply u8_small. lia.
Qed.

(** X6.  One tick of the executor, on a consistent queue.  While an armed
    delay has not elapsed, the tick does nothing.  Otherwise, with nothing
    pending it only clears the delay; with actions pending it takes exactly
    one, the oldest, and leaves the others in order: a delay arms the
    deadline now + arg (modulo 2^32) and sends nothing; a press of a table
    index flips the toggle and sends the row's code for the new toggle,
    with 12 bits, arming no delay. *)
Theorem X6_executor_tick (now : Z) (s : State) :
  queue_wf (queue s) ->
  (delayUntilMs s <> 0 -> now < delayUntilMs s -> actionTick now s = (s, [])) /\
  (delayUntilMs s = 0 \/ delayUntilMs s <= now ->
   (qCount (queue s) = 0 -> actionTick now s = (set_delayUntilMs 0 s, [])) /\
   (forall a rest,
      qList (queue s) = a :: rest ->
      dequeued (snd (actionTick now s)) = [a] /\
      qList (queue (fst (actionTick now s))) = rest /\
      (a_type a = Delay ->
         snd (actionTick now s) = [EvDequeue a] /\
         delayUntilMs (fst (actionTick now s)) = u32 (now + a_arg a) /\
         rc5_toggle_state (fst (actionTick now s)) = rc5_toggle_state s) /\
      (a_type a = Press -> 0 <= a_arg a < 27 -> toggle_ok s ->
         snd (actionTick now s) =
           [EvDequeue a;
            EvIr (rc5Code (a_arg a) (1 - rc5_toggle_state s)) 12] /\
         delayUntilMs (fst (actionTick now s)) = 0 /\
         rc5_toggle_state (fst (actionTick now s)) = 1 - rc5_toggle_state s))).
Proof.
  intros Hwf. split; [apply actionTick_waiting |].
  intros Hr. split; [apply actionTick_idle; exact Hr |].
  intros a rest Hl.
  destruct (actionTick_head now s a rest Hwf Hr Hl) as (qu & _ & Hq & Heq).
  rewrite Heq. cbn zeta.
  destruct (a_type a) eqn:Hty.
  - cbn. repeat split; try assumption; discriminate.
  - destruct (Z.ltb_spec (u8 (Z.land (a_arg a) 255)) 27) as [Hlt | Hge].
    + split; [| split; [| split; [discriminate |]]].
      * destruct (sendRc5Press _ _ _) as [s2 ev] eqn:Hs.
        unfold sendRc5Press in Hs. injection Hs as _ <-. reflexivity.
      * destruct (sendRc5Press _ _ _) as [s2 ev] eqn:Hs.
        unfold sendRc5Press in Hs. injection Hs as <- _. exact Hq.
      * intros _ Hidx Ht. rewrite press_index by exact Hidx.
        rewrite sendRc5Press_eq by assumption. cbn. repeat split.
    + cbn. split; [reflexivity |]. split; [exact Hq |].
      split; [discriminate |].
      intros _ Hidx _. rewrite press_index in Hge by exact Hidx. lia.
  - cbn. split; [reflexivity |]. split; [exact Hq |].
    split; [| discriminate]. intros _. repeat split.
Qed.

Lemma X6_executor_tick_witness :
  let s := fst (processUdpPacket 1000 (mkFrame 0x05 42 []) boot) in
  queue_wf (queue s) /\ (delayUntilMs s = 0 \/ delayUntilMs s <= 1001) /\
  qList (queue s) = [mkAction Press 4] /\
  snd (actionTick 1001 s) = [EvDequeue (mkAction Press 4); EvIr 0x838 12] /\
  qList (queue (fst (actionTick 1001 s))) = [].
Proof.
  cbn zeta.
  set (s := fst (processUdpPacket 1000 (mkFrame 0x05 42 []) boot)).
  assert (Hwf : queue_wf (queue s)).
  { apply (processUdpPacket_frame 1000 (mkFrame 0x05 42 []) boot).
    exact boot_queue_wf. }
  assert (Hr : delayUntilMs s = 0 \/ delayUntilMs s <= 1001) by (left; reflexivity).
  assert (Hl : qList (queue s) = [mkAction Press 4]) by reflexivity.
  destruct (proj2 (proj2 (X6_executor_tick 1001 s Hwf) Hr) _ _ Hl)
    as (_ & Hrest & _ & Hpress).
  destruct (Hpress eq_refl ltac:(cbn; lia) (or_introl eq_refl)) as (Hev & _).
  split; [exact Hwf |]. split; [exact Hr |]. split; [exact Hl |].
  split; [exact Hev | exact Hrest].
Defined.

(** X7.  A delay taken from the queue at time [t] is honoured: when
    [t + d] is a non-zero 32-bit value, every tick at a clock reading below
    [t + d] does nothing.  The stored deadline 0 means no delay: when
    [t + d] is 0 modulo 2^32, the delay is lost and the next tick, at any
    clock reading, takes the next action. *)
Theorem X7_delay_honoured (t d : Z) (s : State) (rest : list Action) :
  queue_wf (queue s) ->
  delayUntilMs s = 0 \/ delayUntilMs s <= t ->
  qList (queue s) = mkAction Delay d :: rest ->
  (0 < t + d < 4294967296 ->
   forall t', t' < t + d ->
     actionTick t' (fst (actionTick t s)) = (fst (actionTick t s), [])) /\
  (u32 (t + d) = 0 ->
   forall t' a rest', rest = a :: rest' ->
     dequeued (snd (actionTick t' (fst (actionTick t s)))) = [a]).
Proof.
  intros Hwf Hr Hl.
  destruct (actionTick_head t s _ rest Hwf Hr Hl) as (qu & Hwf' & Hq & Heq).
  cbn [a_type a_arg] in Heq. cbn zeta in Heq. rewrite Heq. cbn [fst].
  split.
  - intros Hrange t' Ht'.
    apply actionTick_waiting; cbn [delayUntilMs set_delayUntilMs];
      rewrite u32_small by lia; lia.
  - intros Hz t' a rest' ->.
    set (s1 := set_delayUntilMs _ _).
    assert (Hr1 : delayUntilMs s1 = 0 \/ delayUntilMs s1 <= t')
      by (left; exact Hz).
    destruct (actionTick_head t' s1 a rest' Hwf' Hr1 Hq) as (qu' & _ & _ & Heq').
    rewrite Heq'. cbn zeta.
    destruct (a_type a); [reflexivity | | reflexivity].
    destruct (_ <? 27); [| reflexivity].
    destruct (sendRc5Press _ _ _) as [s2 ev] eqn:Hs.
    unfold sendRc5Press in Hs. injection Hs as _ <-. reflexivity.
Qed.

Lemma X7_delay_honoured_witness :
  let s := fst (loop macroArrives boot) in
  queue_wf (queue s) /\ (delayUntilMs s = 0 \/ delayUntilMs s <= 1001) /\
  qList (queue s) =
    mkAction Delay 100 ::
      [mkAction Press 2; mkAction Delay 100; mkAction Press 2;
       mkAction Delay 500] /\
  0 < 1001 + 100 < 4294967296 /\
  actionTick 1050 (fst (actionTick 1001 s)) = (fst (actionTick 1001 s), []).
Proof.
  cbn zeta.
  set (s := fst (loop macroArrives boot)).
  assert (Hwf : queue_wf (queue s)).
  { apply (loop_frame macroArrives boot boot_toggle_ok boot_queue_wf). }
  assert (Hr : delayUntilMs s = 0 \/ delayUntilMs s <= 1001) by (left; reflexivity).
  assert (Hl : qList (queue s) =
               mkAction Delay 100 ::
                 [mkAction Press 2; mkAction Delay 100; mkAction Press 2;
                  mkAction Delay 500]) by reflexivity.
  split; [exact Hwf |]. split; [exact Hr |]. split; [exact Hl |].
  split; [lia |].
  apply (proj1 (X7_delay_honoured 1001 100 s _ Hwf Hr Hl)); lia.
Defined.

(* ================================================================== *)
(** ** Invariants of every reachable state *)

Lemma otaInOrder_app (t1 t2 : list Event) :
  forall b,
    otaInOrder b (t1 ++ t2) =
      otaInOrder b t1 && otaInOrder (otaBegunAfter b t1) t2.
Proof.
  induction t1 as [| e t1 IH]; intros b; [reflexivity |].
  destruct e; cbn [app otaInOrder otaBegunAfter]; rewrite ?IH;
    try reflexivity.
  - destruct b; reflexivity.
  - destruct b; reflexivity.
Qed.

Lemma otaBegunAfter_app (t1 t2 : list Event) :
  forall b,
    otaBegunAfter b (t1 ++ t2) = otaBegunAfter (otaBegunAfter b t1) t2.
Proof.
  induction t1 as [| e t1 IH]; intros b; [reflexivity |].
  destruct e; cbn [app otaBegunAfter]; apply IH.
Qed.

Lemma state_ok_ext (s s' : State) :
  rc5_toggle_state s' = rc5_toggle_state s -> queue s' = queue s ->
  siren s' = siren s -> dedup s' = dedup s -> ota s' = ota s ->
  state_ok s -> state_ok s'.
Proof.
  unfold state_ok, toggle_ok. intros -> -> -> -> ->. exact (fun H => H).
Qed.

(** Splits [state_ok] into its five parts. *)
Ltac split_ok := split; [| split; [| split; [| split]]].

Lemma boot_state_ok : state_ok boot.
Proof.
  split; [exact boot_toggle_ok |]. split; [exact boot_queue_wf |].
  split.
  { unfold siren_ok; cbn. repeat split; try reflexivity; discriminate. }
  split.
  { unfold dedup_ok; cbn. split; [lia | left; reflexivity]. }
  unfold ota_ok; cbn. discriminate.
Qed.

Lemma sirenTick_ok (now : Z) (sr : Siren) :
  siren_ok sr -> siren_ok (sirenTick now sr).
Proof.
  intros Hok. pose proof Hok as (Hon & Hoff & Hpin & Hph & Hact).
  unfold sirenTick.
  destruct (sirenActive sr) eqn:Ha; cbn [negb]; [| exact Hok].
  destruct (now <? sirenNextMs sr); [exact Hok |].
  destruct (Hact eq_refl) as (Hidx & Hcnt).
  destruct (sirenPhaseOn sr) eqn:Hp.
  - unfold siren_ok; cbn. repeat split; try assumption; try discriminate; lia.
  - destruct (Z.leb_spec (sirenCount sr) (sirenIndex sr + 1)).
    + unfold siren_ok; cbn. repeat split; try assumption; discriminate.
    + unfold siren_ok; cbn -[u8]. rewrite u8_small by lia.
      repeat split; try assumption; lia.
Qed.

Lemma sirenStart_ok (now count : Z) (onArr offArr : list Z) (sr : Siren) :
  1 <= count <= 3 -> siren_ok (sirenStart now count onArr offArr sr).
Proof.
  intros Hc. unfold siren_ok, sirenStart; cbn -[u32].
  repeat split; try reflexivity; lia.
Qed.

(** What the dispatcher does to the siren engine and to the OTA window. *)
Lemma enqueueCommand_engines (cmd : Z) (payload : list Z) (payloadLen now : Z)
    (s : State) :
  let r := enqueueCommand cmd payload payloadLen now s in
  (siren (snd (fst r)) = siren s \/
   exists count onArr offArr,
     1 <= count <= 3 /\
     siren (snd (fst r)) = sirenStart now count onArr offArr (siren s)) /\
  ((ota (snd (fst r)) = ota s /\ snd r = []) \/
   (otaEnabled (ota (snd (fst r))) = true /\
    otaInitialized (ota (snd (fst r))) = true /\
    snd r = if otaInitialized (ota s) then [] else [EvOtaBegin])).
Proof.
  cbn zeta. dispatch_cases; cbn -[sirenStart];
    try (split; [left; reflexivity | left; split; reflexivity]);
    try (split; [left; reflexivity | right; repeat split; reflexivity]).
  all: split; [right | left; split; reflexivity].
  all: do 3 eexists; split; [| reflexivity].
  all: repeat match goal with
              | H : (_ || _) = false |- _ => apply orb_false_iff in H; destruct H
              | H : (_ <? _) = false |- _ => apply Z.ltb_ge in H
              end; lia.
Qed.

Lemma enqueueCommand_ok (cmd : Z) (payload : list Z) (payloadLen now : Z)
    (s : State) :
  state_ok s ->
  let r := enqueueCommand cmd payload payloadLen now s in
  state_ok (snd (fst r)) /\
  otaInOrder (otaInitialized (ota s)) (snd r) = true /\
  otaBegunAfter (otaInitialized (ota s)) (snd r) =
    otaInitialized (ota (snd (fst r))).
Proof.
  intros (Ht & Hwf & Hsr & Hdd & Hota). cbn zeta.
  pose proof (enqueueCommand_frame cmd payload payloadLen now s) as Hf.
  pose proof (enqueueCommand_queue cmd payload payloadLen now s Hwf) as Hq.
  pose proof (enqueueCommand_engines cmd payload payloadLen now s) as He.
  cbn zeta in Hf, Hq, He.
  destruct (enqueueCommand _ _ _ _ _) as [[ok s1] ev]. cbn [fst snd] in *.
  destruct Hf as (Htog & _ & Hded & _ & _).
  destruct Hq as (Hwf1 & _ & _).
  destruct He as (Hsiren & Hotas).
  assert (Hsr1 : siren_ok (siren s1)).
  { destruct Hsiren as [-> | (c & onA & offA & Hc & ->)];
      [exact Hsr | apply sirenStart_ok; exact Hc]. }
  assert (Hbase : toggle_ok s1 /\ queue_wf (queue s1) /\ siren_ok (siren s1) /\
                  dedup_ok (dedup s1)).
  { unfold toggle_ok. rewrite Htog, Hded.
    split; [exact Ht |]. split; [exact Hwf1 |]. split; [exact Hsr1 | exact Hdd]. }
  destruct Hbase as (B1 & B2 & B3 & B4).
  destruct Hotas as [(Ho & ->) | (Hen & Hin & ->)].
  - split.
    + split_ok; try assumption. rewrite Ho. exact Hota.
    + rewrite Ho. split; reflexivity.
  - split.
    + split_ok; try assumption. intros _. exact Hin.
    + rewrite Hin. destruct (otaInitialized (ota s)); split; reflexivity.
Qed.

Lemma ack_event_ok (ip port id st : Z) :
  st = 0 \/ st = 1 -> event_ok (EvAck ip port (ackBytes id st)).
Proof.
  intros Hst. unfold event_ok, ackBytes, writeU16LE.
  do 3 eexists. split; [reflexivity |].
  unfold u8. repeat split; try (apply Z.mod_pos_bound; lia). exact Hst.
Qed.

Lemma processUdpPacket_ok (now : Z) (d : Datagram) (s : State) :
  state_ok s ->
  let r := processUdpPacket now d s in
  state_ok (fst r) /\ Forall event_ok (snd r) /\
  otaInOrder (otaInitialized (ota s)) (snd r) = true /\
  otaBegunAfter (otaInitialized (ota s)) (snd r) =
    otaInitialized (ota (fst r)).
Proof.
  intros Hok. cbn zeta.
  pose proof Hok as (Ht & Hwf & Hsr & Hdd & Hota).
  packet_cases now d s; cbn [fst snd sendAck].
  - (* repeat *)
    split; [exact Hok |].
    split; [| split; reflexivity].
    constructor; [| constructor]. apply ack_event_ok. apply Hdd.
  - (* fresh *)
    pose proof (enqueueCommand_ok (frameCmd d) (framePayload d) (framePlen d)
                  now s Hok) as He.
    pose proof (enqueueCommand_frame (frameCmd d) (framePayload d)
                  (framePlen d) now s) as Hf.
    cbn zeta in He, Hf.
    destruct (enqueueCommand _ _ _ _ _) as [[ok s1] ev]. cbn [fst snd] in *.
    destruct He as ((T1 & W1 & S1 & _ & O1) & Hord & Hbeg).
    destruct Hf as (_ & _ & _ & _ & Hev).
    assert (Hst : (if ok then 1 else 0) = 0 \/ (if ok then 1 else 0) = 1)
      by (destruct ok; auto).
    assert (Hdd1 : dedup_ok (mkDedup (frameId d) true (if ok then 1 else 0))).
    { split; [apply readU16LE_range | exact Hst]. }
    cbn zeta.
    assert (Hstate : state_ok
              (if ok
               then set_led (statusLedActivityBurst now
                       (led (set_dedup (mkDedup (frameId d) true 1) s1)))
                      (set_dedup (mkDedup (frameId d) true 1) s1)
               else set_dedup (mkDedup (frameId d) true 0) s1)).
    { destruct ok; split_ok; try assumption; exact Hdd1. }
    assert (Hota1 : forall st0,
              ota (if ok
                   then set_led (statusLedActivityBurst now
                           (led (set_dedup st0 s1))) (set_dedup st0 s1)
                   else set_dedup st0 s1) = ota s1)
      by (intros; destruct ok; reflexivity).
    destruct ok; cbn [fst snd] in *.
    all: split; [exact Hstate |].
    all: split;
      [ constructor; [exact I |];
        apply Forall_app; split;
          [ destruct Hev as [-> | ->]; repeat constructor
          | constructor; [apply ack_event_ok; auto | constructor] ]
      | ].
    all: cbn [otaInOrder otaBegunAfter];
      rewrite otaInOrder_app, otaBegunAfter_app; cbn;
      rewrite Hord, Hbeg; split; reflexivity.
  - (* bad length *)
    split.
    + split_ok; try assumption.
      split; [apply readU16LE_range | left; reflexivity].
    + split; [| split; reflexivity].
      constructor; [| constructor]. apply ack_event_ok. auto.
  - (* dropped *)
    split; [exact Hok |]. split; [constructor | split; reflexivity].
Qed.

Lemma processUdp_ok (now : Z) (pending : list Datagram) :
  forall s,
    state_ok s ->
    let r := processUdp now pending s in
    state_ok (fst r) /\ Forall event_ok (snd r) /\
    otaInOrder (otaInitialized (ota s)) (snd r) = true /\
    otaBegunAfter (otaInitialized (ota s)) (snd r) =
      otaInitialized (ota (fst r)).
Proof.
  induction pending as [| d rest IH]; intros s Hok; cbn zeta.
  - cbn. split; [exact Hok |]. split; [constructor | split; reflexivity].
  - cbn [processUdp]. destruct (0 <? Z.of_nat (length (dgram d))).
    + pose proof (processUdpPacket_ok now d s Hok) as Hp. cbn zeta in Hp.
      destruct (processUdpPacket now d s) as [s1 e1]. cbn [fst snd] in Hp.
      destruct Hp as (Hok1 & Hev1 & Hord1 & Hbeg1).
      specialize (IH s1 Hok1). cbn zeta in IH.
      destruct (processUdp now rest s1) as [s2 e2]. cbn [fst snd] in *.
      destruct IH as (Hok2 & Hev2 & Hord2 & Hbeg2).
      split; [exact Hok2 |].
      split; [apply Forall_app; split; assumption |].
      rewrite otaInOrder_app, otaBegunAfter_app, Hord1, Hbeg1, Hord2, Hbeg2.
      split; reflexivity.
    + cbn. split; [exact Hok |]. split; [constructor | split; reflexivity].
Qed.

Lemma RC5_TABLE_In (idx : Z) :
  0 <= idx < 27 -> In (RC5_TABLE !!! Z.to_nat idx) RC5_TABLE.
Proof.
  intros H. apply list_elem_of_In. apply list_elem_of_lookup_total_2.
  change (length RC5_TABLE) with 27%nat. lia.
Qed.

Lemma sendRc5Press_event_ok (now idx : Z) (s : State) :
  0 <= idx < 27 -> Forall event_ok (snd (sendRc5Press now idx s)).
Proof.
  intros Hidx. unfold sendRc5Press. cbn [snd].
  constructor; [| constructor].
  exists (RC5_TABLE !!! Z.to_nat idx).
  split; [apply RC5_TABLE_In; exact Hidx |]. split; [reflexivity |].
  destruct (_ =? 0); [left | right]; reflexivity.
Qed.

Lemma actionTick_events (now : Z) (s : State) (b : bool) :
  Forall event_ok (snd (actionTick now s)) /\
  otaInOrder b (snd (actionTick now s)) = true /\
  otaBegunAfter b (snd (actionTick now s)) = b.
Proof.
  unfold actionTick, qPop.
  destruct (negb _ && _);
    [cbn [snd]; split; [constructor | split; reflexivity] |].
  cbn [queue set_delayUntilMs].
  destruct (qCount (queue s) =? 0);
    [cbn [snd]; split; [constructor | split; reflexivity] |].
  set (a := q (queue s) !!! Z.to_nat (qHead (queue s))).
  set (s1 := set_queue _ _).
  destruct (a_type a).
  - cbn [snd]. split; [repeat constructor | split; reflexivity].
  - destruct (Z.ltb_spec (u8 (Z.land (a_arg a) 255)) 27) as [Hlt | Hge].
    + assert (Hidx : 0 <= u8 (Z.land (a_arg a) 255) < 27).
      { split; [apply Z.mod_pos_bound; lia | exact Hlt]. }
      pose proof (sendRc5Press_event_ok now _ s1 Hidx) as Hev.
      destruct (sendRc5Press now _ s1) as [s2 ev] eqn:Hs.
      assert (Hshape : exists v n, ev = [EvIr v n]).
      { unfold sendRc5Press in Hs. injection Hs as _ <-. eauto. }
      destruct Hshape as (v & n & ->). cbn [fst snd] in *.
      split; [constructor; [exact I | exact Hev] |]. split; reflexivity.
    + cbn [snd]. split; [repeat constructor | split; reflexivity].
  - cbn [snd]. split; [repeat constructor | split; reflexivity].
Qed.

Lemma otaTick_ok (now : Z) (wifi : bool) (s : State) :
  state_ok s ->
  let r := otaTick now wifi s in
  state_ok (fst r) /\ Forall event_ok (snd r) /\
  otaInOrder (otaInitialized (ota s)) (snd r) = true /\
  otaBegunAfter (otaInitialized (ota s)) (snd r) =
    otaInitialized (ota (fst r)).
Proof.
  intros Hok. pose proof Hok as (Ht & Hwf & Hsr & Hdd & Hota).
  cbn zeta. unfold otaTick.
  destruct (otaEnabled (ota s)) eqn:Hen; cbn [negb];
    [| split; [exact Hok | split; [constructor | split; reflexivity]]].
  destruct wifi; cbn [negb];
    [| split; [exact Hok | split; [constructor | split; reflexivity]]].
  destruct (otaUntilMs (ota s) <=? now); cbn [fst snd].
  - split; [| split; [constructor | split; reflexivity]].
    split_ok; try assumption. unfold ota_ok; cbn. discriminate.
  - split; [exact Hok |]. split; [repeat constructor |].
    cbn. rewrite (Hota Hen). split; reflexivity.
Qed.

(** One pass of the loop keeps the state consistent and emits well-formed
    outputs, using the OTA service in order. *)
Lemma loop_ok (i : Input) (s : State) :
  state_ok s ->
  let r := loop i s in
  state_ok (fst r) /\ Forall event_ok (snd r) /\
  otaInOrder (otaInitialized (ota s)) (snd r) = true /\
  otaBegunAfter (otaInitialized (ota s)) (snd r) =
    otaInitialized (ota (fst r)).
Proof.
  intros Hok. cbn zeta. rewrite loop_eq. cbn zeta.
  set (s0 := set_led _ s).
  assert (Hok0 : state_ok s0) by exact Hok.
  (* wifiTick *)
  assert (H1 : state_ok (fst (wifiTick (in_now i) (in_wifi i) s0)) /\
               ota (fst (wifiTick (in_now i) (in_wifi i) s0)) = ota s /\
               Forall event_ok (snd (wifiTick (in_now i) (in_wifi i) s0)) /\
               (forall b, otaInOrder b (snd (wifiTick (in_now i) (in_wifi i) s0)) = true /\
                          otaBegunAfter b (snd (wifiTick (in_now i) (in_wifi i) s0)) = b)).
  { unfold wifiTick. destruct (in_wifi i); [| destruct (_ <? _)]; cbn [fst snd];
      (split; [exact Hok0 |]; split; [reflexivity |];
       split; [repeat constructor |]; intros b; split; reflexivity). }
  set (r1 := wifiTick _ _ s0) in *.
  destruct H1 as (Hok1 & Hota1 & Hev1 & Hord1).
  (* intake *)
  set (r2 := if in_wifi i then _ else _).
  assert (H2 : state_ok (fst r2) /\ Forall event_ok (snd r2) /\
               otaInOrder (otaInitialized (ota s)) (snd r2) = true /\
               otaBegunAfter (otaInitialized (ota s)) (snd r2) =
                 otaInitialized (ota (fst r2))).
  { subst r2. rewrite <- Hota1. destruct (in_wifi i).
    - apply processUdp_ok. exact Hok1.
    - cbn [fst snd]. split; [exact Hok1 |].
      split; [constructor | split; reflexivity]. }
  destruct H2 as (Hok2 & Hev2 & Hord2 & Hbeg2).
  (* OTA tick *)
  pose proof (otaTick_ok (in_now i) (in_wifi i) (fst r2) Hok2) as H3.
  set (r3 := otaTick _ _ (fst r2)) in *. cbn zeta in H3.
  destruct H3 as (Hok3 & Hev3 & Hord3 & Hbeg3).
  (* executor *)
  pose proof Hok3 as (T3 & W3 & S3 & D3 & O3).
  pose proof (actionTick_frame (in_now i) (fst r3) T3 W3) as H4.
  pose proof (actionTick_events (in_now i) (fst r3)
                (otaInitialized (ota (fst r3)))) as H4e.
  set (r4 := actionTick _ (fst r3)) in *. cbn zeta in H4.
  destruct H4 as (T4 & W4 & _ & _ & _ & Ho4 & Hd4 & Hs4).
  destruct H4e as (Hev4 & Hord4 & Hbeg4).
  cbn [fst snd].
  split.
  { split_ok; cbn [rc5_toggle_state queue siren dedup ota set_siren].
    - exact T4.
    - exact W4.
    - apply sirenTick_ok. rewrite Hs4. exact S3.
    - rewrite Hd4. exact D3.
    - rewrite Ho4. exact O3. }
  split.
  { repeat (apply Forall_app; split); assumption. }
  cbn [ota set_siren].
  rewrite !otaInOrder_app, !otaBegunAfter_app.
  rewrite (proj1 (Hord1 _)), (proj2 (Hord1 _)).
  rewrite Hord2, Hbeg2, Hord3, Hbeg3, Hord4, Hbeg4, Ho4.
  split; reflexivity.
Qed.

Lemma run_ok (ins : list Input) :
  forall s,
    state_ok s ->
    let r := run ins s in
    state_ok (fst r) /\ Forall event_ok (snd r) /\
    otaInOrder (otaInitialized (ota s)) (snd r) = true /\
    otaBegunAfter (otaInitialized (ota s)) (snd r) =
      otaInitialized (ota (fst r)).
Proof.
  induction ins as [| i rest IH]; intros s Hok; cbn zeta.
  - cbn. split; [exact Hok |]. split; [constructor | split; reflexivity].
  - cbn [run].
    pose proof (loop_ok i s Hok) as Hl. cbn zeta in Hl.
    destruct (loop i s) as [s1 e1]. cbn [fst snd] in Hl.
    destruct Hl as (Hok1 & Hev1 & Hord1 & Hbeg1).
    specialize (IH s1 Hok1). cbn zeta in IH.
    destruct (run rest s1) as [s2 e2]. cbn [fst snd] in *.
    destruct IH as (Hok2 & Hev2 & Hord2 & Hbeg2).
    split; [exact Hok2 |].
    split; [apply Forall_app; split; assumption |].
    rewrite otaInOrder_app, otaBegunAfter_app, Hord1, Hbeg1, Hord2, Hbeg2.
    split; reflexivity.
Qed.

(** X8.  In every state reachable from boot, every array index of the
    engines is in bounds: the queue has its 32 slots, head and tail are
    below 32, the tail is where head and count put it, the count is at most
    32; both siren tables have their 5 slots and, while the siren engine
    runs, its phase index is below the programmed count, which is at most 3;
    and the toggle is a single bit. *)
Theorem X8_indices_in_bounds (ins : list Input) :
  let s := fst (run ins boot) in
  length (q (queue s)) = 32%nat /\
  0 <= qHead (queue s) < 32 /\ 0 <= qTail (queue s) < 32 /\
  0 <= qCount (queue s) <= 32 /\
  qTail (queue s) = (qHead (queue s) + qCount (queue s)) mod 32 /\
  length (sirenOnMs (siren s)) = 5%nat /\
  length (sirenOffMs (siren s)) = 5%nat /\
  (sirenActive (siren s) = true ->
     0 <= sirenIndex (siren s) < sirenCount (siren s) /\
     sirenCount (siren s) <= 3) /\
  (rc5_toggle_state s = 0 \/ rc5_toggle_state s = 1).
Proof.
  cbn zeta.
  destruct (run_ok ins boot boot_state_ok)
    as ((Ht & (Hlen & Hh & Hc & Htl) & (Hon & Hoff & _ & _ & Hact) & _ & _) & _).
  change QSIZE with 32 in *.
  repeat (split; [assumption |]).
  split; [rewrite Htl; apply Z.mod_pos_bound; lia |].
  repeat (split; [assumption |]). exact Ht.
Qed.

(** X9.  In every state reachable from boot the siren pin shows the ON
    phase of a running engine: the pin is high exactly when the engine is in
    its ON phase, and then the engine is running; with the engine stopped
    the pin is low. *)
Theorem X9_siren_pin_follows_engine (ins : list Input) :
  let sr := siren (fst (run ins boot)) in
  pinSiren sr = sirenPhaseOn sr /\
  (pinSiren sr = true -> sirenActive sr = true) /\
  (sirenActive sr = false -> pinSiren sr = false).
Proof.
  cbn zeta.
  destruct (run_ok ins boot boot_state_ok)
    as ((_ & _ & (_ & _ & Hpin & Hph & _) & _ & _) & _).
  split; [exact Hpin |]. rewrite Hpin. split; [exact Hph |].
  intros Hst. destruct (sirenPhaseOn _); [| reflexivity].
  rewrite Hph in Hst by reflexivity. discriminate.
Qed.

(** X10.  Everything sent in any run from boot is well formed.  Every
    acknowledgement is the seven bytes magic, version, ack code, two id
    bytes in 0..255, a status of 0 or 1, and a zero; every IR code is sent
    with 12 bits and is one of the two toggle variants of a table row. *)
Theorem X10_outputs_well_formed (ins : list Input) :
  (forall ip port bytes,
     In (EvAck ip port bytes) (snd (run ins boot)) ->
     exists lo hi st,
       bytes = [MAGIC; VER; CMD_ACK; lo; hi; st; 0] /\
       0 <= lo < 256 /\ 0 <= hi < 256 /\ (st = 0 \/ st = 1)) /\
  (forall v n,
     In (EvIr v n) (snd (run ins boot)) ->
     n = 12 /\
     exists row, In row RC5_TABLE /\ (v = v_t0 row \/ v = v_t1 row)).
Proof.
  destruct (run_ok ins boot boot_state_ok) as (_ & Hev & _).
  rewrite List.Forall_forall in Hev. split.
  - intros ip port bytes Hin. exact (Hev _ Hin).
  - intros v n Hin. destruct (Hev _ Hin) as (row & Hrow & -> & Hv).
    split; [| exists row; split; assumption].
    pose proof RC5_TABLE_toggle as Htab.
    rewrite List.Forall_forall in Htab. apply (Htab row Hrow).
Qed.

Lemma X10_outputs_well_formed_witness :
  In (EvIr 0x838 12) (snd (run sampleRun boot)) /\
  12 = 12 /\
  exists row, In row RC5_TABLE /\ (0x838 = v_t0 row \/ 0x838 = v_t1 row).
Proof.
  assert (Hin : In (EvIr 0x838 12) (snd (run sampleRun boot))).
  { vm_compute. do 5 right. left. reflexivity. }
  split; [exact Hin |].
  apply (proj2 (X10_outputs_well_formed sampleRun) 0x838 12 Hin).
Defined.

(** X11.  In every run from boot the OTA service is used in order:
    [ArduinoOTA.begin()] is called at most once, and
    [ArduinoOTA.handle()] is only called after it. *)
Theorem X11_ota_service_in_order (ins : list Input) :
  otaInOrder (otaInitialized (ota boot)) (snd (run ins boot)) = true.
Proof.
  destruct (run_ok ins boot boot_state_ok) as (_ & _ & Hord & _).
  exact Hord.
Qed.

(* ================================================================== *)
(** ** The ring buffer as a bounded FIFO *)

(** X12.  The ring buffer is a first-in first-out queue of capacity 32.
    On a well-formed queue: a push onto a full queue is refused and changes
    nothing; a push with room puts the action at the end; a pop from an
    empty queue returns nothing and changes nothing; a pop takes the first
    action and leaves the rest; and the count is the number of queued
    actions.  Both operations keep the queue well formed, also across the
    wrap of head and tail at slot 31. *)
Theorem X12_ring_buffer_fifo (a : Action) (qu : Queue) :
  queue_wf qu ->
  Z.of_nat (length (qList qu)) = qCount qu /\
  (qCount qu = 32 -> qPush a qu = (false, qu)) /\
  (qCount qu < 32 ->
     fst (qPush a qu) = true /\ queue_wf (snd (qPush a qu)) /\
     qList (snd (qPush a qu)) = qList qu ++ [a]) /\
  (qCount qu = 0 -> qList qu = [] /\ qPop qu = (None, qu)) /\
  (0 < qCount qu ->
     exists b, fst (qPop qu) = Some b /\ queue_wf (snd (qPop qu)) /\
               qList qu = b :: qList (snd (qPop qu))).
Proof.
  intros Hwf. split; [| split; [| split; [| split]]].
  - rewrite qList_length. destruct Hwf as (_ & _ & Hc & _). lia.
  - intros Hc. apply qPush_full. change QSIZE with 32. lia.
  - intros Hc.
    destruct (qPush_room a qu Hwf) as (qu' & -> & Hwf' & Hl & _);
      [change QSIZE with 32; lia |].
    cbn [fst snd]. split; [reflexivity |]. split; assumption.
  - intros Hc. split.
    + unfold qList. rewrite Hc. reflexivity.
    + unfold qPop. rewrite Hc. reflexivity.
  - intros Hc.
    destruct (qPop_some qu Hwf Hc) as (b & qu' & -> & Hwf' & Hl & _).
    exists b. cbn [fst snd]. split; [reflexivity |]. split; assumption.
Qed.

Lemma X12_ring_buffer_fifo_witness :
  let qu := queue boot in
  let a := mkAction Press 4 in
  Z.of_nat (length (qList qu)) = qCount qu /\
  (qCount qu = 32 -> qPush a qu = (false, qu)) /\
  (qCount qu < 32 ->
     fst (qPush a qu) = true /\ queue_wf (snd (qPush a qu)) /\
     qList (snd (qPush a qu)) = qList qu ++ [a]) /\
  (qCount qu = 0 -> qList qu = [] /\ qPop qu = (None, qu)) /\
  (0 < qCount qu ->
     exists b, fst (qPop qu) = Some b /\ queue_wf (snd (qPop qu)) /\
               qList qu = b :: qList (snd (qPop qu))).
Proof.
  exact (X12_ring_buffer_fifo (mkAction Press 4) (queue boot) boot_queue_wf).
Defined.

(* ================================================================== *)
(** ** The activity burst of the status LED *)

Lemma burst_start (t0 : Z) (l : Led) :
  0 <= t0 -> t0 + 560 < 2 ^ 32 -> statusLedActivityBurst t0 l = burstAt t0 0.
Proof.
  intros H0 H1. unfold statusLedActivityBurst, burstAt, statusLedWrite.
  cbn [ledInBurst ledLevel ledNextMs ledTogglesLeft pinStatusLed].
  change ACTIVITY_BLINK_OFF_MS with 70. change ACTIVITY_BLINK_COUNT with 4.
  rewrite u32_small by lia. reflexivity.
Qed.

Lemma burst_step (t0 j : Z) (wifi : bool) :
  0 <= t0 -> t0 + 560 < 2 ^ 32 -> 0 <= j < 559 ->
  statusLedTick (t0 + (j + 1)) wifi (burstAt t0 j) = burstAt t0 (j + 1).
Proof.
  intros H0 H1 Hj.
  assert (Hn : 0 <= j / 70 < 8)
    by (split; [apply Z.div_pos; lia | apply Z.div_lt_upper_bound; lia]).
  pose proof (Z.div_mod j 70 ltac:(lia)) as Hdm.
  pose proof (Z.mod_pos_bound j 70 ltac:(lia)) as Hr.
  unfold statusLedTick, burstAt, statusLedWrite, statusLedSetBase.
  cbn [ledInBurst ledLevel ledNextMs ledTogglesLeft pinStatusLed negb].
  destruct (Z.ltb_spec (t0 + (j + 1)) (t0 + 70 * (j / 70 + 1))) as [Hlt | Hge].
  - assert (Hsame : (j + 1) / 70 = j / 70).
    { symmetry. apply (Z.div_unique (j + 1) 70 (j / 70) (j mod 70 + 1)); lia. }
    rewrite Hsame. reflexivity.
  - assert (Hnext : (j + 1) / 70 = j / 70 + 1).
    { symmetry. apply (Z.div_unique (j + 1) 70 (j / 70 + 1) 0); lia. }
    rewrite Hnext.
    assert (Hn7 : j / 70 < 7) by lia.
    assert (Hj1 : j + 1 = 70 * (j / 70 + 1)) by lia.
    destruct (Z.ltb_spec 0 (8 - j / 70)) as [_ | ?]; [| lia].
    cbn [ledInBurst ledLevel ledNextMs ledTogglesLeft pinStatusLed].
    rewrite u8_small by lia.
    destruct (Z.eqb_spec (8 - j / 70 - 1) 0) as [? | _]; [lia |].
    change ACTIVITY_BLINK_ON_MS with 70. change ACTIVITY_BLINK_OFF_MS with 70.
    replace (if negb (Z.odd (j / 70)) then 70 else 70) with 70
      by (destruct (negb _); reflexivity).
    rewrite u32_small by lia.
    replace (j / 70 + 1) with (Z.succ (j / 70)) by lia.
    rewrite Z.odd_succ, <- Z.negb_odd.
    f_equal; lia.
Qed.

Lemma burst_end (t0 : Z) (wifi : bool) :
  statusLedTick (t0 + 560) wifi (burstAt t0 559) =
    mkLed false wifi (t0 + 560) 0 wifi.
Proof.
  unfold statusLedTick, burstAt, statusLedWrite, statusLedSetBase.
  change (559 / 70) with 7.
  cbn [ledInBurst ledLevel ledNextMs ledTogglesLeft pinStatusLed negb].
  replace (t0 + 70 * (7 + 1)) with (t0 + 560) by lia.
  rewrite Z.ltb_irrefl. reflexivity.
Qed.

Lemma base_tick (now : Z) (wifi : bool) (t : Z) :
  statusLedTick now wifi (mkLed false wifi t 0 wifi) = mkLed false wifi t 0 wifi.
Proof. reflexivity. Qed.

Lemma ledAfter_burst (t0 : Z) (wifi : bool) (l : Led) :
  0 <= t0 -> t0 + 560 < 2 ^ 32 ->
  forall k : nat,
    ledAfter t0 wifi k (statusLedActivityBurst t0 l) =
      if Z.of_nat k <? 560 then burstAt t0 (Z.of_nat k)
      else mkLed false wifi (t0 + 560) 0 wifi.
Proof.
  intros H0 H1. induction k as [| k IH].
  - cbn [ledAfter]. apply burst_start; assumption.
  - cbn [ledAfter]. rewrite IH.
    destruct (Z.ltb_spec (Z.of_nat k) 560) as [Hk | Hk];
      destruct (Z.ltb_spec (Z.of_nat (S k)) 560) as [Hk' | Hk']; try lia.
    + replace (Z.of_nat (S k)) with (Z.of_nat k + 1) by lia.
      apply burst_step; lia.
    + replace (Z.of_nat (S k)) with 560 by lia.
      replace (Z.of_nat k) with 559 by lia. apply burst_end.
    + apply base_tick.
Qed.

(** X13.  An activity burst started at [t0] and ticked once per
    millisecond blinks for 560 ms: during the burst the LED pin is low for
    the first 70 ms, then high for 70 ms, and so on in turn, four high
    phases in all; from the tick at [t0 + 560] on the burst is over, with no
    toggle left, and the pin shows the Wi-Fi link state.  The state the LED
    engine was in when the burst started does not matter.  This holds when
    the clock does not wrap within the burst. *)
Theorem X13_led_burst_timeline (t0 : Z) (wifi : bool) (l : Led) (k : nat) :
  0 <= t0 -> t0 + 560 < 2 ^ 32 ->
  let l' := ledAfter t0 wifi k (statusLedActivityBurst t0 l) in
  (Z.of_nat k < 560 ->
     ledInBurst l' = true /\
     pinStatusLed l' = Z.odd (Z.of_nat k / 70) /\
     ledTogglesLeft l' = 8 - Z.of_nat k / 70) /\
  (560 <= Z.of_nat k ->
     ledInBurst l' = false /\ pinStatusLed l' = wifi /\
     ledTogglesLeft l' = 0).
Proof.
  intros H0 H1. cbn zeta. rewrite ledAfter_burst by assumption. split.
  - intros Hk. destruct (Z.ltb_spec (Z.of_nat k) 560); [| lia].
    unfold burstAt. cbn. repeat split.
  - intros Hk. destruct (Z.ltb_spec (Z.of_nat k) 560); [lia |].
    cbn. repeat split.
Qed.

Lemma X13_led_burst_timeline_witness :
  let l' := ledAfter 1000 true 100 (statusLedActivityBurst 1000 (led boot)) in
  (Z.of_nat 100 < 560 ->
     ledInBurst l' = true /\
     pinStatusLed l' = Z.odd (Z.of_nat 100 / 70) /\
     ledTogglesLeft l' = 8 - Z.of_nat 100 / 70) /\
  (560 <= Z.of_nat 100 ->
     ledInBurst l' = false /\ pinStatusLed l' = true /\
     ledTogglesLeft l' = 0).
Proof.
  apply (X13_led_burst_timeline 1000 true (led boot) 100); lia.
Defined.

(* ================================================================== *)
(** ** Wi-Fi reconnect attempts *)

Lemma wifiTicks_quiet (ticks : list (Z * bool)) (s : State) :
  Forall (fun p => fst p < nextWifiRetryMs s) ticks ->
  wifiTicks ticks s = (s, []).
Proof.
  induction 1 as [| [now wifi] rest Hnow _ IH]; [reflexivity |].
  cbn [wifiTicks]. cbn [fst] in Hnow. unfold wifiTick.
  replace (now <? nextWifiRetryMs s) with true
    by (symmetry; apply Z.ltb_lt; exact Hnow).
  destruct wifi; rewrite IH; reflexivity.
Qed.

Lemma wifiTicks_app (t1 t2 : list (Z * bool)) :
  forall s,
    wifiTicks (t1 ++ t2) s =
      let r1 := wifiTicks t1 s in
      let r2 := wifiTicks t2 (fst r1) in
      (fst r2, snd r1 ++ snd r2).
Proof.
  induction t1 as [| [now wifi] rest IH]; intros s.
  - cbn. destruct (wifiTicks t2 s); reflexivity.
  - cbn [app wifiTicks]. destruct (wifiTick now wifi s) as [s1 e1].
    rewrite IH. cbn zeta.
    destruct (wifiTicks rest s1) as [s2 e2]. cbn [fst snd].
    destruct (wifiTicks t2 s2) as [s3 e3]. cbn [fst snd].
    rewrite app_assoc. reflexivity.
Qed.

Lemma wifiTick_due (now : Z) (s : State) :
  nextWifiRetryMs s <= now ->
  wifiTick now false s =
    (set_nextWifiRetryMs (u32 (now + WIFI_RETRY_INTERVAL_MS)) s,
     [EvWifiReconnect]).
Proof.
  intros H. unfold wifiTick.
  replace (now <? nextWifiRetryMs s) with false
    by (symmetry; apply Z.ltb_ge; exact H).
  reflexivity.
Qed.

(** X14.  A reconnect is attempted on a tick with the link down once the
    retry time is reached.  After an attempt at [t], no tick before
    [t + 3000] attempts again, whatever the link does in between; the first
    later tick with the link down makes the next attempt, and with the link
    up none is made.  This holds when [t + 3000] does not wrap; when it
    wraps past 2^32, the spacing is lost and the very next tick with the
    link down attempts again. *)
Theorem X14_wifi_retry_spacing (t t' : Z) (ticks : list (Z * bool))
    (s : State) :
  0 <= t < 2 ^ 32 -> nextWifiRetryMs s <= t ->
  (t + 3000 < 2 ^ 32 ->
   Forall (fun p => fst p < t + 3000) ticks -> t + 3000 <= t' ->
     snd (wifiTicks ((t, false) :: ticks) s) = [EvWifiReconnect] /\
     snd (wifiTicks ((t, false) :: ticks ++ [(t', false)]) s) =
       [EvWifiReconnect; EvWifiReconnect] /\
     snd (wifiTicks ((t, false) :: ticks ++ [(t', true)]) s) =
       [EvWifiReconnect]) /\
  (2 ^ 32 <= t + 3000 -> t <= t' ->
     snd (wifiTicks [(t, false); (t', false)] s) =
       [EvWifiReconnect; EvWifiReconnect]).
Proof.
  intros Ht Hnext. split.
  - intros Hnw Hticks Ht'.
    assert (Hq : forall more,
              wifiTicks ((t, false) :: ticks ++ more) s =
                let r := wifiTicks more (set_nextWifiRetryMs (t + 3000) s) in
                (fst r, EvWifiReconnect :: snd r)).
    { intros more. cbn [wifiTicks]. rewrite wifiTick_due by exact Hnext.
      change WIFI_RETRY_INTERVAL_MS with 3000. rewrite u32_small by lia.
      rewrite wifiTicks_app, wifiTicks_quiet by exact Hticks.
      cbn [fst snd app]. cbn zeta.
      destruct (wifiTicks more _); reflexivity. }
    split; [| split].
    + rewrite <- (app_nil_r ticks), Hq. reflexivity.
    + rewrite Hq. cbn [wifiTicks]. rewrite wifiTick_due by (cbn; lia).
      reflexivity.
    + rewrite Hq. reflexivity.
  - intros Hw Ht'. cbn [wifiTicks]. rewrite wifiTick_due by exact Hnext.
    change WIFI_RETRY_INTERVAL_MS with 3000.
    rewrite wifiTick_due; [reflexivity |].
    cbn [nextWifiRetryMs set_nextWifiRetryMs]. unfold u32.
    change (2 ^ 32) with 4294967296 in *.
    assert (Hm : (t + 3000) mod 4294967296 = t + 3000 - 4294967296).
    { symmetry. apply (Z.mod_unique_pos (t + 3000) 4294967296 1); lia. }
    lia.
Qed.

Lemma X14_wifi_retry_spacing_witness :
  (snd (wifiTicks ((5000, false) :: [(6000, false); (7999, true)]) boot) =
     [EvWifiReconnect] /\
   snd (wifiTicks
          ((5000, false) :: [(6000, false); (7999, true)] ++ [(8000, false)])
          boot) = [EvWifiReconnect; EvWifiReconnect] /\
   snd (wifiTicks
          ((5000, false) :: [(6000, false); (7999, true)] ++ [(8000, true)])
          boot) = [EvWifiReconnect]) /\
  snd (wifiTicks [(2 ^ 32 - 1000, false); (2 ^ 32 - 999, false)] boot) =
    [EvWifiReconnect; EvWifiReconnect].
Proof.
  split.
  - refine (proj1 (X14_wifi_retry_spacing 5000 8000
                     [(6000, false); (7999, true)] boot _ _) _ _ _).
    + lia.
    + cbn. lia.
    + lia.
    + repeat constructor; cbn; lia.
    + lia.
  - refine (proj2 (X14_wifi_retry_spacing (2 ^ 32 - 1000) (2 ^ 32 - 999)
                     [] boot _ _) _ _).
    + lia.
    + cbn. lia.
    + lia.
    + lia.
Defined.

(* ================================================================== *)
(** ** One pass of the main loop *)

Lemma otaTick_down (now : Z) (s : State) : otaTick now false s = (s, []).
Proof. unfold otaTick. destruct (otaEnabled (ota s)); reflexivity. Qed.

Lemma otaTick_closed (now : Z) (wifi : bool) (s : State) :
  otaEnabled (ota s) = false -> otaTick now wifi s = (s, []).
Proof. intros H. unfold otaTick. rewrite H. reflexivity. Qed.

Lemma wifiTick_up (now : Z) (s : State) : wifiTick now true s = (s, []).
Proof. reflexivity. Qed.

Lemma wifiTick_acks (now : Z) (wifi : bool) (s : State) :
  acks (snd (wifiTick now wifi s)) = [] /\
  dedup (fst (wifiTick now wifi s)) = dedup s /\
  siren (fst (wifiTick now wifi s)) = siren s /\
  ~ In EvOtaHandle (snd (wifiTick now wifi s)) /\
  ~ In EvOtaBegin (snd (wifiTick now wifi s)).
Proof.
  unfold wifiTick.
  destruct wifi; [| destruct (now <? nextWifiRetryMs s)]; cbn;
    repeat split; try tauto; intros [? | []]; discriminate.
Qed.

Lemma otaTick_acks (now : Z) (wifi : bool) (s : State) :
  acks (snd (otaTick now wifi s)) = [].
Proof.
  unfold otaTick.
  repeat match goal with
         | |- context [if ?b then _ else _] => destruct b
         end; reflexivity.
Qed.

Lemma actionTick_quiet (now : Z) (s : State) :
  acks (snd (actionTick now s)) = [] /\
  dispatched (snd (actionTick now s)) = [] /\
  siren (fst (actionTick now s)) = siren s /\
  dedup (fst (actionTick now s)) = dedup s /\
  ~ In EvOtaHandle (snd (actionTick now s)) /\
  ~ In EvOtaBegin (snd (actionTick now s)).
Proof.
  unfold actionTick, qPop, sendRc5Press.
  repeat match goal with
         | |- context [if ?b then _ else _] => destruct b
         | |- context [match a_type ?a with _ => _ end] => destruct (a_type a)
         end; cbn; repeat split; try tauto;
    intros H; repeat (destruct H as [H | H]; [discriminate |]); exact H.
Qed.

(** What the executor sends depends on the queue, the armed delay and the
    toggle only. *)
Lemma actionTick_snd_indep (now : Z) (s s' : State) :
  queue s = queue s' -> delayUntilMs s = delayUntilMs s' ->
  rc5_toggle_state s = rc5_toggle_state s' ->
  snd (actionTick now s) = snd (actionTick now s').
Proof.
  intros Hq Hd Ht. unfold actionTick, qPop, sendRc5Press.
  cbn [queue delayUntilMs rc5_toggle_state set_delayUntilMs set_queue
       set_rc5_toggle_state].
  rewrite Hq, Hd, Ht.
  repeat match goal with
         | |- context [if ?b then _ else _] => destruct b
         | |- context [match a_type ?a with _ => _ end] => destruct (a_type a)
         end; reflexivity.
Qed.

(** X15.  In a pass with the Wi-Fi link down no datagram is read, whatever
    is pending: nothing is acknowledged or dispatched, the dedup record and
    the OTA window stay as they were, and the OTA service is neither begun
    nor handled.  The real-time engines still run: the pass sends what the
    executor tick sends, after a possible reconnect attempt, and the siren
    makes its tick. *)
Theorem X15_link_down_pass (i : Input) (s : State) :
  in_wifi i = false ->
  let r := loop i s in
  loop (mkInput (in_now i) false []) s = r /\
  snd r = snd (wifiTick (in_now i) false s) ++ snd (actionTick (in_now i) s) /\
  acks (snd r) = [] /\ dispatched (snd r) = [] /\
  ~ In EvOtaHandle (snd r) /\ ~ In EvOtaBegin (snd r) /\
  dedup (fst r) = dedup s /\ ota (fst r) = ota s /\
  siren (fst r) = sirenTick (in_now i) (siren s).
Proof.
  intros Hw. cbn zeta. rewrite !loop_eq.
  cbn [in_now in_wifi in_pending]. rewrite Hw. cbn zeta. cbn [fst snd].
  set (s0 := set_led _ s).
  rewrite otaTick_down. cbn [fst snd app].
  pose proof (wifiTick_frame (in_now i) false s0) as Hwf.
  pose proof (wifiTick_acks (in_now i) false s0) as Hwa.
  pose proof (actionTick_quiet (in_now i) (fst (wifiTick (in_now i) false s0)))
    as Haq.
  pose proof (actionTick_ota (in_now i) (fst (wifiTick (in_now i) false s0)))
    as Hao.
  cbn zeta in Hwf.
  destruct Hwf as (Ht1 & Hq1 & Ho1 & _ & Hd1).
  destruct Hwa as (Ha1 & Hdd1 & Hs1 & Hh1 & Hb1).
  destruct Haq as (Ha4 & Hd4 & Hs4 & Hdd4 & Hh4 & Hb4).
  assert (Hev : snd (wifiTick (in_now i) false s0) = snd (wifiTick (in_now i) false s)).
  { unfold wifiTick. subst s0. cbn [nextWifiRetryMs set_led].
    destruct (in_now i <? nextWifiRetryMs s); reflexivity. }
  assert (Hact : snd (actionTick (in_now i) (fst (wifiTick (in_now i) false s0)))
                 = snd (actionTick (in_now i) s)).
  { apply actionTick_snd_indep.
    - rewrite Hq1. reflexivity.
    - unfold wifiTick. destruct (in_now i <? nextWifiRetryMs s0); reflexivity.
    - rewrite Ht1. reflexivity. }
  split; [reflexivity |].
  split; [rewrite Hev, Hact; reflexivity |].
  split; [rewrite acks_app, Ha1, Ha4; reflexivity |].
  split; [rewrite dispatched_app, Hd1, Hd4; reflexivity |].
  split; [intros Hin; apply in_app_or in Hin as [Hin | Hin]; tauto |].
  split; [intros Hin; apply in_app_or in Hin as [Hin | Hin]; tauto |].
  cbn [dedup ota siren set_siren].
  split; [rewrite Hdd4, Hdd1; reflexivity |].
  split; [rewrite Hao, Ho1; reflexivity |].
  rewrite Hs4, Hs1. reflexivity.
Qed.

Lemma X15_link_down_pass_witness :
  let i := mkInput 5000 false [mkFrame 0x05 42 []] in
  let r := loop i boot in
  loop (mkInput (in_now i) false []) boot = r /\
  snd r = snd (wifiTick (in_now i) false boot) ++
          snd (actionTick (in_now i) boot) /\
  acks (snd r) = [] /\ dispatched (snd r) = [] /\
  ~ In EvOtaHandle (snd r) /\ ~ In EvOtaBegin (snd r) /\
  dedup (fst r) = dedup boot /\ ota (fst r) = ota boot /\
  siren (fst r) = sirenTick (in_now i) (siren boot).
Proof.
  exact (X15_link_down_pass (mkInput 5000 false [mkFrame 0x05 42 []]) boot
           eq_refl).
Defined.

(* ================================================================== *)
(** ** A single press, from datagram to IR code *)

Lemma enqueueCommand_press (cmd : Z) (payload : list Z) (payloadLen now : Z)
    (s : State) :
  otaEnabled (ota s) = false -> 0x01 <= cmd <= 0x1B ->
  enqueueCommand cmd payload payloadLen now s =
    let '(ok, qu) := qPush (mkAction Press (cmd - 1)) (queue s) in
    (ok, set_queue qu s, []).
Proof.
  intros Hg Hcmd.
  assert (Hidx : u8 (cmd - 1) = cmd - 1) by (apply u8_small; lia).
  unfold enqueueCommand. rewrite Hg.
  destruct (Z.eqb_spec cmd CMD_OTA_MODE) as [E | _];
    [unfold CMD_OTA_MODE in E; lia |].
  replace ((1 <=? cmd) && (cmd <=? 27)) with true
    by (symmetry; apply andb_true_intro; split; apply Z.leb_le; lia).
  rewrite Hidx.
  replace (27 <=? cmd - 1) with false by (symmetry; apply Z.leb_gt; lia).
  reflexivity.
Qed.

Lemma framed_nonempty (d : Datagram) :
  framed d = true -> (0 <? Z.of_nat (length (dgram d))) = true.
Proof.
  intros Hfr. destruct (framed_bytes d Hfr) as (b2 & b3 & b4 & b5 & rest & Hb).
  apply Z.ltb_lt. unfold rxBuf in Hb.
  destruct (dgram d); [discriminate | cbn [length]; lia].
Qed.

(** X16.  A single-press command that arrives while the device is idle is
    carried out within the pass it arrives in.  With the link up, the OTA
    window closed, the queue empty and no delay pending, a pass that reads
    one fresh, well-formed frame with a command [c] in 0x01..0x1B does, in
    this order: dispatch the command, acknowledge the frame to its sender
    with status 1, take the press of table row [c - 1] from the queue, and
    send that row's code with the flipped toggle in 12 bits.  Afterwards the
    queue is empty again, no delay is armed, the toggle is flipped and the
    dedup record holds the frame's id with status 1. *)
Theorem X16_press_end_to_end (now : Z) (d : Datagram) (s : State) :
  toggle_ok s -> queue_wf (queue s) ->
  framed d = true -> frameLenOk d = true -> isRepeat d s = false ->
  0x01 <= frameCmd d <= 0x1B ->
  otaEnabled (ota s) = false ->
  qCount (queue s) = 0 ->
  delayUntilMs s = 0 \/ delayUntilMs s <= now ->
  let r := loop (mkInput now true [d]) s in
  snd r =
    [EvDispatch (frameCmd d);
     EvAck (remoteIP d) (remotePort d) (ackBytes (frameId d) 1);
     EvDequeue (mkAction Press (frameCmd d - 1));
     EvIr (rc5Code (frameCmd d - 1) (1 - rc5_toggle_state s)) 12] /\
  qList (queue (fst r)) = [] /\
  delayUntilMs (fst r) = 0 /\
  rc5_toggle_state (fst r) = 1 - rc5_toggle_state s /\
  dedup (fst r) = mkDedup (frameId d) true 1.
Proof.
  intros Ht Hwf Hfr Hlen Hrep Hcmd Hg Hc Hdelay. cbn zeta.
  rewrite loop_eq. cbn [in_now in_wifi in_pending]. cbn zeta.
  set (s0 := set_led _ s).
  rewrite wifiTick_up. cbn [fst snd app].
  cbn [processUdp]. rewrite (framed_nonempty d Hfr).
  rewrite (processUdpPacket_fresh now d s0 Hfr Hlen Hrep).
  rewrite (enqueueCommand_press (frameCmd d) _ _ now s0 Hg Hcmd).
  destruct (qPush_room (mkAction Press (frameCmd d - 1)) (queue s0) Hwf)
    as (qu & Hp & Hwf' & Hl & _);
    [change (queue s0) with (queue s); change QSIZE with 32; lia |].
  rewrite Hp. cbn zeta. cbn [fst snd app].
  set (s3 := set_led _ (set_dedup _ (set_queue qu s0))).
  rewrite (otaTick_closed now true s3) by exact Hg. cbn [fst snd app].
  assert (Hl0 : qList (queue s0) = []).
  { change (queue s0) with (queue s). unfold qList. rewrite Hc. reflexivity. }
  rewrite Hl0 in Hl. cbn [app] in Hl.
  destruct (actionTick_head now s3 (mkAction Press (frameCmd d - 1)) [])
    as (qu' & Hwf'' & Hl' & Heq); [exact Hwf' | exact Hdelay | exact Hl |].
  rewrite Heq. cbn [a_type a_arg]. cbn zeta.
  rewrite press_index by lia.
  replace (frameCmd d - 1 <? 27) with true by (symmetry; apply Z.ltb_lt; lia).
  rewrite sendRc5Press_eq by (first [exact Ht | lia]).
  cbn [fst snd]. unfold sendAck.
  split; [reflexivity |].
  cbn [queue delayUntilMs rc5_toggle_state dedup set_siren set_led
       set_rc5_toggle_state set_queue set_delayUntilMs].
  split; [exact Hl' |]. split; [reflexivity |]. split; reflexivity.
Qed.

Lemma X16_press_end_to_end_witness :
  let d := mkFrame 0x05 42 [] in
  let r := loop (mkInput 1000 true [d]) boot in
  snd r =
    [EvDispatch (frameCmd d);
     EvAck (remoteIP d) (remotePort d) (ackBytes (frameId d) 1);
     EvDequeue (mkAction Press (frameCmd d - 1));
     EvIr (rc5Code (frameCmd d - 1) (1 - rc5_toggle_state boot)) 12] /\
  qList (queue (fst r)) = [] /\
  delayUntilMs (fst r) = 0 /\
  rc5_toggle_state (fst r) = 1 - rc5_toggle_state boot /\
  dedup (fst r) = mkDedup (frameId d) true 1.
Proof.
  apply (X16_press_end_to_end 1000 (mkFrame 0x05 42 []) boot).
  - exact boot_toggle_ok.
  - exact boot_queue_wf.
  - reflexivity.
  - reflexivity.
  - reflexivity.
  - vm_compute. split; discriminate.
  - reflexivity.
  - reflexivity.
  - left. reflexivity.
Defined.

(* ================================================================== *)
(** ** Acknowledgements over a run *)

Lemma ackAddr_sendAck (d : Datagram) (st : Z) :
  map ackAddr (acks (sendAck (remoteIP d) (remotePort d) (frameId d) st)) =
    [frameAddr d].
Proof.
  unfold sendAck, ackBytes, frameAddr, writeU16LE. reflexivity.
Qed.

Lemma processUdpPacket_addr (now : Z) (d : Datagram) (s : State) :
  map ackAddr (acks (snd (processUdpPacket now d s))) =
    if framed d then [frameAddr d] else [].
Proof.
  packet_cases now d s; cbn [snd].
  - apply ackAddr_sendAck.
  - pose proof (enqueueCommand_frame (frameCmd d) (framePayload d)
                  (framePlen d) now s) as Hf.
    destruct (enqueueCommand _ _ _ _ _) as [[ok s1] ev].
    cbn zeta in Hf. cbn [fst snd] in Hf.
    destruct Hf as (_ & _ & _ & _ & Hev). cbn [snd].
    change (EvDispatch (frameCmd d) :: ?l) with ([EvDispatch (frameCmd d)] ++ l).
    rewrite !acks_app.
    replace (acks ev) with (@nil Event) by (destruct Hev as [-> | ->]; reflexivity).
    cbn [acks flat_map app]. apply ackAddr_sendAck.
  - apply ackAddr_sendAck.
  - reflexivity.
Qed.

Lemma processUdp_addr (now : Z) (pending : list Datagram) :
  forall s,
    map ackAddr (acks (snd (processUdp now pending s))) =
      map frameAddr (List.filter framed (readThisPass pending)).
Proof.
  induction pending as [| d rest IH]; intros s; [reflexivity |].
  cbn [processUdp readThisPass].
  destruct (0 <? Z.of_nat (length (dgram d))); [| reflexivity].
  pose proof (processUdpPacket_addr now d s) as Hd.
  destruct (processUdpPacket now d s) as [s1 e1].
  specialize (IH s1). destruct (processUdp now rest s1) as [s2 e2].
  cbn [snd] in *. rewrite acks_app, map_app, Hd, IH.
  cbn [List.filter]. destruct (framed d); reflexivity.
Qed.

Lemma loop_addr (i : Input) (s : State) :
  map ackAddr (acks (snd (loop i s))) =
    map frameAddr
      (if in_wifi i then List.filter framed (readThisPass (in_pending i))
       else []).
Proof.
  rewrite loop_eq. cbn zeta. cbn [snd]. rewrite !acks_app.
  rewrite (proj1 (wifiTick_acks _ _ _)), otaTick_acks,
    (proj1 (actionTick_quiet _ _)).
  rewrite app_nil_r. cbn [app].
  destruct (in_wifi i); [apply processUdp_addr | reflexivity].
Qed.

(** X17.  Over any run from any state, the acknowledgements sent are, in
    order, one for each framed datagram read: each goes to the address and
    port its datagram came from and names that datagram's request id.
    Datagrams are read only in passes with the link up, and in a pass only
    up to the first empty datagram; nothing else in the firmware sends an
    acknowledgement. *)
Theorem X17_acks_match_frames (ins : list Input) :
  forall s,
    map ackAddr (acks (snd (run ins s))) = map frameAddr (framesRead ins).
Proof.
  induction ins as [| i rest IH]; intros s; [reflexivity |].
  cbn [run]. pose proof (loop_addr i s) as Hi.
  destruct (loop i s) as [s1 e1]. specialize (IH s1).
  destruct (run rest s1) as [s2 e2]. cbn [snd] in *.
  rewrite acks_app, map_app, Hi, IH.
  unfold framesRead. cbn [flat_map]. rewrite map_app. reflexivity.
Qed.

(* ================================================================== *)
(** ** A frame with a wrong length byte *)

(** X18.  A framed datagram whose length byte does not match what was read
    is answered with status 0 and not dispatched, but its id is recorded as
    the last one seen.  A well-formed frame that comes next with the same id
    is therefore taken for a retransmission: it is answered with status 0
    too, nothing is dispatched and the state does not change. *)
Theorem X18_bad_length_blocks_id (now now' : Z) (d d' : Datagram) (s : State) :
  framed d = true -> frameLenOk d = false ->
  framed d' = true -> frameLenOk d' = true -> frameId d' = frameId d ->
  let r := processUdpPacket now d s in
  let r' := processUdpPacket now' d' (fst r) in
  fst r = set_dedup (mkDedup (frameId d) true 0) s /\
  snd r = [EvAck (remoteIP d) (remotePort d) (ackBytes (frameId d) 0)] /\
  fst r' = fst r /\
  snd r' = [EvAck (remoteIP d') (remotePort d') (ackBytes (frameId d') 0)].
Proof.
  intros Hfr Hlen Hfr' Hlen' Hid. cbn zeta.
  rewrite (processUdpPacket_badlen now d s Hfr Hlen). cbn [fst snd].
  rewrite processUdpPacket_repeat; try assumption.
  - cbn [fst snd dedup set_dedup lastAckStatus]. unfold sendAck.
    repeat split; reflexivity.
  - unfold isRepeat. cbn [dedup set_dedup lastIdValid lastId].
    rewrite Hid, Z.eqb_refl. reflexivity.
Qed.

Lemma X18_bad_length_blocks_id_witness :
  let d := mkDatagram 0xC0A80001 4210 [MAGIC; VER; 0x05; 42; 0; 3] in
  let d' := mkFrame 0x05 42 [] in
  let r := processUdpPacket 1000 d boot in
  let r' := processUdpPacket 1001 d' (fst r) in
  fst r = set_dedup (mkDedup (frameId d) true 0) boot /\
  snd r = [EvAck (remoteIP d) (remotePort d) (ackBytes (frameId d) 0)] /\
  fst r' = fst r /\
  snd r' = [EvAck (remoteIP d') (remotePort d') (ackBytes (frameId d') 0)].
Proof.
  apply (X18_bad_length_blocks_id 1000 1001
           (mkDatagram 0xC0A80001 4210 [MAGIC; VER; 0x05; 42; 0; 3])
           (mkFrame 0x05 42 []) boot); reflexivity.
Defined.

(* ================================================================== *)
(** ** The code table *)

Lemma row_index (i : Z) :
  0 <= i < 27 -> In i (map Z.of_nat (seq 0 27)).
Proof.
  intros H. apply in_map_iff. exists (Z.to_nat i).
  split; [lia | apply in_seq; lia].
Qed.

(** X19.  The code table tells the 27 buttons apart: two codes are equal
    only for the same row and the same toggle value.  Every code fits in 12
    bits, and the two codes of a row differ in the toggle bit 0x800 only. *)
Theorem X19_rc5_codes_distinct (i j t t' : Z) :
  0 <= i < 27 -> 0 <= j < 27 -> (t = 0 \/ t = 1) -> (t' = 0 \/ t' = 1) ->
  (rc5Code i t = rc5Code j t' -> i = j /\ t = t') /\
  0 <= rc5Code i t < 4096 /\
  rc5Code i 1 = rc5Code i 0 + RC5_TOGGLE_MASK_12BIT.
Proof.
  intros Hi Hj Ht Ht'.
  set (rows := map Z.of_nat (seq 0 27)).
  set (all := list_prod rows [0; 1]).
  assert (Hp : In (i, t) all).
  { apply in_prod; [apply row_index; exact Hi |].
    destruct Ht as [-> | ->]; cbn; tauto. }
  assert (Hq : In (j, t') all).
  { apply in_prod; [apply row_index; exact Hj |].
    destruct Ht' as [-> | ->]; cbn; tauto. }
  assert (Hdistinct :
            forallb (fun p => forallb (fun q =>
              implb (rc5Code (fst p) (snd p) =? rc5Code (fst q) (snd q))
                    ((fst p =? fst q) && (snd p =? snd q))) all) all = true)
    by (vm_compute; reflexivity).
  assert (Hrange :
            forallb (fun p =>
              (0 <=? rc5Code (fst p) (snd p)) &&
              (rc5Code (fst p) (snd p) <? 4096) &&
              (rc5Code (fst p) 1 =? rc5Code (fst p) 0 + RC5_TOGGLE_MASK_12BIT))
              all = true)
    by (vm_compute; reflexivity).
  rewrite forallb_forall in Hdistinct, Hrange.
  specialize (Hdistinct _ Hp). rewrite forallb_forall in Hdistinct.
  specialize (Hdistinct _ Hq). specialize (Hrange _ Hp).
  cbn [fst snd] in Hdistinct, Hrange.
  apply andb_prop in Hrange as [Hrange Hpair].
  apply andb_prop in Hrange as [Hlo Hhi].
  apply Z.leb_le in Hlo. apply Z.ltb_lt in Hhi. apply Z.eqb_eq in Hpair.
  split; [| split; [lia | exact Hpair]].
  intros Heq. apply Z.eqb_eq in Heq. rewrite Heq in Hdistinct.
  cbn [implb] in Hdistinct. apply andb_prop in Hdistinct as [Ha Hb].
  apply Z.eqb_eq in Ha, Hb. split; assumption.
Qed.

Lemma X19_rc5_codes_distinct_witness :
  (rc5Code 2 0 = rc5Code 2 0 -> 2 = 2 /\ 0 = 0) /\
  0 <= rc5Code 2 0 < 4096 /\
  rc5Code 2 1 = rc5Code 2 0 + RC5_TOGGLE_MASK_12BIT.
Proof.
  apply (X19_rc5_codes_distinct 2 2 0 0); first [lia | left; reflexivity].
Defined.

(* ================================================================== *)
(** ** Retransmissions over a run *)

Lemma otaTick_dedup (now : Z) (wifi : bool) (s : State) :
  dedup (fst (otaTick now wifi s)) = dedup s.
Proof.
  unfold otaTick.
  repeat match goal with
         | |- context [if ?b then _ else _] => destruct b
         end; reflexivity.
Qed.

Lemma Intake_app (s s1 s2 : State) (f1 f2 : list Datagram)
    (t1 t2 : list Event) :
  Intake s f1 s1 t1 -> Intake s1 f2 s2 t2 -> Intake s (f1 ++ f2) s2 (t1 ++ t2).
Proof.
  induction 1 as [s | s s1' ev fs s' tr Hd Ha Hdi _ IH
                    | now d s fs s' tr Hfr _ IH]; intros H2.
  - exact H2.
  - rewrite <- app_assoc. apply (Intake_quiet s s1'); auto.
  - cbn [app]. rewrite <- app_assoc. apply Intake_frame; auto.
Qed.

Lemma Intake_step (s s1 : State) (ev : list Event) :
  dedup s1 = dedup s -> acks ev = [] -> dispatched ev = [] ->
  Intake s [] s1 ev.
Proof.
  intros Hd Ha Hdi. rewrite <- (app_nil_r ev).
  apply (Intake_quiet s s1); auto. apply Intake_done.
Qed.

Lemma processUdp_Intake (now : Z) (pending : list Datagram) :
  forall s,
    Intake s (List.filter framed (readThisPass pending))
      (fst (processUdp now pending s)) (snd (processUdp now pending s)).
Proof.
  induction pending as [| d rest IH]; intros s; [apply Intake_done |].
  cbn [processUdp readThisPass].
  destruct (0 <? Z.of_nat (length (dgram d))); [| apply Intake_done].
  cbn [List.filter]. destruct (framed d) eqn:Hfr.
  - pose proof (Intake_frame now d s _ _ _ Hfr
                  (IH (fst (processUdpPacket now d s)))) as H.
    destruct (processUdpPacket now d s) as [s1 e1]. cbn [fst snd] in *.
    destruct (processUdp now rest s1) as [s2 e2]. exact H.
  - rewrite processUdpPacket_dropped by exact Hfr.
    specialize (IH s). destruct (processUdp now rest s) as [s2 e2].
    exact IH.
Qed.

Lemma loop_Intake (i : Input) (s : State) :
  Intake s
    (if in_wifi i then List.filter framed (readThisPass (in_pending i))
     else [])
    (fst (loop i s)) (snd (loop i s)).
Proof.
  rewrite loop_eq. cbn zeta. cbn [fst snd].
  set (s0 := set_led _ s).
  set (r1 := wifiTick (in_now i) (in_wifi i) s0).
  pose proof (wifiTick_acks (in_now i) (in_wifi i) s0) as (Ha1 & Hd1 & _).
  pose proof (wifiTick_frame (in_now i) (in_wifi i) s0) as Hf1.
  cbn zeta in Hf1. destruct Hf1 as (_ & _ & _ & _ & Hdi1).
  fold r1 in Ha1, Hd1, Hdi1.
  set (r2 := if in_wifi i then processUdp _ _ _ else _).
  assert (H2 : Intake (fst r1)
                 (if in_wifi i
                  then List.filter framed (readThisPass (in_pending i))
                  else []) (fst r2) (snd r2)).
  { subst r2. destruct (in_wifi i);
      [apply processUdp_Intake | apply Intake_done]. }
  set (r3 := otaTick (in_now i) (in_wifi i) (fst r2)).
  set (r4 := actionTick (in_now i) (fst r3)).
  pose proof (otaTick_dedup (in_now i) (in_wifi i) (fst r2)) as Hd3.
  pose proof (otaTick_acks (in_now i) (in_wifi i) (fst r2)) as Ha3.
  pose proof (otaTick_frame (in_now i) (in_wifi i) (fst r2)) as Hf3.
  cbn zeta in Hf3. destruct Hf3 as (_ & _ & _ & Hdi3).
  pose proof (actionTick_quiet (in_now i) (fst r3))
    as (Ha4 & Hdi4 & _ & Hd4 & _).
  fold r3 in Hd3, Ha3, Hdi3. fold r4 in Ha4, Hdi4, Hd4.
  change (if in_wifi i
          then List.filter framed (readThisPass (in_pending i)) else [])
    with ([] ++ (if in_wifi i
                 then List.filter framed (readThisPass (in_pending i))
                 else [])).
  apply (Intake_app s (fst r1)).
  { apply Intake_step; [exact Hd1 | exact Ha1 | exact Hdi1]. }
  rewrite <- (app_nil_r (if in_wifi i then _ else _)).
  apply (Intake_app (fst r1) (fst r2)); [exact H2 |].
  change (@nil Datagram) with (@nil Datagram ++ []).
  apply (Intake_app (fst r2) (fst r3)).
  { apply Intake_step; [exact Hd3 | exact Ha3 | exact Hdi3]. }
  apply Intake_step; [| exact Ha4 | exact Hdi4].
  cbn [dedup set_siren]. exact Hd4.
Qed.

Lemma run_Intake (ins : list Input) :
  forall s, Intake s (framesRead ins) (fst (run ins s)) (snd (run ins s)).
Proof.
  induction ins as [| i rest IH]; intros s; [apply Intake_done |].
  cbn [run]. pose proof (loop_Intake i s) as Hi.
  destruct (loop i s) as [s1 e1]. specialize (IH s1).
  destruct (run rest s1) as [s2 e2]. cbn [fst snd] in *.
  unfold framesRead. cbn [flat_map].
  apply (Intake_app s s1); assumption.
Qed.

(** What the handling of a framed datagram emits: at most one dispatch,
    then one acknowledgement to the sender under the frame's id. *)
Lemma packet_shape (now : Z) (d : Datagram) (s : State) :
  framed d = true ->
  exists h0 st,
    snd (processUdpPacket now d s) =
      h0 ++ [EvAck (remoteIP d) (remotePort d) (ackBytes (frameId d) st)] /\
    acks h0 = [] /\ (length (dispatched h0) <= 1)%nat.
Proof.
  intros Hfr. packet_cases now d s; try discriminate.
  - exists [], (lastAckStatus (dedup s)). repeat split. cbn. lia.
  - pose proof (enqueueCommand_frame (frameCmd d) (framePayload d)
                  (framePlen d) now s) as Hf.
    destruct (enqueueCommand _ _ _ _ _) as [[ok s1] ev].
    cbn zeta in Hf. cbn [fst snd] in Hf.
    destruct Hf as (_ & _ & _ & _ & Hev).
    exists (EvDispatch (frameCmd d) :: ev), (if ok then 1 else 0).
    cbn [snd]. split; [reflexivity |].
    destruct Hev as [-> | ->]; cbn; split; try reflexivity; lia.
  - exists [], 0. repeat split. cbn. lia.
Qed.

Lemma ackBytes_length (id st : Z) : length (ackBytes id st) = 7%nat.
Proof. reflexivity. Qed.

(** After a framed datagram has been handled, and as long as the dedup
    record is the one that handling left, the next framed datagram handled,
    if it is the same one, draws the same acknowledgement and nothing
    else. *)
Lemma Intake_after (now1 : Z) (d : Datagram) (s : State) :
  forall s1 fs s' tr,
    Intake s1 fs s' tr ->
    forall post,
      fs = d :: post ->
      dedup s1 = dedup (fst (processUdpPacket now1 d s)) ->
      exists quiet tr3,
        tr = quiet ++ acks (snd (processUdpPacket now1 d s)) ++ tr3 /\
        acks quiet = [] /\ dispatched quiet = [].
Proof.
  induction 1 as [s1 | s1 s1' ev fs s' tr Hd Ha Hdi _ IH
                    | now d' s1 fs s' tr Hfr _ _]; intros post Hfs Hded.
  - discriminate.
  - destruct (IH post Hfs ltac:(congruence)) as (quiet & tr3 & -> & Hq1 & Hq2).
    exists (ev ++ quiet), tr3. rewrite <- app_assoc.
    split; [reflexivity |].
    rewrite acks_app, dispatched_app, Ha, Hdi, Hq1, Hq2. split; reflexivity.
  - injection Hfs as -> ->.
    destruct (retransmission_packet now1 now d s s1 Hded)
      as ((_ & Hsnd & _) & _).
    exists [], tr. rewrite Hsnd. repeat split.
Qed.

Lemma Intake_repeat (d : Datagram) (post : list Datagram) :
  forall s fs s' tr,
    Intake s fs s' tr ->
    forall pre,
      fs = pre ++ d :: d :: post ->
      exists tr0 h0 quiet tr3 st,
        let a := EvAck (remoteIP d) (remotePort d)
                   (ackBytes (frameId d) st) in
        tr = tr0 ++ h0 ++ [a] ++ quiet ++ [a] ++ tr3 /\
        length (acks tr0) = length pre /\
        acks h0 = [] /\ (length (dispatched h0) <= 1)%nat /\
        acks quiet = [] /\ dispatched quiet = [].
Proof.
  induction 1 as [s | s s1 ev fs s' tr Hd Ha Hdi _ IH
                    | now d' s fs s' tr Hfr Hrest IH]; intros pre Hfs.
  - destruct pre; discriminate.
  - destruct (IH pre Hfs) as (tr0 & h0 & quiet & tr3 & st & Htr & Hlen & Hrest).
    exists (ev ++ tr0), h0, quiet, tr3, st. cbn zeta in *.
    rewrite Htr, <- app_assoc. split; [reflexivity |].
    rewrite acks_app, Ha. exact (conj Hlen Hrest).
  - destruct pre as [| p pre'].
    + cbn [app] in Hfs. injection Hfs as -> ->.
      destruct (packet_shape now d s Hfr) as (h0 & st & Hsh & Hh1 & Hh2).
      destruct (Intake_after now d s _ _ _ _ Hrest post eq_refl eq_refl)
        as (quiet & tr3 & -> & Hq1 & Hq2).
      exists [], h0, quiet, tr3, st. cbn zeta.
      rewrite Hsh, acks_app, Hh1. cbn [acks flat_map app].
      rewrite <- !app_assoc. cbn [app].
      repeat split; assumption.
    + cbn [app] in Hfs. injection Hfs as -> ->.
      destruct (IH pre' eq_refl)
        as (tr0 & h0 & quiet & tr3 & st & Htr & Hlen & Hrest').
      exists (snd (processUdpPacket now p s) ++ tr0), h0, quiet, tr3, st.
      cbn zeta in *. rewrite Htr, <- app_assoc. split; [reflexivity |].
      split; [| exact Hrest'].
      rewrite acks_app, length_app, Hlen.
      pose proof (f_equal (@length _) (processUdpPacket_addr now p s)) as Hone.
      rewrite length_map, Hfr in Hone. rewrite Hone. reflexivity.
Qed.

(** C2, as stated, fails: the dedup record remembers the last request only.
    From boot, with the frame [press5] (command 0x05, id 1) received, then
    [press6] (command 0x06, id 2), then [press5] again, the command 0x05 is
    dispatched twice and its press is queued twice.  And with a frame of
    the same id and a wrong length byte received between the two
    receptions of [press5], the record holds id 1 as valid throughout, yet
    the first reception is acknowledged with status 1 and the second with
    status 0. *)
Lemma C2_counterexample :
  dispatched (snd (run [mkInput 1000 true [press5; press6; press5]] boot)) =
    [0x05; 0x06; 0x05] /\
  dequeued (snd (run [mkInput 1000 true [press5; press6; press5]] boot)) ++
  qList (queue (fst (run [mkInput 1000 true [press5; press6; press5]] boot))) =
    [mkAction Press 4; mkAction Press 5; mkAction Press 4] /\
  acks (snd (run [mkInput 1000 true [press5; press5BadLen; press5]] boot)) =
    [EvAck 0xC0A80001 4210 [MAGIC; VER; CMD_ACK; 1; 0; 1; 0];
     EvAck 0xC0A80001 4210 [MAGIC; VER; CMD_ACK; 1; 0; 0; 0];
     EvAck 0xC0A80001 4210 [MAGIC; VER; CMD_ACK; 1; 0; 0; 0]] /\
  map (fun d => lastId (dedup (fst (processUdp 1000 d boot))))
      [[press5]; [press5; press5BadLen]] = [1; 1].
Proof. vm_compute. repeat split. Qed.

(** C2, amended.  When the same framed datagram is read twice with no
    other framed datagram read in between, in any run from any state
    (engine ticks, passes with the link down and unframed datagrams may lie
    between the two receptions), both receptions are answered with the same
    acknowledgement, byte for byte, of 7 bytes, sent to the datagram's
    sender under its request id; the command is dispatched at most once, by
    the first reception, and nothing is dispatched from the first
    acknowledgement to the second.  And while the dedup record holds an id
    as valid, a frame with that id that passes the length test is answered
    with the stored status and nothing else happens: the state stays as it
    is and the dispatcher is not entered. *)
Theorem C2_retransmission :
  (forall (ins : list Input) (s : State) (pre post : list Datagram)
          (d : Datagram),
     framesRead ins = pre ++ d :: d :: post ->
     exists tr0 h0 quiet tr3 bytes,
       let a := EvAck (remoteIP d) (remotePort d) bytes in
       snd (run ins s) = tr0 ++ h0 ++ [a] ++ quiet ++ [a] ++ tr3 /\
       length (acks tr0) = length pre /\
       length bytes = 7%nat /\
       take 5 bytes = [MAGIC; VER; CMD_ACK] ++ writeU16LE (frameId d) /\
       acks h0 = [] /\ (length (dispatched h0) <= 1)%nat /\
       acks quiet = [] /\ dispatched quiet = []) /\
  (forall (now : Z) (d : Datagram) (s : State),
     framed d = true -> frameLenOk d = true ->
     lastIdValid (dedup s) = true -> frameId d = lastId (dedup s) ->
     processUdpPacket now d s =
       (s, [EvAck (remoteIP d) (remotePort d)
              (ackBytes (lastId (dedup s)) (lastAckStatus (dedup s)))])).
Proof.
  split.
  - intros ins s pre post d Hfs.
    destruct (Intake_repeat d post _ _ _ _ (run_Intake ins s) pre Hfs)
      as (tr0 & h0 & quiet & tr3 & st & Htr & Hlen & Hh1 & Hh2 & Hq1 & Hq2).
    exists tr0, h0, quiet, tr3, (ackBytes (frameId d) st). cbn zeta in *.
    split; [exact Htr |]. split; [exact Hlen |].
    split; [reflexivity |]. split; [reflexivity |].
    repeat split; assumption.
  - intros now d s Hfr Hlen Hv Hid.
    rewrite processUdpPacket_repeat; try assumption.
    + rewrite Hid. reflexivity.
    + unfold isRepeat. rewrite Hv, Hid. apply Z.eqb_refl.
Qed.

Lemma C2_retransmission_witness :
  let d := mkFrame 0x05 42 [] in
  let ins := [mkInput 1000 true [d]; mkInput 1100 false [mkFrame 0x06 43 []];
              mkInput 1200 true [mkDatagram 0 0 [1; 2; 3]; d]] in
  framesRead ins = [] ++ d :: d :: [] /\
  exists tr0 h0 quiet tr3 bytes,
    let a := EvAck (remoteIP d) (remotePort d) bytes in
    snd (run ins boot) = tr0 ++ h0 ++ [a] ++ quiet ++ [a] ++ tr3 /\
    length (acks tr0) = length (@nil Datagram) /\
    length bytes = 7%nat /\
    take 5 bytes = [MAGIC; VER; CMD_ACK] ++ writeU16LE (frameId d) /\
    acks h0 = [] /\ (length (dispatched h0) <= 1)%nat /\
    acks quiet = [] /\ dispatched quiet = [].
Proof.
  cbn zeta. split; [reflexivity |].
  apply (proj1 C2_retransmission
           [mkInput 1000 true [mkFrame 0x05 42 []];
            mkInput 1100 false [mkFrame 0x06 43 []];
            mkInput 1200 true [mkDatagram 0 0 [1; 2; 3]; mkFrame 0x05 42 []]]
           boot [] [] (mkFrame 0x05 42 [])).
  reflexivity.
Defined.
